(** * Submission lifecycle and review workflow

    A shallow embedding of the submission upload / edit / delete endpoints of
    [backend/routers/students.py], the status-update and admin-delete
    endpoints of [backend/routers/submissions.py], the doctor review endpoint
    of [backend/routers/doctor.py] and the table declarations of
    [backend/app/models.py], followed by the properties of the review state
    machine and of the file handling. *)

From Stdlib Require Import ZArith NArith Ascii String DecimalString Lia.
From Stdlib.Strings Require Import Byte.
From Stdlib Require QArith.
From stdpp Require Import base option list strings gmap.

Local Open Scope Z_scope.

(** ** Python strings

    A Python [str] is a sequence of Unicode code points.  Literals of the
    source are written [py "..."]. *)

Module PyStr.

Definition str := list N.

Definition py (s : string) : str :=
  List.map N_of_ascii (list_ascii_of_string s).

(** [s1 == s2] *)
Definition eqb (a b : str) : bool := bool_decide (a = b).

(** [s in {...}] for a set of string literals. *)
Definition mem (a : str) (l : list str) : bool := bool_decide (a ∈ l).

(** [str.lower()].  Only 'A'..'Z' are folded.  The source compares lowered
    strings with ASCII literals only ("student", "admin", "doctor" and the
    file extensions); a string with a code point outside ASCII never
    lowers to one of these literals, so the comparison results are those
    of Python. *)
Definition lower_char (c : N) : N :=
  if ((65 <=? c) && (c <=? 90))%N then (c + 32)%N else c.

Definition lower (s : str) : str := List.map lower_char s.

(** [str.isspace()] on one code point: the whitespace table of CPython. *)
Definition isspace (c : N) : bool :=
  (((9 <=? c) && (c <=? 13)) || ((28 <=? c) && (c <=? 32))
   || (c =? 133) || (c =? 160) || (c =? 5760)
   || ((8192 <=? c) && (c <=? 8202))
   || (c =? 8232) || (c =? 8233) || (c =? 8239) || (c =? 8287)
   || (c =? 12288))%N.

Fixpoint lstrip (s : str) : str :=
  match s with
  | [] => []
  | c :: t => if isspace c then lstrip t else s
  end.

Definition rstrip (s : str) : str := rev (lstrip (rev s)).

(** [str.strip()] *)
Definition strip (s : str) : str := rstrip (lstrip s).

(** Truthiness of a string: [bool(s)]. *)
Definition truthy (s : str) : bool :=
  match s with [] => false | _ => true end.

(** [s or d] *)
Definition or_default (s : option str) (d : str) : str :=
  match s with
  | Some x => if truthy x then x else d
  | None => d
  end.

(** [s or None] *)
Definition or_none (s : option str) : option str :=
  match s with
  | Some x => if truthy x then Some x else None
  | None => None
  end.

(** [s.startswith(p)] *)
Fixpoint startswith (p s : str) : bool :=
  match p, s with
  | [], _ => true
  | _ :: _, [] => false
  | a :: p', b :: s' => (a =? b)%N && startswith p' s'
  end.

(** [s.replace(p, "")] for a non-empty [p]: the occurrences of [p] are
    removed from left to right, without overlap. *)
Fixpoint remove_all_fuel (fuel : nat) (p s : str) : str :=
  match fuel with
  | O => s
  | S fuel' =>
      match s with
      | [] => []
      | c :: t =>
          if startswith p s
          then remove_all_fuel fuel' p (drop (length p) s)
          else c :: remove_all_fuel fuel' p t
      end
  end.

Definition remove_all (p s : str) : str :=
  match p with
  | [] => s
  | _ => remove_all_fuel (length s) p s
  end.

(** [s.split(sep)] for a one-character separator. *)
Fixpoint split (sep : N) (s : str) : list str :=
  match s with
  | [] => [[]]
  | c :: t =>
      if (c =? sep)%N then [] :: split sep t
      else match split sep t with
           | [] => [[c]]
           | w :: ws => (c :: w) :: ws
           end
  end.

(** [s.rfind(c)]: index of the last occurrence, [None] for Python's -1. *)
Fixpoint rfind (c : N) (s : str) : option nat :=
  match s with
  | [] => None
  | x :: t =>
      match rfind c t with
      | Some i => Some (S i)
      | None => if (x =? c)%N then Some O else None
      end
  end.

End PyStr.

Import PyStr.

(** ** pathlib, POSIX flavour

    A path is its anchor and its components.  Parsing drops empty and "."
    components; exactly two leading slashes give the root "//".  The file
    store below holds regular files only (no symbolic links) and the
    directories on a path are taken to exist, so [resolve] and the lookup
    of a file are the normalisation of ".." against the working
    directory. *)

Module PathLib.

Inductive anchor := Rel | Root | Root2.

#[export] Instance anchor_eq_dec : EqDecision anchor.
Proof. solve_decision. Defined.

Record Path := mkPath { p_anchor : anchor; p_parts : list str }.

#[export] Instance Path_eq_dec : EqDecision Path.
Proof. solve_decision. Defined.

Definition slash : N := 47.
Definition dot : N := 46.

Fixpoint leading_slashes (s : str) : nat :=
  match s with
  | c :: t => if (c =? slash)%N then S (leading_slashes t) else O
  | [] => O
  end.

Definition keep_part (p : str) : bool :=
  negb (eqb p []) && negb (eqb p [dot]).

(** [Path(s)] *)
Definition parse (s : str) : Path :=
  let a := match leading_slashes s with
           | O => Rel
           | 2%nat => Root2
           | _ => Root
           end in
  mkPath a (List.filter keep_part (split slash s)).

(** [p.name] *)
Definition name (p : Path) : str := List.last (p_parts p) [].

(** [p.suffix] *)
Definition suffix (p : Path) : str :=
  let n := name p in
  match rfind dot n with
  | Some i =>
      if bool_decide (0 < i < length n - 1)%nat then drop i n else []
  | None => []
  end.

(** [p / q] *)
Definition joinpath (p q : Path) : Path :=
  match p_anchor q with
  | Rel => mkPath (p_anchor p) (p_parts p ++ p_parts q)
  | _ => q
  end.

(** Collapse ".." components, left to right, on a stack. *)
Fixpoint collapse (stack : list str) (parts : list str) : list str :=
  match parts with
  | [] => rev stack
  | c :: t =>
      if eqb c [dot; dot]
      then collapse (List.tl stack) t
      else collapse (c :: stack) t
  end.

(** [p.resolve()] with working directory [cwd] (absolute components). *)
Definition resolve (cwd : list str) (p : Path) : Path :=
  match p_anchor p with
  | Rel => mkPath Root (collapse [] (cwd ++ p_parts p))
  | a => mkPath a (collapse [] (p_parts p))
  end.

Fixpoint is_prefix (a b : list str) : bool :=
  match a, b with
  | [], _ => true
  | _ :: _, [] => false
  | x :: a', y :: b' => eqb x y && is_prefix a' b'
  end.

(** [p.is_relative_to(q)] *)
Definition is_relative_to (p q : Path) : bool :=
  bool_decide (p_anchor p = p_anchor q) && is_prefix (p_parts q) (p_parts p).

End PathLib.

Import PathLib.

(** ** Tables of [app/models.py] *)

Module Models.

Definition Grade := QArith_base.Q.

Record User := mkUser {
  id : Z;
  role : option str
}.

Record Assignment := mkAssignment {
  a_assignment_id : Z;
  created_by : Z;
  deadline : option Z
}.

(** [status], [file_path] and the other columns declared [nullable=False]
    hold a value; the optional columns hold an [option]. *)
Record Submission := mkSubmission {
  submission_id : Z;
  assignment_id : Z;
  student_id : Z;
  original_filename : str;
  file_path : str;
  file_type : str;
  submitted_at : Z;
  status : str;
  student_notes : option str;
  mime_type : option str;
  file_size : option Z
}.

Record SubmissionFeedback := mkSubmissionFeedback {
  feedback_id : Z;
  fb_submission_id : Z;
  doctor_id : Z;
  feedback_text : option str;
  grade : option Grade;
  created_at : Z
}.

(** The attributes of the mapped classes, as [hasattr] sees them: the
    columns and the relationships. *)
Definition Submission_attrs : list str :=
  [py "submission_id"; py "assignment_id"; py "student_id";
   py "original_filename"; py "file_path"; py "file_type";
   py "submitted_at"; py "status"; py "student_notes"; py "mime_type";
   py "file_size"; py "assignment"; py "feedback"].

Definition SubmissionFeedback_attrs : list str :=
  [py "feedback_id"; py "submission_id"; py "doctor_id";
   py "feedback_text"; py "grade"; py "created_at"; py "submission"].

Definition Assignment_attrs : list str :=
  [py "assignment_id"; py "title"; py "description"; py "type_id";
   py "department_id"; py "created_by"; py "target_year"; py "deadline";
   py "max_grade"; py "max_file_size_mb"; py "instructions";
   py "is_active"; py "created_at"; py "updated_at"; py "assignment_type";
   py "department"; py "doctor"; py "submissions"].

(** [getattr(row, col)] for the integer columns. *)
Definition Submission_getattr (s : Submission) (col : str) : option Z :=
  if eqb col (py "submission_id") then Some (submission_id s)
  else if eqb col (py "assignment_id") then Some (assignment_id s)
  else if eqb col (py "student_id") then Some (student_id s)
  else if eqb col (py "file_size") then file_size s
  else None.

Definition Assignment_getattr (a : Assignment) (col : str) : option Z :=
  if eqb col (py "assignment_id") then Some (a_assignment_id a)
  else if eqb col (py "created_by") then Some (created_by a)
  else if eqb col (py "deadline") then deadline a
  else None.

Definition set_submission_id (i : Z) (s : Submission) : Submission :=
  mkSubmission i (assignment_id s) (student_id s) (original_filename s)
    (file_path s) (file_type s) (submitted_at s) (status s)
    (student_notes s) (mime_type s) (file_size s).

Definition set_status (st : str) (s : Submission) : Submission :=
  mkSubmission (submission_id s) (assignment_id s) (student_id s)
    (original_filename s) (file_path s) (file_type s) (submitted_at s) st
    (student_notes s) (mime_type s) (file_size s).

Definition set_student_notes (n : option str) (s : Submission)
  : Submission :=
  mkSubmission (submission_id s) (assignment_id s) (student_id s)
    (original_filename s) (file_path s) (file_type s) (submitted_at s)
    (status s) n (mime_type s) (file_size s).

Definition set_file (fname fpath ftype : str) (at_ : Z) (s : Submission)
  : Submission :=
  mkSubmission (submission_id s) (assignment_id s) (student_id s)
    fname fpath ftype at_ (status s) (student_notes s) (mime_type s)
    (file_size s).

Definition set_feedback_text (t : str) (f : SubmissionFeedback)
  : SubmissionFeedback :=
  mkSubmissionFeedback (feedback_id f) (fb_submission_id f) (doctor_id f)
    (Some t) (grade f) (created_at f).

Definition set_grade (g : Grade) (f : SubmissionFeedback)
  : SubmissionFeedback :=
  mkSubmissionFeedback (feedback_id f) (fb_submission_id f) (doctor_id f)
    (feedback_text f) (Some g) (created_at f).

Definition set_doctor_id (d : Z) (f : SubmissionFeedback)
  : SubmissionFeedback :=
  mkSubmissionFeedback (feedback_id f) (fb_submission_id f) d
    (feedback_text f) (grade f) (created_at f).

End Models.

Import Models.

(** ** The database session

    The tables are lists of rows in insertion order.  A session collects the
    pending changes of one request; [flush] applies them under the
    constraints that [app/models.py] declares, and [commit] makes them
    durable or fails and leaves the tables as they were. *)

Module Db.

Record DB := mkDB {
  Submission_table : list Submission;
  SubmissionFeedback_table : list SubmissionFeedback;
  Assignment_table : list Assignment
}.

(** [db.query(Submission).filter(submission_id == sid).first()] *)
Definition get_submission (d : DB) (sid : Z) : option Submission :=
  List.find (fun s => submission_id s =? sid) (Submission_table d).

(** [db.query(SubmissionFeedback).filter(submission_id == sid).first()] *)
Definition get_feedback (d : DB) (sid : Z) : option SubmissionFeedback :=
  List.find (fun f => fb_submission_id f =? sid)
    (SubmissionFeedback_table d).

(** [db.query(Assignment).filter(assignment_id == aid).first()] *)
Definition get_assignment (d : DB) (aid : Z) : option Assignment :=
  List.find (fun a => a_assignment_id a =? aid) (Assignment_table d).

(** What [commit] can raise. *)
Inductive DbError := IntegrityError | OtherError.

(** Keyword arguments of the [SubmissionFeedback] constructor; [doctor_id] is
    absent when the source does not pass it. *)
Record FeedbackKwargs := mkFeedbackKwargs {
  kw_submission_id : Z;
  kw_feedback_text : option str;
  kw_grade : option Grade;
  kw_doctor_id : option Z
}.

Inductive Pending :=
| Add_Submission (row : Submission)
| Dirty_Submission (row : Submission)
| Delete_Submission (row : Submission)
| Add_Feedback (kw : FeedbackKwargs)
| Dirty_Feedback (row : SubmissionFeedback).

(** Integer primary keys: one more than the largest key of the table. *)
Definition next_submission_id (d : DB) : Z :=
  1 + List.fold_right (fun s m => Z.max (submission_id s) m) 0
        (Submission_table d).

Definition next_feedback_id (d : DB) : Z :=
  1 + List.fold_right (fun f m => Z.max (feedback_id f) m) 0
        (SubmissionFeedback_table d).

Definition replace_submission (row : Submission) (l : list Submission)
  : list Submission :=
  List.map (fun s => if submission_id s =? submission_id row
                     then row else s) l.

Definition replace_feedback (row : SubmissionFeedback)
    (l : list SubmissionFeedback) : list SubmissionFeedback :=
  List.map (fun f => if feedback_id f =? feedback_id row
                     then row else f) l.

(** One pending change.
    - An inserted feedback row needs a [doctor_id] ([nullable=False], no
      default) and a [submission_id] no other row has ([unique=True]).
    - [Submission.feedback] is a relationship without delete cascade:
      deleting a submission makes the session detach its feedback rows by
      setting their [submission_id] to NULL, which the [nullable=False]
      of that column refuses.
    - An inserted feedback row is stamped with the clock of the request:
      the doctor router sets [created_at] from [datetime.utcnow()], the
      other routers leave it to the [CURRENT_TIMESTAMP] default of the
      column, taken here to read the same instant. *)
Definition flush1 (now : Z) (d : DB) (p : Pending) : DbError + DB :=
  match p with
  | Add_Submission row =>
      inr (mkDB
             (Submission_table d
                ++ [set_submission_id (next_submission_id d) row])
             (SubmissionFeedback_table d) (Assignment_table d))
  | Dirty_Submission row =>
      inr (mkDB (replace_submission row (Submission_table d))
             (SubmissionFeedback_table d) (Assignment_table d))
  | Delete_Submission row =>
      if List.existsb (fun f => fb_submission_id f =? submission_id row)
           (SubmissionFeedback_table d)
      then inl IntegrityError
      else inr (mkDB
                  (List.filter
                     (fun s => negb (submission_id s =? submission_id row))
                     (Submission_table d))
                  (SubmissionFeedback_table d) (Assignment_table d))
  | Add_Feedback kw =>
      match kw_doctor_id kw with
      | None => inl IntegrityError
      | Some doc =>
          if List.existsb
               (fun f => fb_submission_id f =? kw_submission_id kw)
               (SubmissionFeedback_table d)
          then inl IntegrityError
          else inr (mkDB (Submission_table d)
                      (SubmissionFeedback_table d
                         ++ [mkSubmissionFeedback (next_feedback_id d)
                               (kw_submission_id kw) doc
                               (kw_feedback_text kw) (kw_grade kw) now])
                      (Assignment_table d))
      end
  | Dirty_Feedback row =>
      inr (mkDB (Submission_table d)
             (replace_feedback row (SubmissionFeedback_table d))
             (Assignment_table d))
  end.

Fixpoint flush (now : Z) (d : DB) (ps : list Pending) : DbError + DB :=
  match ps with
  | [] => inr d
  | p :: ps' =>
      match flush1 now d p with
      | inl e => inl e
      | inr d' => flush now d' ps'
      end
  end.

End Db.

Import Db.

(** ** Requests: configuration, environment, world, effects *)

Module Runtime.

(** [core/config.py]: the settings the routers read ([UPLOAD_DIR], and
    [MAX_UPLOAD_MB] with its default of 50), and the working directory
    relative paths are resolved against. *)
Record Settings := mkSettings {
  UPLOAD_DIR_setting : str;
  MAX_UPLOAD_MB : Z;
  cwd : list str
}.

(** What one request takes from outside the program: the clock
    ([datetime.utcnow()], read once per request), [uuid4().hex], and
    whether the database fails at commit for a reason of its own. *)
Record Env := mkEnv {
  now : Z;
  uuid_hex : str;
  db_fault : option DbError
}.

Record UploadFile := mkUploadFile {
  filename : option str;
  content_type : option str;
  body : list byte
}.

Record HTTPException := mkHTTPException {
  status_code : Z;
  detail : str
}.

(** Effects on the outside, in the order they happen. *)
Inductive Event :=
| EvOpen (p : list str)
| EvWrite (p : list str) (n : nat)
| EvUnlink (p : list str)
| EvCommit
| EvRollback.

#[export] Instance Event_eq_dec : EqDecision Event.
Proof. solve_decision. Defined.

Record World := mkWorld {
  db : DB;
  files : gmap (list str) (list byte);
  trace : list Event
}.

Inductive outcome (A : Type) :=
| Return (a : A)
| Raise (e : HTTPException).
Arguments Return {A} a.
Arguments Raise {A} e.

Definition M (A : Type) : Type := World -> outcome A * World.

Definition ret {A} (a : A) : M A := fun w => (Return a, w).

Definition bind {A B} (m : M A) (k : A -> M B) : M B :=
  fun w =>
    match m w with
    | (Return a, w') => k a w'
    | (Raise e, w') => (Raise e, w')
    end.

Definition raise {A} (e : HTTPException) : M A := fun w => (Raise e, w).

Definition get_db : M DB := fun w => (Return (db w), w).

Definition log (e : Event) : M unit :=
  fun w => (Return tt, mkWorld (db w) (files w) (trace w ++ [e])).

(** The key of a path in the file store. *)
Definition fs_key (cfg : Settings) (p : Path) : list str :=
  p_parts (resolve (cwd cfg) p).

(** [p.is_file()] *)
Definition is_file (cfg : Settings) (p : Path) : M bool :=
  fun w => (Return (bool_decide (is_Some (files w !! fs_key cfg p))), w).

(** [p.open("wb")]: the file is created, or truncated. *)
Definition open_wb (cfg : Settings) (p : Path) : M unit :=
  fun w =>
    (Return tt,
     mkWorld (db w) (<[fs_key cfg p := []]> (files w))
       (trace w ++ [EvOpen (fs_key cfg p)])).

(** [out.write(chunk)] *)
Definition write (cfg : Settings) (p : Path) (chunk : list byte) : M unit :=
  fun w =>
    (Return tt,
     mkWorld (db w)
       (<[fs_key cfg p := default [] (files w !! fs_key cfg p) ++ chunk]>
          (files w))
       (trace w ++ [EvWrite (fs_key cfg p) (length chunk)])).

(** [p.unlink()].  Both callers swallow the error of a missing file. *)
Definition unlink (cfg : Settings) (p : Path) : M unit :=
  fun w =>
    match files w !! fs_key cfg p with
    | Some _ =>
        (Return tt,
         mkWorld (db w) (delete (fs_key cfg p) (files w))
           (trace w ++ [EvUnlink (fs_key cfg p)]))
    | None => (Return tt, w)
    end.

(** [db.commit()]: [None] when the pending changes are committed,
    otherwise the exception, with the tables as they were. *)
Definition commit (env : Env) (ps : list Pending) : M (option DbError) :=
  fun w =>
    match db_fault env with
    | Some e => (Return (Some e), w)
    | None =>
        match flush (now env) (db w) ps with
        | inl e => (Return (Some e), w)
        | inr d' =>
            (Return None, mkWorld d' (files w) (trace w ++ [EvCommit]))
        end
    end.

(** [db.rollback()] *)
Definition rollback : M unit := log EvRollback.

(** [f"{n}"] *)
Definition str_of_Z (n : Z) : str := py (NilZero.string_of_int (Z.to_int n)).

Definition HTTP {A} (code : Z) (msg : str) : M A :=
  raise (mkHTTPException code msg).

End Runtime.

Import Runtime.

Notation "x <- c1 ;; c2" := (bind c1 (fun x => c2))
  (at level 100, c1 at next level, right associativity).
Notation "c1 ;;; c2" := (bind c1 (fun _ => c2))
  (at level 100, right associativity).

(** ** [routers/students.py] *)

Module Students.

Definition UPLOAD_DIR (cfg : Settings) : Path :=
  parse (UPLOAD_DIR_setting cfg).

Definition CHUNK_SIZE : Z := 1024 * 1024.

Definition IMAGE_EXTS : list str :=
  [py ".jpg"; py ".jpeg"; py ".png"; py ".gif"; py ".bmp"; py ".webp";
   py ".tif"; py ".tiff"].
Definition PPT_EXTS : list str := [py ".ppt"; py ".pptx"].
Definition PDF_EXTS : list str := [py ".pdf"].
Definition OTHER_ALLOWED_EXTS : list str :=
  [py ".doc"; py ".docx"; py ".txt"; py ".rtf"; py ".zip"; py ".rar";
   py ".7z"; py ".xlsx"; py ".xls"; py ".csv"; py ".md"].
Definition ALLOWED_EXTS : list str :=
  IMAGE_EXTS ++ PPT_EXTS ++ PDF_EXTS ++ OTHER_ALLOWED_EXTS.

Definition VALID_STATUSES : list str :=
  [py "Pending"; py "Accepted"; py "Rejected"; py "NeedsRevision"].

Definition _has_attr (attrs : list str) (name : str) : bool :=
  mem name attrs.

Definition _require_student (user : User) : M unit :=
  if negb (mem (lower (or_default (role user) [])) [py "student"])
  then HTTP 403 (py "Student role required")
  else ret tt.

Definition _infer_file_type (filename : str) : str :=
  let ext := lower (suffix (parse filename)) in
  if mem ext IMAGE_EXTS then py "Image"
  else if mem ext PPT_EXTS then py "PPT"
  else if mem ext PDF_EXTS then py "PDF"
  else py "Other".

Definition _safe_name (filename : str) : str :=
  name (parse (or_default (Some filename) (py "upload"))).

Definition _unique_disk_name (env : Env) (safe_name : str) : str :=
  uuid_hex env ++ py "_" ++ safe_name.

Definition _public_path_for (unique_name : str) : str :=
  py "/uploads/" ++ unique_name.

(** The [while True] loop of [_save_stream_to_disk]; [None] when the fuel
    is used up before the stream ends. *)
Fixpoint save_loop (fuel : nat) (cfg : Settings) (dest : Path)
    (stream : list byte) (total : Z) : M (option Z) :=
  match fuel with
  | O => ret None
  | S fuel' =>
      let chunk := take (Z.to_nat CHUNK_SIZE) stream in
      match chunk with
      | [] => ret (Some total)
      | _ :: _ =>
          let total' := total + Z.of_nat (length chunk) in
          if total' >? MAX_UPLOAD_MB cfg * 1024 * 1024
          then
            unlink cfg dest ;;;
            HTTP 413 (py "File exceeds " ++ str_of_Z (MAX_UPLOAD_MB cfg)
                        ++ py " MB limit")
          else
            write cfg dest chunk ;;;
            save_loop fuel' cfg dest (drop (Z.to_nat CHUNK_SIZE) stream)
              total'
      end
  end.

(** Every turn of the loop with a non-empty chunk consumes a byte, so
    [S (length (body file))] turns are enough; the last branch is never
    taken. *)
Definition _save_stream_to_disk (cfg : Settings) (file : UploadFile)
    (dest : Path) : M (Z * str) :=
  let mime := or_default (content_type file) [] in
  open_wb cfg dest ;;;
  r <- save_loop (S (length (body file))) cfg dest (body file) 0 ;;
  match r with
  | Some total => ret (total, mime)
  | None => HTTP 500 (py "Internal Server Error")
  end.

(** [_to_read(row)]: the response shows the row. *)
Definition _to_read (row : Submission) : Submission := row.

Definition _ensure_submission_ownership (sub : Submission) (user_id : Z)
  : M unit :=
  if negb (student_id sub =? user_id)
  then HTTP 403 (py "Not your submission")
  else ret tt.

Definition _validate_submission_for_edit (sub : Submission)
    (allow_when_needs_revision : bool) : M unit :=
  if eqb (status sub) (py "Pending") then ret tt
  else if allow_when_needs_revision && eqb (status sub) (py "NeedsRevision")
  then ret tt
  else HTTP 400 (py "Cannot modify a submission in status '"
                   ++ status sub ++ py "'").

Definition _assignment_time_window_ok (env : Env) (assignment : Assignment)
  : bool :=
  let starts :=
    match List.find (_has_attr Assignment_attrs)
            [py "start_at"; py "start_date"; py "open_at";
             py "available_from"] with
    | Some col => Assignment_getattr assignment col
    | None => None
    end in
  let ends :=
    match List.find (_has_attr Assignment_attrs)
            [py "due_at"; py "due_date"; py "deadline"; py "close_at";
             py "available_until"] with
    | Some col => Assignment_getattr assignment col
    | None => None
    end in
  if match starts with Some s => now env <? s | None => false end
  then false
  else if match ends with Some e => now env >? e | None => false end
  then false
  else true.

Definition _remove_disk_file_if_local (cfg : Settings) (public_path : str)
  : M unit :=
  let name_ := name (parse public_path) in
  let candidate := joinpath (UPLOAD_DIR cfg) (parse name_) in
  f <- is_file cfg candidate ;;
  if f && is_relative_to (resolve (cwd cfg) candidate)
            (resolve (cwd cfg) (UPLOAD_DIR cfg))
  then unlink cfg candidate
  else ret tt.

Definition create_submission (cfg : Settings) (env : Env)
    (assignment_id : Z) (file : UploadFile) (student_notes : option str)
    (current_user : User) : M Submission :=
  _require_student current_user ;;;
  if assignment_id <=? 0
  then HTTP 400 (py "assignment_id must be positive")
  else
    d <- get_db ;;
    match get_assignment d assignment_id with
    | None => HTTP 404 (py "Assignment not found")
    | Some assignment =>
        if negb (_assignment_time_window_ok env assignment)
        then HTTP 400 (py "Submission window is closed or not yet open")
        else
          let safe_name :=
            _safe_name (or_default (filename file) (py "upload")) in
          let ext := lower (suffix (parse safe_name)) in
          if truthy ext && negb (mem ext ALLOWED_EXTS)
          then HTTP 400 (py "File type '" ++ ext ++ py "' is not allowed")
          else
            let unique_name := _unique_disk_name env safe_name in
            let dest := joinpath (UPLOAD_DIR cfg) (parse unique_name) in
            _ <- _save_stream_to_disk cfg file dest ;;
            let file_type_ := _infer_file_type safe_name in
            let public_path := _public_path_for unique_name in
            let row :=
              mkSubmission 0 assignment_id (id current_user) safe_name
                public_path file_type_ (now env) (py "Pending")
                (or_none student_notes) None None in
            r <- commit env [Add_Submission row] ;;
            match r with
            | None =>
                ret (_to_read
                       (set_submission_id (next_submission_id d) row))
            | Some IntegrityError =>
                _remove_disk_file_if_local cfg public_path ;;;
                rollback ;;;
                HTTP 400 (py "You have already submitted for this assignment")
            | Some OtherError =>
                _remove_disk_file_if_local cfg public_path ;;;
                rollback ;;;
                HTTP 500 (py "Failed to create submission")
            end
    end.

Definition update_submission_notes (env : Env) (submission_id : Z)
    (student_notes : option str) (current_user : User) : M Submission :=
  _require_student current_user ;;;
  d <- get_db ;;
  match get_submission d submission_id with
  | None => HTTP 404 (py "Submission not found")
  | Some sub =>
      _ensure_submission_ownership sub (id current_user) ;;;
      _validate_submission_for_edit sub true ;;;
      let sub' := set_student_notes (or_none student_notes) sub in
      r <- commit env [Dirty_Submission sub'] ;;
      match r with
      | None => ret (_to_read sub')
      | Some _ => rollback ;;; HTTP 500 (py "Failed to update notes")
      end
  end.

Definition replace_submission_file (cfg : Settings) (env : Env)
    (submission_id : Z) (file : UploadFile) (current_user : User)
  : M Submission :=
  _require_student current_user ;;;
  d <- get_db ;;
  match get_submission d submission_id with
  | None => HTTP 404 (py "Submission not found")
  | Some sub =>
      _ensure_submission_ownership sub (id current_user) ;;;
      _validate_submission_for_edit sub true ;;;
      let safe_name :=
        _safe_name (or_default (filename file) (py "upload")) in
      let ext := lower (suffix (parse safe_name)) in
      if truthy ext && negb (mem ext ALLOWED_EXTS)
      then HTTP 400 (py "File type '" ++ ext ++ py "' is not allowed")
      else
        let unique_name := _unique_disk_name env safe_name in
        let dest := joinpath (UPLOAD_DIR cfg) (parse unique_name) in
        _ <- _save_stream_to_disk cfg file dest ;;
        let new_public := _public_path_for unique_name in
        let old_public := file_path sub in
        let sub' :=
          set_file safe_name new_public (_infer_file_type safe_name)
            (now env) sub in
        r <- commit env [Dirty_Submission sub'] ;;
        match r with
        | None =>
            (if truthy old_public && negb (eqb old_public new_public)
             then _remove_disk_file_if_local cfg old_public
             else ret tt) ;;;
            ret (_to_read sub')
        | Some _ =>
            _remove_disk_file_if_local cfg new_public ;;;
            rollback ;;;
            HTTP 500 (py "Failed to replace submission file")
        end
  end.

Definition delete_submission (cfg : Settings) (env : Env)
    (submission_id : Z) (allow_when_needs_revision : bool)
    (current_user : User) : M unit :=
  _require_student current_user ;;;
  d <- get_db ;;
  match get_submission d submission_id with
  | None => HTTP 404 (py "Submission not found")
  | Some sub =>
      _ensure_submission_ownership sub (id current_user) ;;;
      _validate_submission_for_edit sub allow_when_needs_revision ;;;
      let old_public := file_path sub in
      r <- commit env [Delete_Submission sub] ;;
      match r with
      | None => _remove_disk_file_if_local cfg old_public
      | Some _ => rollback ;;; HTTP 500 (py "Failed to delete submission")
      end
  end.

End Students.

(** ** [routers/submissions.py] *)

Module Submissions.

Definition UPLOAD_DIR (cfg : Settings) : Path :=
  parse (UPLOAD_DIR_setting cfg).

Definition VALID_STATUSES : list str :=
  [py "Pending"; py "Accepted"; py "Rejected"; py "NeedsRevision"].

Record StatusUpdatePayload := mkStatusUpdatePayload {
  p_status : str;
  p_grade : option Grade;
  p_feedback_text : option str
}.

(** [SubmissionDetailResponse]: the submission row and the feedback row
    read back after the commit. *)
Definition SubmissionDetailResponse : Type :=
  Submission * option SubmissionFeedback.

Definition _has_attr (attrs : list str) (name : str) : bool :=
  mem name attrs.

Definition _require_admin_or_doctor (user : User) : M unit :=
  let role_ := lower (or_default (role user) []) in
  if negb (mem role_ [py "admin"; py "doctor"])
  then HTTP 403 (py "Admin or doctor role required")
  else ret tt.

Definition _is_doctor (user : User) : bool :=
  eqb (lower (or_default (role user) [])) (py "doctor").

Definition _submission_is_assigned_to_doctor (d : DB) (sub : Submission)
    (doctor_user_id : Z) : bool :=
  match List.find (_has_attr Submission_attrs)
          [py "doctor_id"; py "assigned_doctor_id"; py "reviewer_id"] with
  | Some col =>
      bool_decide (Submission_getattr sub col = Some doctor_user_id)
  | None =>
      match (if _has_attr Submission_attrs (py "assignment")
             then get_assignment d (assignment_id sub) else None) with
      | Some a =>
          match List.find (_has_attr Assignment_attrs)
                  [py "doctor_id"; py "reviewer_id"] with
          | Some col =>
              bool_decide (Assignment_getattr a col = Some doctor_user_id)
          | None => true
          end
      | None => true
      end
  end.

Definition _disk_path_from_public (cfg : Settings) (public_path : str)
  : Path :=
  if negb (truthy public_path)
  then joinpath (UPLOAD_DIR cfg) (parse [])
  else
    let name_ :=
      if startswith (py "/uploads/") public_path
      then remove_all (py "/uploads/") public_path
      else name (parse public_path) in
    joinpath (UPLOAD_DIR cfg) (parse name_).

(** The pending changes of the feedback upsert.  [Submission] has neither
    [reviewed_at] nor [updated_at], and [SubmissionFeedback] has no
    [updated_at], so [_touch_updated] changes nothing.  The [doctor_id] of
    a stored row is never NULL, so "missing" is the value 0. *)
Definition upsert_feedback (body : StatusUpdatePayload)
    (submission_id : Z) (current_user : User)
    (fb : option SubmissionFeedback) : list Pending :=
  let has_any_feedback :=
    bool_decide (p_feedback_text body <> None)
    || bool_decide (p_grade body <> None) in
  if has_any_feedback
  then
    match fb with
    | Some fb0 =>
        let fb1 := match p_feedback_text body with
                   | Some t => set_feedback_text t fb0
                   | None => fb0
                   end in
        let fb2 := match p_grade body with
                   | Some g => set_grade g fb1
                   | None => fb1
                   end in
        let fb3 :=
          if _has_attr SubmissionFeedback_attrs (py "doctor_id")
             && (doctor_id fb2 =? 0) && _is_doctor current_user
          then set_doctor_id (id current_user) fb2
          else fb2 in
        [Dirty_Feedback fb3]
    | None =>
        [Add_Feedback
           (mkFeedbackKwargs submission_id (p_feedback_text body)
              (p_grade body)
              (if _has_attr SubmissionFeedback_attrs (py "doctor_id")
                  && _is_doctor current_user
               then Some (id current_user) else None))]
    end
  else [].

Definition update_submission_status (env : Env) (submission_id : Z)
    (body : StatusUpdatePayload) (current_user : User)
  : M SubmissionDetailResponse :=
  _require_admin_or_doctor current_user ;;;
  if negb (mem (p_status body) VALID_STATUSES)
  then HTTP 400 (py "Invalid status")
  else if eqb (p_status body) (py "Accepted")
          && bool_decide (p_grade body = None)
  then HTTP 400 (py "Grade is required when accepting a submission")
  else if eqb (p_status body) (py "NeedsRevision")
          && match p_feedback_text body with
             | None => true
             | Some t => negb (truthy (strip t))
             end
  then HTTP 400 (py "Feedback text is required when marking NeedsRevision")
  else
    d <- get_db ;;
    match get_submission d submission_id with
    | None => HTTP 404 (py "Submission not found")
    | Some sub =>
        if _is_doctor current_user
           && negb (_submission_is_assigned_to_doctor d sub
                      (id current_user))
        then HTTP 403 (py "Not allowed to modify this submission")
        else
          let sub' := set_status (p_status body) sub in
          let fb := get_feedback d submission_id in
          r <- commit env
                 (Dirty_Submission sub'
                    :: upsert_feedback body submission_id current_user fb) ;;
          match r with
          | None =>
              (* the read-back hands its first SELECT to [db.execute] as
                 a plain string, without [text]; the session of
                 SQLAlchemy 2, which models.py needs for [mapped_column],
                 refuses a plain string with an ArgumentError, which is
                 neither IntegrityError nor HTTPException: the last
                 handler rolls back, which undoes nothing after the
                 commit, and answers 500 *)
              rollback ;;;
              HTTP 500 (py "Failed to update submission status")
          | Some IntegrityError =>
              rollback ;;;
              HTTP 400 (py "Constraint error while updating submission")
          | Some OtherError =>
              rollback ;;;
              HTTP 500 (py "Failed to update submission status")
          end
    end.

Definition delete_submission (cfg : Settings) (env : Env)
    (submission_id : Z) (delete_file : bool) (current_user : User)
  : M unit :=
  if negb (eqb (lower (or_default (role current_user) [])) (py "admin"))
  then HTTP 403 (py "Only admins can delete submissions")
  else
    d <- get_db ;;
    match get_submission d submission_id with
    | None => HTTP 404 (py "Submission not found")
    | Some sub =>
        let old_public := file_path sub in
        r <- commit env [Delete_Submission sub] ;;
        match r with
        | None =>
            if delete_file && truthy old_public
            then
              let disk := _disk_path_from_public cfg old_public in
              f <- is_file cfg disk ;;
              if f
              then
                if is_relative_to (resolve (cwd cfg) disk)
                     (resolve (cwd cfg) (UPLOAD_DIR cfg))
                then unlink cfg disk
                else ret tt
              else ret tt
            else ret tt
        | Some _ =>
            rollback ;;; HTTP 500 (py "Failed to delete submission")
        end
    end.

End Submissions.

(** ** [routers/doctor.py]: the review endpoint *)

Module Doctor.

Definition VALID_STATUSES : list str :=
  [py "Pending"; py "Accepted"; py "Rejected"; py "NeedsRevision"].

Definition REVIEWABLE_STATUSES : list str :=
  [py "Accepted"; py "Rejected"; py "NeedsRevision"].

Record ReviewPayload := mkReviewPayload {
  r_status : str;
  r_grade : option Grade;
  r_feedback_text : option str
}.

Definition _has_attr (attrs : list str) (name : str) : bool :=
  mem name attrs.

Definition _require_doctor (user : User) : M unit :=
  if negb (eqb (lower (or_default (role user) [])) (py "doctor"))
  then HTTP 403 (py "Doctor role required")
  else ret tt.

Definition _submission_is_assigned_to_doctor (d : DB) (sub : Submission)
    (doctor_user_id : Z) : bool :=
  match List.find (_has_attr Submission_attrs)
          [py "doctor_id"; py "assigned_doctor_id"; py "reviewer_id"] with
  | Some col =>
      bool_decide (Submission_getattr sub col = Some doctor_user_id)
  | None =>
      match (if _has_attr Submission_attrs (py "assignment")
             then get_assignment d (assignment_id sub) else None) with
      | Some a =>
          match List.find (_has_attr Assignment_attrs)
                  [py "doctor_id"; py "reviewer_id"] with
          | Some col =>
              bool_decide (Assignment_getattr a col = Some doctor_user_id)
          | None => true
          end
      | None => true
      end
  end.

Definition review_submission (env : Env) (submission_id : Z)
    (payload : ReviewPayload) (current_user : User)
  : M (Submission * SubmissionFeedback) :=
  _require_doctor current_user ;;;
  if negb (mem (r_status payload) REVIEWABLE_STATUSES)
  then HTTP 400
         (py "Invalid status. Use Accepted | Rejected | NeedsRevision")
  else if eqb (r_status payload) (py "Accepted")
          && bool_decide (r_grade payload = None)
  then HTTP 400 (py "Grade is required when status is Accepted")
  else if eqb (r_status payload) (py "NeedsRevision")
          && match r_feedback_text payload with
             | None => true
             | Some t => negb (truthy (strip t))
             end
  then HTTP 400 (py "Feedback text is required when status is NeedsRevision")
  else
    d <- get_db ;;
    match get_submission d submission_id with
    | None => HTTP 404 (py "Submission not found")
    | Some sub =>
        if negb (_submission_is_assigned_to_doctor d sub (id current_user))
        then HTTP 403 (py "Not allowed to review this submission")
        else
          let fb_pending :=
            match get_feedback d submission_id with
            | Some fb0 =>
                let fb1 := match r_feedback_text payload with
                           | Some t => set_feedback_text t fb0
                           | None => fb0
                           end in
                let fb2 := match r_grade payload with
                           | Some g => set_grade g fb1
                           | None => fb1
                           end in
                if _has_attr SubmissionFeedback_attrs (py "doctor_id")
                   && (doctor_id fb2 =? 0)
                then Dirty_Feedback (set_doctor_id (id current_user) fb2)
                else Dirty_Feedback fb2
            | None =>
                Add_Feedback
                  (mkFeedbackKwargs submission_id (r_feedback_text payload)
                     (r_grade payload)
                     (if _has_attr SubmissionFeedback_attrs (py "doctor_id")
                      then Some (id current_user) else None))
            end in
          let sub' := set_status (r_status payload) sub in
          r <- commit env [fb_pending; Dirty_Submission sub'] ;;
          match r with
          | None =>
              d' <- get_db ;;
              match get_submission d' submission_id,
                    get_feedback d' submission_id with
              | Some s, Some f => ret (s, f)
              | _, _ =>
                  rollback ;;; HTTP 500 (py "Failed to submit review")
              end
          | Some IntegrityError =>
              rollback ;;;
              HTTP 400 (py "Database constraint error while saving review")
          | Some OtherError =>
              rollback ;;; HTTP 500 (py "Failed to submit review")
          end
    end.

End Doctor.

(** ** The routes together

    One request to one of the modelled endpoints, as [app/main.py] mounts
    them. *)

Module Api.

Inductive Request :=
| POST_student_submissions
    (assignment_id : Z) (file : UploadFile) (student_notes : option str)
| PATCH_student_submission_notes (sid : Z) (student_notes : option str)
| PATCH_student_submission_file (sid : Z) (file : UploadFile)
| DELETE_student_submission (sid : Z) (allow_when_needs_revision : bool)
| PATCH_submission_status (sid : Z) (body : Submissions.StatusUpdatePayload)
| DELETE_submission (sid : Z) (delete_file : bool)
| POST_doctor_review (sid : Z) (payload : Doctor.ReviewPayload).

Inductive Response :=
| SubmissionRead (row : Submission)
| SubmissionDetail (row : Submission) (fb : option SubmissionFeedback)
| ReviewResponse (row : Submission) (fb : SubmissionFeedback)
| NoContent.

Definition handle (cfg : Settings) (env : Env) (req : Request)
    (current_user : User) : M Response :=
  match req with
  | POST_student_submissions aid file notes =>
      r <- Students.create_submission cfg env aid file notes current_user ;;
      ret (SubmissionRead r)
  | PATCH_student_submission_notes sid notes =>
      r <- Students.update_submission_notes env sid notes current_user ;;
      ret (SubmissionRead r)
  | PATCH_student_submission_file sid file =>
      r <- Students.replace_submission_file cfg env sid file current_user ;;
      ret (SubmissionRead r)
  | DELETE_student_submission sid allow =>
      Students.delete_submission cfg env sid allow current_user ;;;
      ret NoContent
  | PATCH_submission_status sid body =>
      r <- Submissions.update_submission_status env sid body current_user ;;
      ret (SubmissionDetail (fst r) (snd r))
  | DELETE_submission sid delete_file =>
      Submissions.delete_submission cfg env sid delete_file current_user ;;;
      ret NoContent
  | POST_doctor_review sid payload =>
      r <- Doctor.review_submission env sid payload current_user ;;
      ret (ReviewResponse (fst r) (snd r))
  end.

(** The two review (status-update) routes. *)
Definition is_review (req : Request) : bool :=
  match req with
  | PATCH_submission_status _ _ | POST_doctor_review _ _ => true
  | _ => false
  end.

(** The routes of the student router. *)
Definition is_student_facing (req : Request) : bool :=
  match req with
  | POST_student_submissions _ _ _
  | PATCH_student_submission_notes _ _
  | PATCH_student_submission_file _ _
  | DELETE_student_submission _ _ => true
  | _ => false
  end.

(** The caller's role, lowered as the role guards do. *)
Definition role_of (u : User) : str := lower (or_default (role u) []).

End Api.

Import Api.

(** ** Vocabulary of the properties *)

(** An event on the file with key [k]. *)
Definition touches (k : list str) (e : Event) : Prop :=
  e = EvOpen k \/ (exists n, e = EvWrite k n) \/ e = EvUnlink k.

(** The exception of an upload over the ceiling. *)
Definition too_large (cfg : Settings) : HTTPException :=
  mkHTTPException 413
    (py "File exceeds " ++ str_of_Z (MAX_UPLOAD_MB cfg) ++ py " MB limit").

(** The path [_remove_disk_file_if_local] looks at. *)
Definition candidate (cfg : Settings) (public_path : str) : Path :=
  joinpath (Students.UPLOAD_DIR cfg) (parse (name (parse public_path))).

(** A key of the file store lies under the storage root. *)
Definition inside_root (cfg : Settings) (k : list str) : bool :=
  is_prefix (fs_key cfg (Students.UPLOAD_DIR cfg)) k.

(** The file at [p] exists and resolves under the storage root. *)
Definition removable (cfg : Settings) (w : World) (p : Path) : bool :=
  bool_decide (is_Some (files w !! fs_key cfg p))
  && is_relative_to (resolve (cwd cfg) p)
       (resolve (cwd cfg) (Students.UPLOAD_DIR cfg)).

(** The world after [p.unlink()]. *)
Definition unlinked (cfg : Settings) (w : World) (p : Path) : World :=
  mkWorld (db w) (delete (fs_key cfg p) (files w))
    (trace w ++ [EvUnlink (fs_key cfg p)]).

(** Statuses of the rows present before and after. *)
Definition same_statuses (d d' : DB) : Prop :=
  forall sid s s',
    get_submission d sid = Some s ->
    get_submission d' sid = Some s' ->
    status s' = status s.

(** The world after a failed commit and [db.rollback()]. *)
Definition rolled_back (w : World) : World :=
  mkWorld (db w) (files w) (trace w ++ [EvRollback]).

(** The world after a successful commit of the tables [d]. *)
Definition committed (d : DB) (w : World) : World :=
  mkWorld d (files w) (trace w ++ [EvCommit]).

(** The three validation guards of [update_submission_status] pass. *)
Definition payload_valid (body : Submissions.StatusUpdatePayload) : bool :=
  mem (Submissions.p_status body) Submissions.VALID_STATUSES
  && negb (eqb (Submissions.p_status body) (py "Accepted")
           && bool_decide (Submissions.p_grade body = None))
  && negb (eqb (Submissions.p_status body) (py "NeedsRevision")
           && match Submissions.p_feedback_text body with
              | None => true
              | Some t => negb (truthy (strip t))
              end).

(** The pending changes of [update_submission_status]. *)
Definition status_update_changes (d : DB) (sid : Z)
    (body : Submissions.StatusUpdatePayload) (user : User)
    (sub : Submission) : list Pending :=
  Dirty_Submission (set_status (Submissions.p_status body) sub)
    :: Submissions.upsert_feedback body sid user (get_feedback d sid).

(** The exceptions of [update_submission_status] that the properties
    name. *)
Definition grade_required : HTTPException :=
  mkHTTPException 400 (py "Grade is required when accepting a submission").

Definition feedback_required : HTTPException :=
  mkHTTPException 400
    (py "Feedback text is required when marking NeedsRevision").

Definition invalid_status : HTTPException :=
  mkHTTPException 400 (py "Invalid status").

Definition constraint_error : HTTPException :=
  mkHTTPException 400 (py "Constraint error while updating submission").

(** The answer of the last handler of [update_submission_status]. *)
Definition update_failed : HTTPException :=
  mkHTTPException 500 (py "Failed to update submission status").

(** The world after [_remove_disk_file_if_local(public_path)]. *)
Definition after_remove (cfg : Settings) (public_path : str) (w : World)
  : World :=
  if removable cfg w (candidate cfg public_path)
  then unlinked cfg w (candidate cfg public_path)
  else w.

(** [_validate_submission_for_edit] lets the submission through. *)
Definition editable (sub : Submission) (allow_when_needs_revision : bool)
  : bool :=
  eqb (status sub) (py "Pending")
  || (allow_when_needs_revision && eqb (status sub) (py "NeedsRevision")).

(** The exceptions of the student router that the properties name. *)
Definition student_role_required : HTTPException :=
  mkHTTPException 403 (py "Student role required").

Definition submission_not_found : HTTPException :=
  mkHTTPException 404 (py "Submission not found").

Definition not_your_submission : HTTPException :=
  mkHTTPException 403 (py "Not your submission").

Definition cannot_modify (st : str) : HTTPException :=
  mkHTTPException 400
    (py "Cannot modify a submission in status '" ++ st ++ py "'").

Definition file_type_not_allowed (ext : str) : HTTPException :=
  mkHTTPException 400 (py "File type '" ++ ext ++ py "' is not allowed").

(** The guards every edit of a submission by a student starts with: the
    exception they raise, or the submission they let through. *)
Definition student_edit_guard (w : World) (sid : Z) (allow : bool)
    (user : User) : HTTPException + Submission :=
  if negb (mem (role_of user) [py "student"]) then inl student_role_required
  else
    match get_submission (db w) sid with
    | None => inl submission_not_found
    | Some sub =>
        if negb (student_id sub =? id user) then inl not_your_submission
        else if editable sub allow then inr sub
        else inl (cannot_modify (status sub))
    end.

(** The tables after the row [sub'] replaces the row of its id. *)
Definition with_submission (d : DB) (sub' : Submission) : DB :=
  mkDB (replace_submission sub' (Submission_table d))
    (SubmissionFeedback_table d) (Assignment_table d).

(** The tables after the rows with the id of [sub] are deleted. *)
Definition without_submission (d : DB) (sub : Submission) : DB :=
  mkDB (List.filter (fun s => negb (submission_id s =? submission_id sub))
          (Submission_table d))
    (SubmissionFeedback_table d) (Assignment_table d).

(** Some feedback row refers to the submission. *)
Definition has_feedback (d : DB) (sub : Submission) : bool :=
  List.existsb (fun f => fb_submission_id f =? submission_id sub)
    (SubmissionFeedback_table d).

(** Name, extension, destination and public path of an upload. *)
Definition upload_safe_name (file : UploadFile) : str :=
  Students._safe_name (or_default (filename file) (py "upload")).

Definition upload_ext (file : UploadFile) : str :=
  lower (suffix (parse (upload_safe_name file))).

Definition upload_unique_name (env : Env) (file : UploadFile) : str :=
  Students._unique_disk_name env (upload_safe_name file).

Definition upload_dest (cfg : Settings) (env : Env) (file : UploadFile)
  : Path :=
  joinpath (Students.UPLOAD_DIR cfg) (parse (upload_unique_name env file)).

Definition upload_public (env : Env) (file : UploadFile) : str :=
  Students._public_path_for (upload_unique_name env file).

(** The extension check of the upload routes refuses the file. *)
Definition ext_refused (file : UploadFile) : bool :=
  truthy (upload_ext file) && negb (mem (upload_ext file) Students.ALLOWED_EXTS).

(** The row [replace_submission_file] writes. *)
Definition replaced_row (env : Env) (file : UploadFile) (sub : Submission)
  : Submission :=
  set_file (upload_safe_name file) (upload_public env file)
    (Students._infer_file_type (upload_safe_name file)) (now env) sub.

(** The row [create_submission] adds, before the database numbers it. *)
Definition created_row (env : Env) (assignment_id : Z) (file : UploadFile)
    (student_notes : option str) (user : User) : Submission :=
  mkSubmission 0 assignment_id (id user) (upload_safe_name file)
    (upload_public env file)
    (Students._infer_file_type (upload_safe_name file)) (now env)
    (py "Pending") (or_none student_notes) None None.

(** The guards of [create_submission] before the upload is streamed: the
    exception they raise, if any. *)
Definition create_guard (env : Env) (w : World) (assignment_id : Z)
    (file : UploadFile) (user : User) : option HTTPException :=
  if negb (mem (role_of user) [py "student"])
  then Some student_role_required
  else if assignment_id <=? 0
  then Some (mkHTTPException 400 (py "assignment_id must be positive"))
  else
    match get_assignment (db w) assignment_id with
    | None => Some (mkHTTPException 404 (py "Assignment not found"))
    | Some assignment =>
        if negb (Students._assignment_time_window_ok env assignment)
        then Some (mkHTTPException 400
                     (py "Submission window is closed or not yet open"))
        else if ext_refused file
        then Some (file_type_not_allowed (upload_ext file))
        else None
    end.

(** The submission a delete request names. *)
Definition deleted_id (req : Request) : option Z :=
  match req with
  | DELETE_student_submission sid _ | DELETE_submission sid _ => Some sid
  | _ => None
  end.

(** The guards of the two delete routes: the submission they let through. *)
Definition may_delete (req : Request) (user : User) (w : World)
  : option Submission :=
  match req with
  | DELETE_student_submission sid allow =>
      match student_edit_guard w sid allow user with
      | inr sub => Some sub
      | inl _ => None
      end
  | DELETE_submission sid _ =>
      if eqb (role_of user) (py "admin") then get_submission (db w) sid
      else None
  | _ => None
  end.

(** The on-disk path a delete route computes for the blob of [sub]. *)
Definition delete_target (cfg : Settings) (req : Request) (sub : Submission)
  : option Path :=
  match req with
  | DELETE_student_submission _ _ => Some (candidate cfg (file_path sub))
  | DELETE_submission _ delete_file =>
      if delete_file && truthy (file_path sub)
      then Some (Submissions._disk_path_from_public cfg (file_path sub))
      else None
  | _ => None
  end.

(** ** Concrete requests and worlds used by the examples below *)

Module Examples.

Definition cfg0 : Settings :=
  mkSettings (py "./uploads") 50 [py "srv"; py "app"].

(** A configuration with a ceiling of zero bytes. *)
Definition cfg_zero : Settings :=
  mkSettings (py "./uploads") 0 [py "srv"; py "app"].

Definition env0 : Env :=
  mkEnv 500 (py "0123456789abcdef0123456789abcdef") None.

Definition env_down : Env :=
  mkEnv 500 (py "0123456789abcdef0123456789abcdef") (Some OtherError).

Definition student7 : User := mkUser 7 (Some (py "student")).
Definition doctor3 : User := mkUser 3 (Some (py "doctor")).
Definition admin1 : User := mkUser 1 (Some (py "admin")).

Definition assignment10 : Assignment := mkAssignment 10 3 (Some 1000).

Definition report_pdf : UploadFile :=
  mkUploadFile (Some (py "report.pdf")) (Some (py "application/pdf"))
    [x25; x50; x44; x46]%byte.

Definition blob_path (n : string) : list str :=
  [py "srv"; py "app"; py "uploads"; py n].

Definition sub_row (st : string) (fp : string) : Submission :=
  mkSubmission 1 10 7 (py "old.pdf") (py fp) (py "PDF") 400 (py st)
    None None None.

Definition fb_row : SubmissionFeedback :=
  mkSubmissionFeedback 1 1 3 (Some (py "good")) (Some (QArith_base.Qmake 17 2))
    450.

(** No submission yet. *)
Definition w_empty : World :=
  mkWorld (mkDB [] [] [assignment10]) ∅ [].

(** One submission in status [st] with its blob, and no feedback. *)
Definition w_sub (st : string) : World :=
  mkWorld (mkDB [sub_row st "/uploads/aaaa_old.pdf"] [] [assignment10])
    (<[blob_path "aaaa_old.pdf" := [x01; x02]%byte]> ∅) [].

(** One reviewed submission: status [st] and a feedback row with a
    grade. *)
Definition w_reviewed (st : string) : World :=
  mkWorld
    (mkDB [sub_row st "/uploads/aaaa_old.pdf"] [fb_row] [assignment10])
    (<[blob_path "aaaa_old.pdf" := [x01; x02]%byte]> ∅) [].

(** A submission whose [file_path] points outside the storage root, and
    the foreign file. *)
Definition etc_passwd : list str := [py "etc"; py "passwd"].

Definition w_tampered (fp : string) : World :=
  mkWorld (mkDB [sub_row "Pending" fp] [] [assignment10])
    (<[etc_passwd := [x72]%byte]>
       (<[blob_path "aaaa_old.pdf" := [x01; x02]%byte]> ∅)) [].

End Examples.

(** * The rest of the submission and feedback routes

    The statistics routes of [routers/students.py] and
    [routers/submissions.py], the feedback router [routers/feedback.py],
    and all the state-changing routes served one after the other. *)

(** ** The statistics routes *)

Module Stats.

(** The dictionary the two routes return. *)
Record StatsResponse := mkStatsResponse {
  total : Z;
  by_status : gmap str Z;
  generated_at : Z
}.

(** [q.count()] *)
Definition count (rows : list Submission) : Z := Z.of_nat (length rows).

(** [{s: 0 for s in statuses}] *)
Definition zero_counts (statuses : list str) : gmap str Z :=
  list_to_map (List.map (fun s => (s, 0)) statuses).

(** [for s in statuses: counts[s] = f(s)] *)
Definition fill (f : str -> Z) (statuses : list str) (counts : gmap str Z)
  : gmap str Z :=
  foldl (fun m s => <[s := f s]> m) counts statuses.

(** [q.filter(Submission.status == s)] *)
Definition with_status (s : str) (rows : list Submission)
  : list Submission :=
  List.filter (fun r => eqb (status r) s) rows.

(** [routers/students.py], [my_submission_stats] *)
Definition my_submission_stats (env : Env) (current_user : User)
  : M StatsResponse :=
  Students._require_student current_user ;;;
  d <- get_db ;;
  let mine :=
    List.filter (fun r => student_id r =? id current_user)
      (Submission_table d) in
  let total := count mine in
  let counts := zero_counts Students.VALID_STATUSES in
  let counts' :=
    if negb (total =? 0)
    then fill (fun s => count (with_status s mine)) Students.VALID_STATUSES
           counts
    else counts in
  ret (mkStatsResponse total counts' (now env)).

(** [routers/submissions.py], [_doctor_filter_sql]: the WHERE fragment and
    the name of its parameter. *)
Definition _doctor_filter_sql : str * str :=
  if Submissions._has_attr Submission_attrs (py "doctor_id")
  then (py " AND s.doctor_id = :docid ", py "docid")
  else if Submissions._has_attr Submission_attrs (py "assigned_doctor_id")
  then (py " AND s.assigned_doctor_id = :docid ", py "docid")
  else if Submissions._has_attr Submission_attrs (py "reviewer_id")
  then (py " AND s.reviewer_id = :docid ", py "docid")
  else if Submissions._has_attr Assignment_attrs (py "doctor_id")
  then (py " AND a.doctor_id = :docid ", py "docid")
  else if Submissions._has_attr Assignment_attrs (py "reviewer_id")
  then (py " AND a.reviewer_id = :docid ", py "docid")
  else ([], []).

(** [routers/submissions.py], [submissions_stats] *)
Definition submissions_stats (env : Env) (mine_only : bool)
    (current_user : User) : M StatsResponse :=
  Submissions._require_admin_or_doctor current_user ;;;
  d <- get_db ;;
  let by_column (col : str) :=
    List.filter
      (fun r => bool_decide (Submission_getattr r col
                             = Some (id current_user)))
      (Submission_table d) in
  let q :=
    if Submissions._is_doctor current_user
    then
      if Submissions._has_attr Submission_attrs (py "doctor_id")
      then by_column (py "doctor_id")
      else if Submissions._has_attr Submission_attrs (py "assigned_doctor_id")
      then by_column (py "assigned_doctor_id")
      else if Submissions._has_attr Submission_attrs (py "reviewer_id")
      then by_column (py "reviewer_id")
      else Submission_table d
    else Submission_table d in
  let total := count q in
  let by_status :=
    fill (fun s => count (with_status s q)) Submissions.VALID_STATUSES
      (zero_counts Submissions.VALID_STATUSES) in
  ret (mkStatsResponse total by_status (now env)).

End Stats.

(** ** [routers/feedback.py] *)

Module Feedback.

Record FeedbackIn := mkFeedbackIn {
  in_submission_id : Z;
  in_text : option str;
  in_grade : option Grade
}.

Record FeedbackUpdate := mkFeedbackUpdate {
  up_text : option str;
  up_grade : option Grade
}.

Record FeedbackRead := mkFeedbackRead {
  fr_id : Z;
  submissionId : Z;
  doctorId : option Z;
  fr_text : option str;
  fr_grade : option Grade;
  createdAt : option Z;
  updatedAt : option Z
}.

Definition _has_attr (attrs : list str) (name : str) : bool :=
  mem name attrs.

Definition _require_doctor (user : User) : M unit :=
  if negb (eqb (lower (or_default (role user) [])) (py "doctor"))
  then HTTP 403 (py "Doctor role required")
  else ret tt.

Definition _submission_is_assigned_to_doctor (d : DB) (sub : Submission)
    (doctor_user_id : Z) : bool :=
  match List.find (_has_attr Submission_attrs)
          [py "doctor_id"; py "assigned_doctor_id"; py "reviewer_id"] with
  | Some col =>
      bool_decide (Submission_getattr sub col = Some doctor_user_id)
  | None =>
      match (if _has_attr Submission_attrs (py "assignment")
             then get_assignment d (assignment_id sub) else None) with
      | Some a =>
          match List.find (_has_attr Assignment_attrs)
                  [py "doctor_id"; py "reviewer_id"] with
          | Some col =>
              bool_decide (Assignment_getattr a col = Some doctor_user_id)
          | None => true
          end
      | None => true
      end
  end.

(** The [doctor_id] of a stored row is never NULL, so "not in (None, 0)"
    is "not 0". *)
Definition _ensure_can_modify_feedback (d : DB)
    (fb : option SubmissionFeedback) (sub : Submission)
    (current_user : User) : M unit :=
  _require_doctor current_user ;;;
  if negb (_submission_is_assigned_to_doctor d sub (id current_user))
  then HTTP 403 (py "Not allowed to modify feedback for this submission")
  else
    match fb with
    | Some fb0 =>
        if _has_attr SubmissionFeedback_attrs (py "doctor_id")
           && (negb (doctor_id fb0 =? 0)
               && negb (doctor_id fb0 =? id current_user)
               && negb (eqb (lower (or_default (role current_user) []))
                          (py "admin")))
        then HTTP 403
               (py "Only the authoring doctor (or admin) can modify this feedback")
        else ret tt
    | None => ret tt
    end.

(** [SubmissionFeedback] has no [updated_at]. *)
Definition _to_read (fb : SubmissionFeedback) : FeedbackRead :=
  mkFeedbackRead (feedback_id fb) (fb_submission_id fb)
    (Some (doctor_id fb)) (feedback_text fb) (grade fb)
    (Some (created_at fb)) None.

(** [db.query(SubmissionFeedback).filter(feedback_id == fid).first()] *)
Definition get_feedback_by_id (d : DB) (fid : Z)
  : option SubmissionFeedback :=
  List.find (fun f => feedback_id f =? fid) (SubmissionFeedback_table d).

(** The tables after the feedback rows with the key [fid] are deleted. *)
Definition without_feedback (d : DB) (fid : Z) : DB :=
  mkDB (Submission_table d)
    (List.filter (fun f => negb (feedback_id f =? fid))
       (SubmissionFeedback_table d))
    (Assignment_table d).

(** [db.delete(fb); db.commit()]: no row refers to a feedback row, so only
    the database itself can refuse. *)
Definition commit_delete (env : Env) (fb : SubmissionFeedback)
  : M (option DbError) :=
  fun w =>
    match db_fault env with
    | Some e => (Return (Some e), w)
    | None =>
        (Return None,
         mkWorld (without_feedback (db w) (feedback_id fb)) (files w)
           (trace w ++ [EvCommit]))
    end.

(** The row an upsert writes over the stored row [fb0]. *)
Definition upsert_row (body : FeedbackIn) (current_user : User)
    (fb0 : SubmissionFeedback) : SubmissionFeedback :=
  let fb1 := match in_text body with
             | Some t => set_feedback_text t fb0
             | None => fb0
             end in
  let fb2 := match in_grade body with
             | Some g => set_grade g fb1
             | None => fb1
             end in
  if _has_attr SubmissionFeedback_attrs (py "doctor_id")
     && (doctor_id fb2 =? 0)
  then set_doctor_id (id current_user) fb2
  else fb2.

Definition get_feedback_for_submission (submission_id : Z)
    (current_user : User) : M FeedbackRead :=
  _require_doctor current_user ;;;
  d <- get_db ;;
  match get_submission d submission_id with
  | None => HTTP 404 (py "Submission not found")
  | Some sub =>
      match get_feedback d submission_id with
      | None => HTTP 404 (py "Feedback not found")
      | Some fb =>
          if negb (_submission_is_assigned_to_doctor d sub
                     (id current_user))
             && (_has_attr SubmissionFeedback_attrs (py "doctor_id")
                 && negb (doctor_id fb =? id current_user)
                 && negb (eqb (lower (or_default (role current_user) []))
                            (py "admin")))
          then HTTP 403 (py "Not allowed to view this feedback")
          else ret (_to_read fb)
      end
  end.

(** [db.refresh(fb)] reads the row of the key again; an exception there is
    caught by the handler's [except Exception]. *)
Definition upsert_feedback (env : Env) (body : FeedbackIn)
    (current_user : User) : M (bool * FeedbackRead) :=
  d <- get_db ;;
  match get_submission d (in_submission_id body) with
  | None => HTTP 404 (py "Submission not found")
  | Some sub =>
      let fb := get_feedback d (in_submission_id body) in
      _ensure_can_modify_feedback d fb sub current_user ;;;
      let change :=
        match fb with
        | Some fb0 =>
            (Dirty_Feedback (upsert_row body current_user fb0),
             feedback_id fb0)
        | None =>
            (Add_Feedback
               (mkFeedbackKwargs (in_submission_id body) (in_text body)
                  (in_grade body)
                  (if _has_attr SubmissionFeedback_attrs (py "doctor_id")
                   then Some (id current_user) else None)),
             next_feedback_id d)
        end in
      r <- commit env [fst change] ;;
      match r with
      | None =>
          d' <- get_db ;;
          match get_feedback_by_id d' (snd change) with
          | Some row => ret (true, _to_read row)
          | None =>
              rollback ;;; HTTP 500 (py "Failed to save feedback")
          end
      | Some IntegrityError =>
          rollback ;;;
          HTTP 400 (py "Constraint error while saving feedback")
      | Some OtherError =>
          rollback ;;; HTTP 500 (py "Failed to save feedback")
      end
  end.

(** The row an update writes over the stored row [fb0]. *)
Definition update_row (body : FeedbackUpdate) (fb0 : SubmissionFeedback)
  : SubmissionFeedback :=
  let fb1 := match up_text body with
             | Some t => set_feedback_text t fb0
             | None => fb0
             end in
  match up_grade body with
  | Some g => set_grade g fb1
  | None => fb1
  end.

Definition update_feedback (env : Env) (feedback_id_ : Z)
    (body : FeedbackUpdate) (current_user : User) : M FeedbackRead :=
  _require_doctor current_user ;;;
  d <- get_db ;;
  match get_feedback_by_id d feedback_id_ with
  | None => HTTP 404 (py "Feedback not found")
  | Some fb =>
      match get_submission d (fb_submission_id fb) with
      | None => HTTP 404 (py "Submission not found for this feedback")
      | Some sub =>
          _ensure_can_modify_feedback d (Some fb) sub current_user ;;;
          let changed :=
            bool_decide (up_text body <> None)
            || bool_decide (up_grade body <> None) in
          if negb changed
          then ret (_to_read (update_row body fb))
          else
            r <- commit env [Dirty_Feedback (update_row body fb)] ;;
            match r with
            | None =>
                d' <- get_db ;;
                match get_feedback_by_id d' (feedback_id fb) with
                | Some row => ret (_to_read row)
                | None =>
                    rollback ;;; HTTP 500 (py "Failed to update feedback")
                end
            | Some IntegrityError =>
                rollback ;;;
                HTTP 400 (py "Constraint error while updating feedback")
            | Some OtherError =>
                rollback ;;; HTTP 500 (py "Failed to update feedback")
            end
      end
  end.

Definition delete_feedback (env : Env) (feedback_id_ : Z)
    (current_user : User) : M unit :=
  _require_doctor current_user ;;;
  d <- get_db ;;
  match get_feedback_by_id d feedback_id_ with
  | None => HTTP 404 (py "Feedback not found")
  | Some fb =>
      match get_submission d (fb_submission_id fb) with
      | None => HTTP 404 (py "Submission not found for this feedback")
      | Some sub =>
          _ensure_can_modify_feedback d (Some fb) sub current_user ;;;
          r <- commit_delete env fb ;;
          match r with
          | None => ret tt
          | Some _ =>
              rollback ;;; HTTP 500 (py "Failed to delete feedback")
          end
      end
  end.

End Feedback.

(** ** All the routes, and requests one after the other *)

Module Site.

Inductive Request :=
| Core (req : Api.Request)
| POST_feedback (body : Feedback.FeedbackIn)
| PATCH_feedback (feedback_id : Z) (body : Feedback.FeedbackUpdate)
| DELETE_feedback (feedback_id : Z)
| GET_feedback_for_submission (sid : Z)
| GET_my_submission_stats
| GET_stats_summary (mine_only : bool).

Inductive Response :=
| CoreResponse (r : Api.Response)
| UpsertResponse (ok : bool) (fb : Feedback.FeedbackRead)
| FeedbackResponse (fb : Feedback.FeedbackRead)
| FeedbackDeleted
| StatsResult (r : Stats.StatsResponse).

Definition serve (cfg : Settings) (env : Env) (req : Request)
    (current_user : User) : M Response :=
  match req with
  | Core r =>
      x <- handle cfg env r current_user ;; ret (CoreResponse x)
  | POST_feedback body =>
      x <- Feedback.upsert_feedback env body current_user ;;
      ret (UpsertResponse (fst x) (snd x))
  | PATCH_feedback fid body =>
      x <- Feedback.update_feedback env fid body current_user ;;
      ret (FeedbackResponse x)
  | DELETE_feedback fid =>
      Feedback.delete_feedback env fid current_user ;;;
      ret FeedbackDeleted
  | GET_feedback_for_submission sid =>
      x <- Feedback.get_feedback_for_submission sid current_user ;;
      ret (FeedbackResponse x)
  | GET_my_submission_stats =>
      x <- Stats.my_submission_stats env current_user ;;
      ret (StatsResult x)
  | GET_stats_summary mine_only =>
      x <- Stats.submissions_stats env mine_only current_user ;;
      ret (StatsResult x)
  end.

(** One request with what it takes from outside and its caller. *)
Record Call := mkCall {
  c_env : Env;
  c_user : User;
  c_req : Request
}.

(** The world after the requests [calls], served in this order; a request
    that raises leaves the world its handler left. *)
Definition serve_all (cfg : Settings) (calls : list Call) (w : World)
  : World :=
  foldl (fun w c => snd (serve cfg (c_env c) (c_req c) (c_user c) w)) w
    calls.

End Site.

(** ** Vocabulary of the properties of the tables *)

(** Every stored status is one of the four statuses. *)
Definition statuses_valid (d : DB) : Prop :=
  Forall (fun s => mem (status s) Submissions.VALID_STATUSES = true)
    (Submission_table d).

(** No two submissions share a key. *)
Definition submission_keys_unique (d : DB) : Prop :=
  NoDup (List.map submission_id (Submission_table d)).

(** No two feedback rows share a key or a submission. *)
Definition feedback_keys_unique (d : DB) : Prop :=
  NoDup (List.map feedback_id (SubmissionFeedback_table d))
  /\ NoDup (List.map fb_submission_id (SubmissionFeedback_table d)).

(** Every feedback row refers to a stored submission. *)
Definition feedback_refers (d : DB) : Prop :=
  Forall (fun f => is_Some (get_submission d (fb_submission_id f)))
    (SubmissionFeedback_table d).

(** What one request can do to the feedback table. *)
Inductive fb_change (d : DB) : list SubmissionFeedback -> Prop :=
| fb_same : fb_change d (SubmissionFeedback_table d)
| fb_insert (row : SubmissionFeedback) :
    is_Some (get_submission d (fb_submission_id row)) ->
    get_feedback d (fb_submission_id row) = None ->
    feedback_id row = next_feedback_id d ->
    fb_change d (SubmissionFeedback_table d ++ [row])
| fb_update (fb0 row : SubmissionFeedback) :
    In fb0 (SubmissionFeedback_table d) ->
    feedback_id row = feedback_id fb0 ->
    fb_submission_id row = fb_submission_id fb0 ->
    fb_change d (replace_feedback row (SubmissionFeedback_table d))
| fb_delete (fid : Z) :
    fb_change d
      (List.filter (fun f => negb (feedback_id f =? fid))
         (SubmissionFeedback_table d)).

(** What one request can do to the tables.  A row that is added or
    written carries one of the four statuses or the status it had, and
    the file path it had or the public path of the request's upload. *)
Inductive db_step (env : Env) (d : DB) : DB -> Prop :=
| step_none : db_step env d d
| step_create (row : Submission) (file : UploadFile) :
    mem (status row) Submissions.VALID_STATUSES = true ->
    file_path row = upload_public env file ->
    db_step env d
      (mkDB (Submission_table d
               ++ [set_submission_id (next_submission_id d) row])
         (SubmissionFeedback_table d) (Assignment_table d))
| step_delete (sub : Submission) :
    has_feedback d sub = false ->
    db_step env d (without_submission d sub)
| step_edit (sub row : Submission) (fbs : list SubmissionFeedback) :
    get_submission d (submission_id row) = Some sub ->
    mem (status row) Submissions.VALID_STATUSES = true
    \/ status row = status sub ->
    file_path row = file_path sub
    \/ (exists file, file_path row = upload_public env file) ->
    fb_change d fbs ->
    db_step env d
      (mkDB (replace_submission row (Submission_table d)) fbs
         (Assignment_table d))
| step_feedback (fbs : list SubmissionFeedback) :
    fb_change d fbs ->
    db_step env d (mkDB (Submission_table d) fbs (Assignment_table d)).

(** A storage name as [_unique_disk_name] makes them: no slash, and an
    underscore. *)
Definition generated_name (u : str) : Prop :=
  ~ In slash u /\ In 95%N u.

(** Every stored [file_path] is the public path of a generated name. *)
Definition paths_generated (d : DB) : Prop :=
  Forall
    (fun s => exists u,
       generated_name u /\ file_path s = Students._public_path_for u)
    (Submission_table d).

(** The sum of [g] over the statuses [l]. *)
Definition sum_over (g : str -> Z) (l : list str) : Z :=
  foldr (fun s acc => g s + acc) 0 l.

(** The sum of the counts a statistics route reports. *)
Definition counted (r : Stats.StatsResponse) : Z :=
  sum_over (fun s => default 0 (Stats.by_status r !! s))
    Submissions.VALID_STATUSES.

(** The submissions of a student. *)
Definition submissions_of (d : DB) (user : User) : list Submission :=
  List.filter (fun r => student_id r =? id user) (Submission_table d).

(** Every request of [calls] draws a [uuid4().hex]: no slash in it. *)
Definition uuids_plain (calls : list Site.Call) : Prop :=
  Forall (fun c => ~ In slash (uuid_hex (Site.c_env c))) calls.

(** ** Vocabulary of the review and feedback routes *)

(** The three validation guards of [review_submission] pass. *)
Definition review_valid (payload : Doctor.ReviewPayload) : bool :=
  mem (Doctor.r_status payload) Doctor.REVIEWABLE_STATUSES
  && negb (eqb (Doctor.r_status payload) (py "Accepted")
           && bool_decide (Doctor.r_grade payload = None))
  && negb (eqb (Doctor.r_status payload) (py "NeedsRevision")
           && match Doctor.r_feedback_text payload with
              | None => true
              | Some t => negb (truthy (strip t))
              end).

(** The row [review_submission] writes over the stored feedback [fb0]:
    the text and the grade the payload gives, and the reviewer if the row
    had none. *)
Definition review_row (payload : Doctor.ReviewPayload) (user : User)
    (fb0 : SubmissionFeedback) : SubmissionFeedback :=
  let fb1 := match Doctor.r_feedback_text payload with
             | Some t => set_feedback_text t fb0
             | None => fb0
             end in
  let fb2 := match Doctor.r_grade payload with
             | Some g => set_grade g fb1
             | None => fb1
             end in
  if doctor_id fb2 =? 0 then set_doctor_id (id user) fb2 else fb2.

(** The feedback row a review leaves for the submission [sid]. *)
Definition reviewed_feedback (env : Env) (d : DB) (sid : Z)
    (payload : Doctor.ReviewPayload) (user : User) : SubmissionFeedback :=
  match get_feedback d sid with
  | Some fb0 => review_row payload user fb0
  | None =>
      mkSubmissionFeedback (next_feedback_id d) sid (id user)
        (Doctor.r_feedback_text payload) (Doctor.r_grade payload) (now env)
  end.

(** The feedback table a review leaves. *)
Definition reviewed_feedback_table (env : Env) (d : DB) (sid : Z)
    (payload : Doctor.ReviewPayload) (user : User)
  : list SubmissionFeedback :=
  match get_feedback d sid with
  | Some fb0 =>
      replace_feedback (review_row payload user fb0)
        (SubmissionFeedback_table d)
  | None =>
      SubmissionFeedback_table d
        ++ [reviewed_feedback env d sid payload user]
  end.

(** The tables a review of [sub] leaves. *)
Definition reviewed (env : Env) (d : DB) (sid : Z)
    (payload : Doctor.ReviewPayload) (user : User) (sub : Submission)
  : DB :=
  mkDB (replace_submission (set_status (Doctor.r_status payload) sub)
          (Submission_table d))
    (reviewed_feedback_table env d sid payload user)
    (Assignment_table d).

(** The exceptions of the feedback router that the properties name. *)
Definition doctor_role_required : HTTPException :=
  mkHTTPException 403 (py "Doctor role required").

Definition not_the_author : HTTPException :=
  mkHTTPException 403
    (py "Only the authoring doctor (or admin) can modify this feedback").

Definition feedback_not_found : HTTPException :=
  mkHTTPException 404 (py "Feedback not found").

(** [_ensure_can_modify_feedback]: the exception it raises, if any. *)
Definition feedback_guard (fb : option SubmissionFeedback) (user : User)
  : option HTTPException :=
  if negb (eqb (role_of user) (py "doctor")) then Some doctor_role_required
  else
    match fb with
    | Some fb0 =>
        if negb (doctor_id fb0 =? 0) && negb (doctor_id fb0 =? id user)
        then Some not_the_author
        else None
    | None => None
    end.

(** The feedback row an upsert leaves for the submission of [body]. *)
Definition upserted_feedback (env : Env) (d : DB)
    (body : Feedback.FeedbackIn) (user : User) : SubmissionFeedback :=
  match get_feedback d (Feedback.in_submission_id body) with
  | Some fb0 => Feedback.upsert_row body user fb0
  | None =>
      mkSubmissionFeedback (next_feedback_id d)
        (Feedback.in_submission_id body) (id user)
        (Feedback.in_text body) (Feedback.in_grade body) (now env)
  end.

(** The tables an upsert leaves. *)
Definition upserted (env : Env) (d : DB) (body : Feedback.FeedbackIn)
    (user : User) : DB :=
  mkDB (Submission_table d)
    (match get_feedback d (Feedback.in_submission_id body) with
     | Some fb0 =>
         replace_feedback (Feedback.upsert_row body user fb0)
           (SubmissionFeedback_table d)
     | None =>
         SubmissionFeedback_table d ++ [upserted_feedback env d body user]
     end)
    (Assignment_table d).

(** The tables after the feedback row [row] replaces the row of its key. *)
Definition with_feedback (d : DB) (row : SubmissionFeedback) : DB :=
  mkDB (Submission_table d)
    (replace_feedback row (SubmissionFeedback_table d))
    (Assignment_table d).

(** ** A session used by the examples below *)

Module Scenario.

Import Examples.

Definition env1 : Env :=
  mkEnv 600 (py "fedcba9876543210fedcba9876543210") None.

Definition env2 : Env :=
  mkEnv 700 (py "00112233445566778899aabbccddeeff") None.

Definition nine : Grade := QArith_base.Qmake 9 1.

(** A student uploads, the doctor asks for a revision, the student uploads
    again, the doctor grades, an admin accepts, the doctor withdraws the
    feedback and the admin deletes the submission. *)
Definition upload : Site.Call :=
  Site.mkCall env0 student7
    (Site.Core (POST_student_submissions 10 report_pdf
                  (Some (py "first try")))).

Definition review : Site.Call :=
  Site.mkCall env1 doctor3
    (Site.Core
       (POST_doctor_review 2
          (Doctor.mkReviewPayload (py "NeedsRevision") None
             (Some (py "redo"))))).

Definition reupload : Site.Call :=
  Site.mkCall env1 student7
    (Site.Core (PATCH_student_submission_file 2 report_pdf)).

Definition regrade : Site.Call :=
  Site.mkCall env2 doctor3
    (Site.POST_feedback (Feedback.mkFeedbackIn 2 None (Some nine))).

Definition accept : Site.Call :=
  Site.mkCall env2 admin1
    (Site.Core
       (PATCH_submission_status 2
          (Submissions.mkStatusUpdatePayload (py "Accepted") (Some nine)
             None))).

Definition retract : Site.Call :=
  Site.mkCall env2 doctor3 (Site.DELETE_feedback 1).

Definition remove : Site.Call :=
  Site.mkCall env2 admin1 (Site.Core (DELETE_submission 2 true)).

(** An admin deletes submission 1 together with its file. *)
Definition purge : Site.Call :=
  Site.mkCall env2 admin1 (Site.Core (DELETE_submission 1 true)).

Definition session : list Site.Call :=
  [upload; review; reupload; regrade; accept; retract; remove].

End Scenario.

(** The submission a request names, if it names one. *)
Definition target_submission (req : Site.Request) : option Z :=
  match req with
  | Site.Core (PATCH_student_submission_notes sid _)
  | Site.Core (PATCH_student_submission_file sid _)
  | Site.Core (DELETE_student_submission sid _)
  | Site.Core (PATCH_submission_status sid _)
  | Site.Core (DELETE_submission sid _)
  | Site.Core (POST_doctor_review sid _)
  | Site.GET_feedback_for_submission sid => Some sid
  | Site.POST_feedback body => Some (Feedback.in_submission_id body)
  | _ => None
  end.

(** The requests by which a student edits a submission. *)
Definition student_edit (req : Api.Request) : option Z :=
  match req with
  | PATCH_student_submission_notes sid _
  | PATCH_student_submission_file sid _
  | DELETE_student_submission sid _ => Some sid
  | _ => None
  end.

(** The refusals for a doctor the submission is not assigned to. *)
Definition not_assigned (e : HTTPException) : Prop :=
  e = mkHTTPException 403 (py "Not allowed to modify this submission")
  \/ e = mkHTTPException 403 (py "Not allowed to review this submission")
  \/ e = mkHTTPException 403
           (py "Not allowed to modify feedback for this submission")
  \/ e = mkHTTPException 403 (py "Not allowed to view this feedback").

(** The roles a route is written for. *)
Definition allowed_roles (req : Site.Request) : list str :=
  match req with
  | Site.Core (POST_student_submissions _ _ _)
  | Site.Core (PATCH_student_submission_notes _ _)
  | Site.Core (PATCH_student_submission_file _ _)
  | Site.Core (DELETE_student_submission _ _)
  | Site.GET_my_submission_stats => [py "student"]
  | Site.Core (PATCH_submission_status _ _)
  | Site.GET_stats_summary _ => [py "admin"; py "doctor"]
  | Site.Core (DELETE_submission _ _) => [py "admin"]
  | Site.Core (POST_doctor_review _ _)
  | Site.POST_feedback _
  | Site.PATCH_feedback _ _
  | Site.DELETE_feedback _
  | Site.GET_feedback_for_submission _ => [py "doctor"]
  end.

(** The feedback upsert looks the submission up before it looks at the
    caller. *)
Definition upsert_of_missing (req : Site.Request) (w : World) : Prop :=
  exists body,
    req = Site.POST_feedback body
    /\ get_submission (db w) (Feedback.in_submission_id body) = None.

(** The world with another [Assignment] table. *)
Definition with_assignments (asg : list Assignment) (w : World) : World :=
  mkWorld
    (mkDB (Submission_table (db w)) (SubmissionFeedback_table (db w)) asg)
    (files w) (trace w).

(** * Properties *)

Import Examples.

(** ** The monad *)

Section Monad_facts.

Context {A B : Type}.

Lemma bind_Return (m : M A) (k : A -> M B) w a w1 :
  m w = (Return a, w1) -> bind m k w = k a w1.
Proof. intros H. unfold bind. now rewrite H. Qed.

Lemma bind_Raise (m : M A) (k : A -> M B) w e w1 :
  m w = (Raise e, w1) -> bind m k w = (Raise e, w1).
Proof. intros H. unfold bind. now rewrite H. Qed.

Lemma bind_inv (m : M A) (k : A -> M B) w r w' :
  bind m k w = (r, w') ->
  (exists a w1, m w = (Return a, w1) /\ k a w1 = (r, w'))
  \/ (exists e, m w = (Raise e, w') /\ r = Raise e).
Proof.
  unfold bind. destruct (m w) as [[a|e] w1]; intros H.
  - left. eauto.
  - right. inversion H; subst. eauto.
Qed.

End Monad_facts.

(** ** Strings *)

Lemma lstrip_all_space (t : str) :
  forallb isspace t = true -> lstrip t = [].
Proof.
  induction t as [|c t IH]; simpl; [reflexivity|].
  intros H. apply andb_true_iff in H as [Hc Ht]. rewrite Hc. auto.
Qed.

Lemma lstrip_nil_all_space (t : str) :
  lstrip t = [] -> forallb isspace t = true.
Proof.
  induction t as [|c t IH]; simpl; [reflexivity|].
  destruct (isspace c); [auto | discriminate].
Qed.

Lemma lstrip_suffix (t : str) : exists pre, t = pre ++ lstrip t /\ forallb isspace pre = true.
Proof.
  induction t as [|c t [pre [E Hp]]]; simpl.
  - exists []. auto.
  - destruct (isspace c) eqn:Hc.
    + exists (c :: pre). simpl. rewrite Hc, Hp. split; [congruence | reflexivity].
    + exists []. auto.
Qed.

(** [not t.strip()] holds exactly for the texts made of whitespace only. *)
Lemma strip_nil_iff (t : str) :
  strip t = [] <-> forallb isspace t = true.
Proof.
  unfold strip, rstrip. split.
  - intros H.
    assert (Hr : lstrip (rev (lstrip t)) = []).
    { apply (f_equal (@rev N)) in H. rewrite rev_involutive in H. exact H. }
    apply lstrip_nil_all_space in Hr.
    destruct (lstrip_suffix t) as [pre [E Hp]].
    rewrite E, forallb_app, Hp. simpl.
    rewrite forallb_forall in Hr. apply forallb_forall.
    intros x Hx. apply Hr. apply in_rev. now rewrite rev_involutive.
  - intros H. now rewrite (lstrip_all_space t H).
Qed.

Lemma split_no_sep sep s :
  Forall (fun w => ~ In sep w) (split sep s).
Proof.
  induction s as [|c s IH]; simpl.
  - constructor; [intros [] | constructor].
  - destruct (N.eqb_spec c sep) as [->|Hne].
    + constructor; [intros [] | exact IH].
    + destruct (split sep s) as [|w ws]; inversion IH; subst.
      * constructor; [ intros [H|[]]; congruence | constructor ].
      * constructor; [ intros [H|H]; [congruence | contradiction] | assumption ].
Qed.

Lemma split_no_sep_id sep s :
  ~ In sep s -> split sep s = [s].
Proof.
  induction s as [|c s IH]; simpl; [reflexivity|].
  intros H. destruct (N.eqb_spec c sep) as [->|Hne].
  - exfalso. apply H. now left.
  - rewrite IH; [reflexivity|]. intros Hin. apply H. now right.
Qed.

(** [Path(s).name] never contains a slash. *)
Lemma name_no_slash (s : str) : ~ In slash (name (parse s)).
Proof.
  unfold name, parse. simpl.
  pose proof (split_no_sep slash s) as HF.
  assert (G : Forall (fun w => ~ In slash w)
                (List.filter keep_part (split slash s))).
  { rewrite List.Forall_forall in *. intros x Hx.
    apply List.filter_In in Hx as [Hx _]. auto. }
  revert G. generalize (List.filter keep_part (split slash s)).
  intros l. induction l as [|a l IH]; simpl; intros G.
  - intros [].
  - inversion G; subst. destruct l; [assumption | now apply IH].
Qed.

(** ** The tables *)

Lemma find_app {A} (p : A -> bool) (l l' : list A) :
  List.find p (l ++ l') =
  match List.find p l with Some x => Some x | None => List.find p l' end.
Proof.
  induction l as [|a l IH]; simpl; [reflexivity|].
  destruct (p a); [reflexivity | exact IH].
Qed.

Lemma find_none_existsb {A} (p : A -> bool) (l : list A) :
  List.find p l = None -> List.existsb p l = false.
Proof.
  induction l as [|a l IH]; simpl; [reflexivity|].
  destruct (p a); [discriminate | exact IH].
Qed.

Lemma existsb_false_find {A} (p : A -> bool) (l : list A) :
  List.existsb p l = false -> List.find p l = None.
Proof.
  induction l as [|a l IH]; simpl; [reflexivity|].
  destruct (p a); [discriminate | exact IH].
Qed.

Lemma find_Some_id (l : list Submission) sid s :
  List.find (fun s => submission_id s =? sid) l = Some s ->
  submission_id s = sid /\ In s l.
Proof.
  intros H. apply List.find_some in H as [Hin He].
  apply Z.eqb_eq in He. auto.
Qed.

Lemma next_submission_id_fresh (d : DB) (s : Submission) :
  In s (Submission_table d) -> submission_id s < next_submission_id d.
Proof.
  unfold next_submission_id. generalize (Submission_table d).
  intros l. induction l as [|a l IH]; simpl; [intros []|].
  intros [->|H]; [lia|]. specialize (IH H). lia.
Qed.

Lemma get_submission_add (d : DB) (row : Submission) sid s fbs asg :
  get_submission d sid = Some s ->
  get_submission
    (mkDB (Submission_table d ++ [row]) fbs asg) sid = Some s.
Proof.
  unfold get_submission. simpl. intros H. now rewrite find_app, H.
Qed.

Lemma get_submission_added (d : DB) (row : Submission) fbs asg :
  get_submission
    (mkDB (Submission_table d
             ++ [set_submission_id (next_submission_id d) row]) fbs asg)
    (next_submission_id d)
  = Some (set_submission_id (next_submission_id d) row).
Proof.
  unfold get_submission. simpl. rewrite find_app.
  destruct (List.find _ (Submission_table d)) as [s|] eqn:E.
  - apply find_Some_id in E as [E Hin].
    apply next_submission_id_fresh in Hin. lia.
  - simpl. now rewrite Z.eqb_refl.
Qed.

Lemma find_replace_submission (row : Submission) (l : list Submission) sid :
  List.find (fun s => submission_id s =? sid) (replace_submission row l)
  = (fun s => if submission_id s =? submission_id row then row else s)
      <$> List.find (fun s => submission_id s =? sid) l.
Proof.
  unfold replace_submission.
  induction l as [|a l IH]; simpl; [reflexivity|].
  destruct (Z.eqb_spec (submission_id a) (submission_id row)) as [E|E].
  - destruct (Z.eqb_spec (submission_id a) sid) as [E'|E']; simpl.
    + assert (Hr : (submission_id row =? sid) = true) by (apply Z.eqb_eq; lia).
      rewrite Hr. simpl.
      destruct (Z.eqb_spec (submission_id a) (submission_id row));
        [reflexivity | contradiction].
    + assert (Hr : (submission_id row =? sid) = false) by (apply Z.eqb_neq; lia).
      rewrite Hr. exact IH.
  - destruct (Z.eqb_spec (submission_id a) sid); simpl.
    + destruct (Z.eqb_spec (submission_id a) (submission_id row));
        [contradiction | reflexivity].
    + exact IH.
Qed.

Lemma get_submission_replace (d : DB) (row : Submission) fbs asg sid :
  get_submission (mkDB (replace_submission row (Submission_table d)) fbs asg)
    sid
  = (fun s => if submission_id s =? submission_id row then row else s)
      <$> get_submission d sid.
Proof. apply find_replace_submission. Qed.

Lemma find_filter_submission (del sid : Z) (l : list Submission) :
  List.find (fun s => submission_id s =? sid)
    (List.filter (fun s => negb (submission_id s =? del)) l)
  = if sid =? del then None
    else List.find (fun s => submission_id s =? sid) l.
Proof.
  induction l as [|a l IH]; simpl.
  - now destruct (sid =? del).
  - destruct (Z.eqb_spec (submission_id a) del) as [E|E]; simpl.
    + rewrite IH. destruct (Z.eqb_spec sid del) as [E'|E']; [reflexivity|].
      destruct (Z.eqb_spec (submission_id a) sid); [lia | reflexivity].
    + destruct (Z.eqb_spec (submission_id a) sid) as [E'|E'].
      * destruct (Z.eqb_spec sid del); [lia | reflexivity].
      * exact IH.
Qed.

Lemma same_statuses_refl d : same_statuses d d.
Proof. intros sid s s' H1 H2. congruence. Qed.

Lemma same_statuses_feedback d fbs :
  same_statuses d (mkDB (Submission_table d) fbs (Assignment_table d)).
Proof. intros sid s s' H1 H2. unfold get_submission in *. simpl in *. congruence. Qed.

Lemma same_statuses_add d row fbs asg :
  same_statuses d (mkDB (Submission_table d ++ [row]) fbs asg).
Proof.
  intros sid s s' H1 H2.
  rewrite (get_submission_add d row sid s fbs asg H1) in H2. congruence.
Qed.

Lemma same_statuses_replace d sub row fbs asg :
  get_submission d (submission_id row) = Some sub ->
  status row = status sub ->
  same_statuses d (mkDB (replace_submission row (Submission_table d)) fbs asg).
Proof.
  intros Hg Hst sid s s' H1 H2.
  rewrite get_submission_replace, H1 in H2. simpl in H2.
  destruct (Z.eqb_spec (submission_id s) (submission_id row)) as [E|E].
  - apply find_Some_id in H1 as H1'. destruct H1' as [H1' _].
    assert (sid = submission_id row) by lia. subst sid.
    congruence.
  - congruence.
Qed.

Lemma same_statuses_delete d del fbs asg :
  same_statuses d
    (mkDB (List.filter (fun s => negb (submission_id s =? del))
             (Submission_table d)) fbs asg).
Proof.
  intros sid s s' H1 H2. unfold get_submission in *. simpl in H2.
  rewrite find_filter_submission in H2.
  destruct (sid =? del); [discriminate | congruence].
Qed.

Lemma get_submission_deleted d del fbs asg :
  get_submission
    (mkDB (List.filter (fun s => negb (submission_id s =? del))
             (Submission_table d)) fbs asg) del = None.
Proof.
  unfold get_submission. simpl. rewrite find_filter_submission.
  now rewrite Z.eqb_refl.
Qed.

(** ** Streaming an upload to disk *)

Lemma CHUNK_SIZE_pos : (0 < Z.to_nat Students.CHUNK_SIZE)%nat.
Proof. unfold Students.CHUNK_SIZE. lia. Qed.

Local Opaque Students.CHUNK_SIZE.

Lemma take_chunk_nonempty {A} (n : nat) (x : A) (l : list A) :
  (0 < n)%nat -> exists y t, take n (x :: l) = y :: t.
Proof. destruct n; [lia|]. intros _. simpl. eauto. Qed.

(** Whatever the loop does, it leaves the tables and every other file
    alone, and only adds events on the destination. *)
Lemma save_loop_frame cfg dest fuel :
  forall stream total w r w',
    Students.save_loop fuel cfg dest stream total w = (r, w') ->
    db w' = db w
    /\ (forall k, k <> fs_key cfg dest -> files w' !! k = files w !! k)
    /\ exists evs, trace w' = trace w ++ evs
                   /\ Forall (touches (fs_key cfg dest)) evs.
Proof.
  induction fuel as [|fuel IH]; intros stream total w r w' H; simpl in H.
  - inversion H; subst. repeat split; auto.
    exists []. rewrite app_nil_r. auto.
  - destruct (take (Z.to_nat Students.CHUNK_SIZE) stream) as [|c chunk] eqn:Hc.
    + inversion H; subst. repeat split; auto.
      exists []. rewrite app_nil_r. auto.
    + destruct (total + Z.of_nat (length (c :: chunk))
                >? MAX_UPLOAD_MB cfg * 1024 * 1024).
      * unfold bind, unlink, HTTP, raise in H.
        destruct (files w !! fs_key cfg dest) eqn:Hf;
          inversion H; subst; simpl.
        -- repeat split; auto.
           ++ intros k Hk. now rewrite lookup_delete_ne.
           ++ eexists. split; [reflexivity|].
              constructor; [|constructor]. right. now right.
        -- repeat split; auto. exists []. rewrite app_nil_r. auto.
      * unfold bind at 1 in H. unfold write at 1 in H.
        apply IH in H as (Hd & Hfs & evs & Ht & Hev). simpl in *.
        repeat split; auto.
        -- intros k Hk. rewrite Hfs by assumption.
           now rewrite lookup_insert_ne.
        -- exists (EvWrite (fs_key cfg dest) (length (c :: chunk)) :: evs).
           rewrite Ht, <- app_assoc. split; [reflexivity|].
           constructor; [|assumption]. right. left. eauto.
Qed.

(** With more fuel than the stream has bytes the loop ends by itself: it
    returns a total or raises, and never runs out of fuel. *)
Lemma save_loop_enough_fuel cfg dest fuel :
  forall stream total w,
    (length stream < fuel)%nat ->
    fst (Students.save_loop fuel cfg dest stream total w) <> Return None.
Proof.
  induction fuel as [|fuel IH]; intros stream total w Hfuel; [lia|]. simpl.
  destruct stream as [|b stream].
  - rewrite take_nil. simpl. discriminate.
  - destruct (take_chunk_nonempty _ b stream CHUNK_SIZE_pos) as (y & t & Hc).
    rewrite Hc.
    destruct (total + Z.of_nat (length (y :: t))
              >? MAX_UPLOAD_MB cfg * 1024 * 1024).
    + unfold bind, unlink, HTTP, raise.
      destruct (files w !! fs_key cfg dest); simpl; discriminate.
    + unfold bind at 1. unfold write at 1. apply IH.
      rewrite length_drop. pose proof CHUNK_SIZE_pos. simpl in *. lia.
Qed.

(** An upload within the ceiling is written in full. *)
Lemma save_loop_ok cfg dest fuel :
  forall stream total w written,
    (length stream < fuel)%nat ->
    files w !! fs_key cfg dest = Some written ->
    total + Z.of_nat (length stream) <= MAX_UPLOAD_MB cfg * 1024 * 1024 ->
    exists evs,
      Students.save_loop fuel cfg dest stream total w
      = (Return (Some (total + Z.of_nat (length stream))),
         mkWorld (db w) (<[fs_key cfg dest := written ++ stream]> (files w))
           (trace w ++ evs)).
Proof.
  induction fuel as [|fuel IH]; intros stream total w written Hfuel Hw Hle;
    [lia|]. simpl.
  destruct stream as [|b stream].
  - rewrite take_nil. simpl. exists [].
    rewrite !app_nil_r, Z.add_0_r, insert_id by assumption.
    now destruct w.
  - destruct (take_chunk_nonempty _ b stream CHUNK_SIZE_pos) as (y & t & Hc).
    rewrite Hc.
    assert (Hlen : (length (y :: t) <= length (b :: stream))%nat).
    { rewrite <- Hc, length_take. lia. }
    assert (Hgt : (total + Z.of_nat (length (y :: t))
                   >? MAX_UPLOAD_MB cfg * 1024 * 1024) = false).
    { rewrite Z.gtb_ltb. apply Z.ltb_ge. lia. }
    rewrite Hgt. unfold bind at 1. unfold write at 1.
    set (w1 := mkWorld _ _ _).
    destruct (IH (drop (Z.to_nat Students.CHUNK_SIZE) (b :: stream))
                (total + Z.of_nat (length (y :: t))) w1
                (written ++ y :: t)) as [evs Hrun].
    + rewrite length_drop. pose proof CHUNK_SIZE_pos. simpl in *. lia.
    + subst w1. simpl. rewrite Hw. simpl. apply lookup_insert_eq.
    + rewrite length_drop. rewrite <- Hc, length_take in *.
      simpl in *. lia.
    + assert (Hsplit : (y :: t) ++ drop (Z.to_nat Students.CHUNK_SIZE)
                                      (b :: stream) = b :: stream).
      { rewrite <- Hc. apply take_drop. }
      assert (Hlen2 : Z.of_nat (length (y :: t))
                      + Z.of_nat (length (drop (Z.to_nat Students.CHUNK_SIZE)
                                            (b :: stream)))
                      = Z.of_nat (length (b :: stream))).
      { rewrite <- Nat2Z.inj_add, <- length_app, Hsplit. reflexivity. }
      exists (EvWrite (fs_key cfg dest) (length (y :: t)) :: evs).
      rewrite Hrun. subst w1. cbn [db files trace].
      rewrite insert_insert_eq.
      replace ((written ++ y :: t)
               ++ drop (Z.to_nat Students.CHUNK_SIZE) (b :: stream))
        with (written ++ b :: stream)
        by (rewrite <- app_assoc, Hsplit; reflexivity).
      replace (total + Z.of_nat (length (y :: t))
               + Z.of_nat (length (drop (Z.to_nat Students.CHUNK_SIZE)
                                     (b :: stream))))
        with (total + Z.of_nat (length (b :: stream))) by lia.
      rewrite <- app_assoc. reflexivity.
Qed.

(** An upload over the ceiling ends with the destination removed. *)
Lemma save_loop_too_large cfg dest fuel :
  forall stream total w written,
    (length stream < fuel)%nat ->
    files w !! fs_key cfg dest = Some written ->
    total <= MAX_UPLOAD_MB cfg * 1024 * 1024 ->
    MAX_UPLOAD_MB cfg * 1024 * 1024 < total + Z.of_nat (length stream) ->
    exists evs,
      Students.save_loop fuel cfg dest stream total w
      = (Raise (too_large cfg),
         mkWorld (db w) (delete (fs_key cfg dest) (files w))
           (trace w ++ evs)).
Proof.
  induction fuel as [|fuel IH];
    intros stream total w written Hfuel Hw Hle Hgt; [lia|]. simpl.
  destruct stream as [|b stream]; [simpl in *; lia|].
  destruct (take_chunk_nonempty _ b stream CHUNK_SIZE_pos) as (y & t & Hc).
  rewrite Hc.
  destruct (total + Z.of_nat (length (y :: t))
            >? MAX_UPLOAD_MB cfg * 1024 * 1024) eqn:Hcmp.
  - unfold bind, unlink, HTTP, raise. rewrite Hw. eexists. reflexivity.
  - rewrite Z.gtb_ltb in Hcmp. apply Z.ltb_ge in Hcmp.
    unfold bind at 1. unfold write at 1. set (w1 := mkWorld _ _ _).
    destruct (IH (drop (Z.to_nat Students.CHUNK_SIZE) (b :: stream))
                (total + Z.of_nat (length (y :: t))) w1
                (written ++ y :: t)) as [evs Hrun].
    + rewrite length_drop. pose proof CHUNK_SIZE_pos. simpl in *. lia.
    + subst w1. simpl. rewrite Hw. simpl. apply lookup_insert_eq.
    + exact Hcmp.
    + rewrite length_drop. rewrite <- Hc, length_take in *.
      simpl in *. lia.
    + exists (EvWrite (fs_key cfg dest) (length (y :: t)) :: evs).
      rewrite Hrun. subst w1. cbn [db files trace].
      rewrite delete_insert_eq, <- app_assoc. reflexivity.
Qed.

Lemma save_stream_frame cfg file dest w r w' :
  Students._save_stream_to_disk cfg file dest w = (r, w') ->
  db w' = db w
  /\ (forall k, k <> fs_key cfg dest -> files w' !! k = files w !! k)
  /\ exists evs, trace w' = trace w ++ evs
                 /\ Forall (touches (fs_key cfg dest)) evs.
Proof.
  unfold Students._save_stream_to_disk. intros H.
  unfold bind at 1 in H. unfold open_wb at 1 in H.
  apply bind_inv in H as [(a & w1 & Hl & Hk) | (e & Hl & ->)];
    apply save_loop_frame in Hl as (Hd & Hf & evs & Ht & Hev); simpl in *.
  - assert (w' = w1) as ->.
    { destruct a; unfold ret, HTTP, raise in Hk; now inversion Hk. }
    repeat split; auto.
    + intros k Hk'. rewrite Hf by assumption. now rewrite lookup_insert_ne.
    + exists (EvOpen (fs_key cfg dest) :: evs).
      rewrite Ht, <- app_assoc. split; [reflexivity|].
      constructor; [now left | assumption].
  - repeat split; auto.
    + intros k Hk'. rewrite Hf by assumption. now rewrite lookup_insert_ne.
    + exists (EvOpen (fs_key cfg dest) :: evs).
      rewrite Ht, <- app_assoc. split; [reflexivity|].
      constructor; [now left | assumption].
Qed.

Lemma save_stream_ok cfg file dest w :
  Z.of_nat (length (body file)) <= MAX_UPLOAD_MB cfg * 1024 * 1024 ->
  exists evs,
    Students._save_stream_to_disk cfg file dest w
    = (Return (Z.of_nat (length (body file)),
               or_default (content_type file) []),
       mkWorld (db w) (<[fs_key cfg dest := body file]> (files w))
         (trace w ++ evs))
    /\ Forall (touches (fs_key cfg dest)) evs.
Proof.
  intros Hle.
  assert (exists evs,
    Students._save_stream_to_disk cfg file dest w
    = (Return (Z.of_nat (length (body file)),
               or_default (content_type file) []),
       mkWorld (db w) (<[fs_key cfg dest := body file]> (files w))
         (trace w ++ evs))) as [evs E].
  { unfold Students._save_stream_to_disk.
    unfold bind at 1. unfold open_wb at 1. set (w1 := mkWorld _ _ _).
    destruct (save_loop_ok cfg dest (S (length (body file))) (body file) 0
                w1 []) as [evs Hrun].
    - lia.
    - subst w1. simpl. apply lookup_insert_eq.
    - lia.
    - exists (EvOpen (fs_key cfg dest) :: evs).
      unfold bind. rewrite Hrun. subst w1. cbn [db files trace].
      unfold ret. rewrite insert_insert_eq, <- app_assoc. simpl.
      reflexivity. }
  exists evs. split; [exact E|].
  apply save_stream_frame in E as (_ & _ & evs' & Ht & Hev).
  simpl in Ht. apply app_inv_head in Ht. now subst.
Qed.

Lemma save_stream_too_large cfg file dest w :
  0 <= MAX_UPLOAD_MB cfg ->
  MAX_UPLOAD_MB cfg * 1024 * 1024 < Z.of_nat (length (body file)) ->
  exists evs,
    Students._save_stream_to_disk cfg file dest w
    = (Raise (too_large cfg),
       mkWorld (db w) (delete (fs_key cfg dest) (files w)) (trace w ++ evs))
    /\ Forall (touches (fs_key cfg dest)) evs.
Proof.
  intros Hpos Hgt.
  assert (exists evs,
    Students._save_stream_to_disk cfg file dest w
    = (Raise (too_large cfg),
       mkWorld (db w) (delete (fs_key cfg dest) (files w))
         (trace w ++ evs))) as [evs E].
  { unfold Students._save_stream_to_disk.
    unfold bind at 1. unfold open_wb at 1. set (w1 := mkWorld _ _ _).
    destruct (save_loop_too_large cfg dest (S (length (body file)))
                (body file) 0 w1 []) as [evs Hrun].
    - lia.
    - subst w1. simpl. apply lookup_insert_eq.
    - lia.
    - lia.
    - exists (EvOpen (fs_key cfg dest) :: evs).
      unfold bind. rewrite Hrun. subst w1. cbn [db files trace].
      rewrite delete_insert_eq, <- app_assoc. reflexivity. }
  exists evs. split; [exact E|].
  apply save_stream_frame in E as (_ & _ & evs' & Ht & Hev).
  simpl in Ht. apply app_inv_head in Ht. now subst.
Qed.

(** ** Removing a stored file *)

Lemma removable_inside cfg w p :
  removable cfg w p = true -> inside_root cfg (fs_key cfg p) = true.
Proof.
  unfold removable, is_relative_to, inside_root, fs_key.
  intros H. apply andb_true_iff in H as [_ H].
  now apply andb_true_iff in H as [_ H].
Qed.

Lemma remove_disk_file_run cfg public_path w :
  Students._remove_disk_file_if_local cfg public_path w
  = (Return tt,
     if removable cfg w (candidate cfg public_path)
     then unlinked cfg w (candidate cfg public_path)
     else w).
Proof.
  unfold Students._remove_disk_file_if_local, bind, is_file, removable,
    unlinked, unlink, ret. fold (candidate cfg public_path).
  destruct (files w !! fs_key cfg (candidate cfg public_path)) as [c|] eqn:E.
  - rewrite bool_decide_eq_true_2 by eauto. simpl.
    destruct (is_relative_to _ _); [rewrite E|]; reflexivity.
  - rewrite bool_decide_eq_false_2 by (intros [? ?]; discriminate).
    reflexivity.
Qed.

(** The only exception of the streaming loop is the too-large error. *)
Lemma save_loop_raises cfg dest fuel :
  forall stream total w e w',
    Students.save_loop fuel cfg dest stream total w = (Raise e, w') ->
    e = too_large cfg.
Proof.
  induction fuel as [|fuel IH]; intros stream total w e w' H; simpl in H;
    [discriminate|].
  destruct (take (Z.to_nat Students.CHUNK_SIZE) stream) as [|c chunk];
    [discriminate|].
  destruct (total + Z.of_nat (length (c :: chunk))
            >? MAX_UPLOAD_MB cfg * 1024 * 1024).
  - unfold bind, unlink, HTTP, raise in H.
    destruct (files w !! fs_key cfg dest); now inversion H.
  - unfold bind at 1 in H. unfold write at 1 in H. eapply IH; eauto.
Qed.

(** [_save_stream_to_disk] returns the byte count and the mime type, or
    raises the too-large error; the fuel of its loop always suffices. *)
Lemma save_stream_total cfg file dest w :
  (exists n w', Students._save_stream_to_disk cfg file dest w
                = (Return n, w'))
  \/ (exists w', Students._save_stream_to_disk cfg file dest w
                 = (Raise (too_large cfg), w')).
Proof.
  destruct (Students._save_stream_to_disk cfg file dest w) as [[n|e] w']
    eqn:E; [left; eauto|].
  right. exists w'. f_equal. f_equal.
  unfold Students._save_stream_to_disk in E.
  unfold bind at 1 in E. unfold open_wb at 1 in E.
  apply bind_inv in E as [(a & w1 & Hl & Hk) | (e' & Hl & He)].
  - destruct a as [t|].
    + discriminate.
    + exfalso.
      eapply (save_loop_enough_fuel cfg dest (S (length (body file)))
                (body file) 0); [|rewrite Hl; reflexivity]. lia.
  - inversion He; subst. now apply save_loop_raises in Hl.
Qed.

(** ** Generated storage names *)

Lemma collapse_snoc (l : list str) : forall st c,
  c <> [dot; dot] -> collapse st (l ++ [c]) = collapse st l ++ [c].
Proof.
  induction l as [|a l IH]; intros st c Hc; simpl.
  - unfold eqb. rewrite bool_decide_eq_false_2 by assumption. reflexivity.
  - destruct (eqb a [dot; dot]); now apply IH.
Qed.

Lemma is_prefix_app (l t : list str) : is_prefix l (l ++ t) = true.
Proof.
  induction l as [|a l IH]; simpl; [reflexivity|].
  unfold eqb. rewrite bool_decide_eq_true_2 by reflexivity. exact IH.
Qed.

Lemma is_prefix_spec (l k : list str) :
  is_prefix l k = true -> exists t, k = l ++ t.
Proof.
  revert k. induction l as [|a l IH]; intros k H; simpl in *.
  - eauto.
  - destruct k as [|b k]; [discriminate|].
    apply andb_true_iff in H as [E H]. unfold eqb in E.
    apply bool_decide_eq_true in E. subst.
    destruct (IH _ H) as [t ->]. eauto.
Qed.

Lemma split_app_sep sep (a b : str) :
  ~ In sep a -> split sep (a ++ sep :: b) = a :: split sep b.
Proof.
  induction a as [|c a IH]; simpl; intros H.
  - now rewrite N.eqb_refl.
  - destruct (N.eqb_spec c sep) as [->|Hne]; [exfalso; auto|].
    rewrite IH by auto. reflexivity.
Qed.

Lemma parse_single (u : str) :
  ~ In slash u -> u <> [] -> u <> [dot] -> parse u = mkPath Rel [u].
Proof.
  intros Hs Hn Hd. unfold parse.
  rewrite split_no_sep_id by assumption. simpl.
  unfold keep_part, eqb.
  rewrite !bool_decide_eq_false_2 by assumption. simpl.
  destruct u as [|c u]; [contradiction|]. simpl.
  destruct (N.eqb_spec c slash) as [->|_]; [exfalso; apply Hs; now left|].
  reflexivity.
Qed.

Lemma name_parse_public (u : str) :
  ~ In slash u -> u <> [] -> u <> [dot] ->
  name (parse (Students._public_path_for u)) = u.
Proof.
  intros Hs Hn Hd. unfold Students._public_path_for, name, parse.
  cbn [p_parts].
  change (py "/uploads/" ++ u)
    with ([] ++ slash :: (py "uploads" ++ slash :: u)).
  rewrite split_app_sep by (intros []).
  rewrite split_app_sep by (vm_compute; intuition discriminate).
  rewrite split_no_sep_id by assumption.
  assert (Hk : keep_part u = true).
  { unfold keep_part, eqb.
    rewrite !bool_decide_eq_false_2 by assumption. reflexivity. }
  cbn [List.filter]. rewrite Hk. reflexivity.
Qed.

Lemma unique_name_props (env : Env) (s : str) :
  ~ In slash (uuid_hex env) ->
  ~ In slash (Students._unique_disk_name env (name (parse s)))
  /\ In 95%N (Students._unique_disk_name env (name (parse s))).
Proof.
  intros Hu. unfold Students._unique_disk_name. split.
  - rewrite !in_app_iff. intros [H|[H|H]].
    + auto.
    + vm_compute in H. intuition discriminate.
    + now apply name_no_slash in H.
  - rewrite !in_app_iff. right. left. now left.
Qed.

(** For a name made by [_unique_disk_name], the destination of the upload
    is a direct child of the storage root, and it is the file that
    [_remove_disk_file_if_local] finds from the public path. *)
Lemma generated_paths (cfg : Settings) (env : Env) (s : str) :
  ~ In slash (uuid_hex env) ->
  let u := Students._unique_disk_name env (name (parse s)) in
  let dest := joinpath (Students.UPLOAD_DIR cfg) (parse u) in
  candidate cfg (Students._public_path_for u) = dest
  /\ fs_key cfg dest = fs_key cfg (Students.UPLOAD_DIR cfg) ++ [u]
  /\ is_relative_to (resolve (cwd cfg) dest)
       (resolve (cwd cfg) (Students.UPLOAD_DIR cfg)) = true.
Proof.
  intros Hu u dest.
  destruct (unique_name_props env s Hu) as [Hs H95]. fold u in Hs, H95.
  assert (Hn : u <> []) by (intros E; rewrite E in H95; destruct H95).
  assert (Hd : u <> [dot]).
  { intros E. rewrite E in H95. vm_compute in H95. intuition discriminate. }
  assert (Hdd : u <> [dot; dot]).
  { intros E. rewrite E in H95. vm_compute in H95. intuition discriminate. }
  assert (Hp : parse u = mkPath Rel [u]) by now apply parse_single.
  assert (Hk : fs_key cfg dest = fs_key cfg (Students.UPLOAD_DIR cfg) ++ [u]
               /\ p_anchor (resolve (cwd cfg) dest)
                  = p_anchor (resolve (cwd cfg) (Students.UPLOAD_DIR cfg))).
  { subst dest. rewrite Hp. generalize (Students.UPLOAD_DIR cfg).
    intros [a parts]. unfold fs_key, joinpath, resolve.
    destruct a; cbn [p_anchor p_parts];
      rewrite ?app_assoc, collapse_snoc by assumption; auto. }
  destruct Hk as [Hk Ha].
  split; [|split].
  - unfold candidate. rewrite name_parse_public by assumption. reflexivity.
  - exact Hk.
  - unfold is_relative_to. rewrite Ha.
    rewrite bool_decide_eq_true_2 by reflexivity. simpl.
    change (p_parts (resolve (cwd cfg) dest)) with (fs_key cfg dest).
    rewrite Hk. apply is_prefix_app.
Qed.

(** ** The status update, step by step *)

Lemma submissions_assigned_always d sub doc :
  Submissions._submission_is_assigned_to_doctor d sub doc = true.
Proof.
  unfold Submissions._submission_is_assigned_to_doctor.
  replace (List.find (Submissions._has_attr Submission_attrs)
             [py "doctor_id"; py "assigned_doctor_id"; py "reviewer_id"])
    with (@None str) by (vm_compute; reflexivity).
  replace (List.find (Submissions._has_attr Assignment_attrs)
             [py "doctor_id"; py "reviewer_id"])
    with (@None str) by (vm_compute; reflexivity).
  destruct (if Submissions._has_attr Submission_attrs (py "assignment")
            then get_assignment d (assignment_id sub) else None);
    reflexivity.
Qed.

Lemma doctor_assigned_always d sub doc :
  Doctor._submission_is_assigned_to_doctor d sub doc = true.
Proof.
  unfold Doctor._submission_is_assigned_to_doctor.
  replace (List.find (Doctor._has_attr Submission_attrs)
             [py "doctor_id"; py "assigned_doctor_id"; py "reviewer_id"])
    with (@None str) by (vm_compute; reflexivity).
  replace (List.find (Doctor._has_attr Assignment_attrs)
             [py "doctor_id"; py "reviewer_id"])
    with (@None str) by (vm_compute; reflexivity).
  destruct (if Doctor._has_attr Submission_attrs (py "assignment")
            then get_assignment d (assignment_id sub) else None);
    reflexivity.
Qed.

(** [update_submission_status] as a decision tree on the world. *)
Lemma update_submission_status_run env sid body user w :
  Submissions.update_submission_status env sid body user w =
  if negb (mem (role_of user) [py "admin"; py "doctor"])
  then (Raise (mkHTTPException 403 (py "Admin or doctor role required")), w)
  else if negb (mem (Submissions.p_status body) Submissions.VALID_STATUSES)
  then (Raise (mkHTTPException 400 (py "Invalid status")), w)
  else if eqb (Submissions.p_status body) (py "Accepted")
          && bool_decide (Submissions.p_grade body = None)
  then (Raise (mkHTTPException 400
                 (py "Grade is required when accepting a submission")), w)
  else if eqb (Submissions.p_status body) (py "NeedsRevision")
          && match Submissions.p_feedback_text body with
             | None => true
             | Some t => negb (truthy (strip t))
             end
  then (Raise (mkHTTPException 400
                 (py "Feedback text is required when marking NeedsRevision")),
        w)
  else
    match get_submission (db w) sid with
    | None => (Raise (mkHTTPException 404 (py "Submission not found")), w)
    | Some sub =>
        match
          match db_fault env with
          | Some e => inl e
          | None =>
              flush (now env) (db w)
                (status_update_changes (db w) sid body user sub)
          end
        with
        | inl IntegrityError =>
            (Raise (mkHTTPException 400
                      (py "Constraint error while updating submission")),
             rolled_back w)
        | inl OtherError =>
            (Raise (mkHTTPException 500
                      (py "Failed to update submission status")),
             rolled_back w)
        | inr d' =>
            (Raise (mkHTTPException 500
                      (py "Failed to update submission status")),
             rolled_back (committed d' w))
        end
    end.
Proof.
  unfold Submissions.update_submission_status,
    Submissions._require_admin_or_doctor, role_of, status_update_changes.
  unfold bind at 1.
  destruct (negb (mem _ [py "admin"; py "doctor"])); [reflexivity|].
  unfold ret at 1.
  destruct (negb (mem _ Submissions.VALID_STATUSES)); [reflexivity|].
  destruct (eqb _ (py "Accepted") && _); [reflexivity|].
  destruct (eqb _ (py "NeedsRevision") && _); [reflexivity|].
  unfold bind at 1, get_db at 1.
  destruct (get_submission (db w) sid) as [sub|]; [|reflexivity].
  rewrite submissions_assigned_always, andb_false_r.
  unfold bind at 1, commit at 1.
  destruct (db_fault env) as [[|]|]; try reflexivity.
  destruct (flush _ _ _) as [[|]|d']; reflexivity.
Qed.

Lemma find_replace_feedback (row fb0 : SubmissionFeedback)
    (l : list SubmissionFeedback) sid :
  List.find (fun f => fb_submission_id f =? sid) l = Some fb0 ->
  feedback_id row = feedback_id fb0 ->
  fb_submission_id row = sid ->
  List.find (fun f => fb_submission_id f =? sid) (replace_feedback row l)
  = Some row.
Proof.
  intros Hf Hid Hsid. unfold replace_feedback.
  induction l as [|a l IH]; simpl in *; [discriminate|].
  destruct (Z.eqb_spec (feedback_id a) (feedback_id row)) as [E|E].
  - assert (Hr : (fb_submission_id row =? sid) = true) by now apply Z.eqb_eq.
    now rewrite Hr.
  - destruct (fb_submission_id a =? sid) eqn:Ha.
    + inversion Hf; subst. congruence.
    + auto.
Qed.

(** The feedback upsert never touches the other two tables. *)
Lemma flush_upsert_tables now_ d body sid user fb d' :
  flush now_ d (Submissions.upsert_feedback body sid user fb) = inr d' ->
  Submission_table d' = Submission_table d
  /\ Assignment_table d' = Assignment_table d.
Proof.
  unfold Submissions.upsert_feedback.
  destruct (bool_decide _ || bool_decide _).
  - destruct fb as [fb0|]; simpl.
    + intros H. inversion H; subst. auto.
    + destruct (Submissions._is_doctor user); [|discriminate].
      destruct (List.existsb _ _); [discriminate|].
      intros H. inversion H; subst. auto.
  - simpl. intros H. inversion H; subst. auto.
Qed.

Lemma flush_status_update now_ d sid body user sub d' :
  flush now_ d (status_update_changes d sid body user sub) = inr d' ->
  Submission_table d'
  = replace_submission (set_status (Submissions.p_status body) sub)
      (Submission_table d)
  /\ Assignment_table d' = Assignment_table d.
Proof.
  unfold status_update_changes. simpl. intros H.
  apply flush_upsert_tables in H. exact H.
Qed.

Lemma get_submission_status_update now_ d sid body user sub d' :
  get_submission d sid = Some sub ->
  flush now_ d (status_update_changes d sid body user sub) = inr d' ->
  get_submission d' sid = Some (set_status (Submissions.p_status body) sub)
  /\ get_assignment d' (assignment_id sub)
     = get_assignment d (assignment_id sub).
Proof.
  intros Hg Hf. apply flush_status_update in Hf as [Hs Ha]. split.
  - unfold get_submission in *. rewrite Hs, find_replace_submission, Hg.
    simpl. now rewrite Z.eqb_refl.
  - unfold get_assignment. now rewrite Ha.
Qed.

(** Without grade and feedback text only the submission row changes. *)
Lemma flush_status_only now_ d sid body user sub :
  Submissions.p_grade body = None ->
  Submissions.p_feedback_text body = None ->
  flush now_ d (status_update_changes d sid body user sub)
  = inr (mkDB (replace_submission
                 (set_status (Submissions.p_status body) sub)
                 (Submission_table d))
           (SubmissionFeedback_table d) (Assignment_table d)).
Proof.
  intros Hg Ht. unfold status_update_changes, Submissions.upsert_feedback.
  rewrite Hg, Ht. reflexivity.
Qed.

(** With a feedback row already there, the upsert updates it in place. *)
Lemma flush_status_existing now_ d sid body user sub fb0 :
  get_feedback d sid = Some fb0 ->
  (Submissions.p_grade body <> None
   \/ Submissions.p_feedback_text body <> None) ->
  exists fb1,
    flush now_ d (status_update_changes d sid body user sub)
    = inr (mkDB (replace_submission
                   (set_status (Submissions.p_status body) sub)
                   (Submission_table d))
             (replace_feedback fb1 (SubmissionFeedback_table d))
             (Assignment_table d))
    /\ feedback_id fb1 = feedback_id fb0
    /\ fb_submission_id fb1 = fb_submission_id fb0
    /\ grade fb1 = match Submissions.p_grade body with
                   | Some g => Some g
                   | None => grade fb0
                   end
    /\ feedback_text fb1 = match Submissions.p_feedback_text body with
                           | Some t => Some t
                           | None => feedback_text fb0
                           end.
Proof.
  intros Hfb Hany. unfold status_update_changes, Submissions.upsert_feedback.
  rewrite Hfb.
  assert (Hb : bool_decide (Submissions.p_feedback_text body <> None)
               || bool_decide (Submissions.p_grade body <> None) = true).
  { destruct Hany as [H|H];
      [rewrite (bool_decide_eq_true_2 _ H), orb_true_r
      |rewrite (bool_decide_eq_true_2 _ H)]; reflexivity. }
  rewrite Hb. eexists. split; [reflexivity|].
  destruct (Submissions.p_feedback_text body), (Submissions.p_grade body),
    (_ && _); simpl; auto.
Qed.

(** A first feedback row from a caller who is not a doctor has no
    [doctor_id]: the insert is refused. *)
Lemma flush_status_no_doctor now_ d sid body user sub :
  Submissions._is_doctor user = false ->
  get_feedback d sid = None ->
  (Submissions.p_grade body <> None
   \/ Submissions.p_feedback_text body <> None) ->
  Submissions.upsert_feedback body sid user (get_feedback d sid)
  = [Add_Feedback
       (mkFeedbackKwargs sid (Submissions.p_feedback_text body)
          (Submissions.p_grade body) None)]
  /\ flush now_ d (status_update_changes d sid body user sub)
     = inl IntegrityError.
Proof.
  intros Hdoc Hfb Hany.
  assert (Hb : bool_decide (Submissions.p_feedback_text body <> None)
               || bool_decide (Submissions.p_grade body <> None) = true).
  { destruct Hany as [H|H];
      [rewrite (bool_decide_eq_true_2 _ H), orb_true_r
      |rewrite (bool_decide_eq_true_2 _ H)]; reflexivity. }
  assert (E : Submissions.upsert_feedback body sid user (get_feedback d sid)
              = [Add_Feedback
                   (mkFeedbackKwargs sid (Submissions.p_feedback_text body)
                      (Submissions.p_grade body) None)]).
  { unfold Submissions.upsert_feedback. rewrite Hfb, Hb, Hdoc, andb_false_r.
    reflexivity. }
  split; [exact E|].
  unfold status_update_changes. rewrite E. reflexivity.
Qed.

(** A first feedback row from a doctor is inserted. *)
Lemma flush_status_doctor now_ d sid body user sub :
  Submissions._is_doctor user = true ->
  get_feedback d sid = None ->
  exists d', flush now_ d (status_update_changes d sid body user sub)
             = inr d'.
Proof.
  intros Hdoc Hfb.
  unfold status_update_changes, Submissions.upsert_feedback.
  rewrite Hfb, Hdoc.
  destruct (bool_decide _ || bool_decide _); [|eexists; reflexivity].
  replace (Submissions._has_attr SubmissionFeedback_attrs (py "doctor_id"))
    with true by (vm_compute; reflexivity).
  simpl. unfold get_feedback in Hfb.
  rewrite (find_none_existsb _ _ Hfb). eexists. reflexivity.
Qed.

Lemma role_admin_not_doctor user :
  role_of user = py "admin" -> Submissions._is_doctor user = false.
Proof.
  unfold role_of, Submissions._is_doctor. intros ->. reflexivity.
Qed.

Lemma role_admin_reviewer user :
  role_of user = py "admin" ->
  mem (role_of user) [py "admin"; py "doctor"] = true.
Proof. intros ->. reflexivity. Qed.

Lemma role_doctor_reviewer user :
  Submissions._is_doctor user = true ->
  mem (role_of user) [py "admin"; py "doctor"] = true.
Proof.
  unfold Submissions._is_doctor, role_of, eqb. intros H.
  apply bool_decide_eq_true in H. rewrite H. reflexivity.
Qed.

(** ** The student routes, step by step *)

Lemma student_guard_run {A} w sid allow user (k : Submission -> M A) :
  (Students._require_student user ;;;
   d <- get_db ;;
   match get_submission d sid with
   | None => HTTP 404 (py "Submission not found")
   | Some sub =>
       Students._ensure_submission_ownership sub (id user) ;;;
       Students._validate_submission_for_edit sub allow ;;;
       k sub
   end) w
  = match student_edit_guard w sid allow user with
    | inl e => (Raise e, w)
    | inr sub => k sub w
    end.
Proof.
  unfold student_edit_guard, Students._require_student, role_of.
  unfold bind at 1.
  destruct (negb (mem _ [py "student"])); [reflexivity|].
  unfold ret at 1. unfold bind at 1, get_db at 1.
  destruct (get_submission (db w) sid) as [sub|]; [|reflexivity].
  unfold Students._ensure_submission_ownership. unfold bind at 1.
  destruct (negb (student_id sub =? id user)); [reflexivity|].
  unfold ret at 1. unfold Students._validate_submission_for_edit, editable.
  unfold bind at 1.
  destruct (eqb (status sub) (py "Pending")); [reflexivity|].
  cbn [orb]. destruct (allow && _); reflexivity.
Qed.

Lemma update_submission_notes_run env sid notes user w :
  Students.update_submission_notes env sid notes user w =
  match student_edit_guard w sid true user with
  | inl e => (Raise e, w)
  | inr sub =>
      match db_fault env with
      | Some _ =>
          (Raise (mkHTTPException 500 (py "Failed to update notes")),
           rolled_back w)
      | None =>
          (Return (set_student_notes (or_none notes) sub),
           committed
             (with_submission (db w) (set_student_notes (or_none notes) sub))
             w)
      end
  end.
Proof.
  unfold Students.update_submission_notes.
  rewrite student_guard_run.
  destruct (student_edit_guard w sid true user) as [e|sub]; [reflexivity|].
  unfold bind at 1, commit at 1.
  destruct (db_fault env) as [[|]|]; reflexivity.
Qed.

Lemma student_delete_submission_run cfg env sid allow user w :
  Students.delete_submission cfg env sid allow user w =
  match student_edit_guard w sid allow user with
  | inl e => (Raise e, w)
  | inr sub =>
      if bool_decide (db_fault env <> None) || has_feedback (db w) sub
      then (Raise (mkHTTPException 500 (py "Failed to delete submission")),
            rolled_back w)
      else (Return tt,
            after_remove cfg (file_path sub)
              (committed (without_submission (db w) sub) w))
  end.
Proof.
  unfold Students.delete_submission.
  rewrite student_guard_run.
  destruct (student_edit_guard w sid allow user) as [e|sub]; [reflexivity|].
  unfold bind at 1, commit at 1.
  destruct (db_fault env) as [[|]|]; try reflexivity.
  cbn [flush flush1 bool_decide orb]. unfold has_feedback.
  rewrite bool_decide_eq_false_2 by (intros H; now apply H). cbn [orb].
  destruct (List.existsb _ _); [reflexivity|].
  rewrite remove_disk_file_run. reflexivity.
Qed.

Lemma admin_delete_submission_run cfg env sid delete_file user w :
  Submissions.delete_submission cfg env sid delete_file user w =
  if negb (eqb (role_of user) (py "admin"))
  then (Raise (mkHTTPException 403 (py "Only admins can delete submissions")),
        w)
  else
    match get_submission (db w) sid with
    | None => (Raise submission_not_found, w)
    | Some sub =>
        if bool_decide (db_fault env <> None) || has_feedback (db w) sub
        then (Raise (mkHTTPException 500 (py "Failed to delete submission")),
              rolled_back w)
        else
          let w1 := committed (without_submission (db w) sub) w in
          let disk := Submissions._disk_path_from_public cfg (file_path sub) in
          (Return tt,
           if delete_file && truthy (file_path sub) && removable cfg w1 disk
           then unlinked cfg w1 disk
           else w1)
    end.
Proof.
  unfold Submissions.delete_submission, role_of.
  destruct (negb (eqb _ (py "admin"))); [reflexivity|].
  unfold bind at 1, get_db at 1.
  destruct (get_submission (db w) sid) as [sub|]; [|reflexivity].
  unfold bind at 1, commit at 1.
  destruct (db_fault env) as [[|]|]; try reflexivity.
  cbn [flush flush1]. unfold has_feedback.
  rewrite bool_decide_eq_false_2 by (intros H; now apply H). cbn [orb].
  destruct (List.existsb _ _); [reflexivity|].
  cbv zeta.
  destruct (delete_file && truthy (file_path sub)); [|reflexivity].
  cbn [andb]. unfold bind, is_file, removable, unlinked, unlink, ret.
  change (Submissions.UPLOAD_DIR cfg) with (Students.UPLOAD_DIR cfg).
  unfold committed, without_submission.
  set (w1 := mkWorld _ (files w) _).
  set (disk := Submissions._disk_path_from_public cfg (file_path sub)).
  destruct (files w1 !! fs_key cfg disk) as [c|] eqn:E.
  - rewrite bool_decide_eq_true_2 by eauto. cbn [andb].
    destruct (is_relative_to _ _); [rewrite E|]; reflexivity.
  - rewrite bool_decide_eq_false_2 by (intros [? ?]; discriminate).
    reflexivity.
Qed.

Lemma replace_submission_file_run cfg env sid file user w :
  Students.replace_submission_file cfg env sid file user w =
  match student_edit_guard w sid true user with
  | inl e => (Raise e, w)
  | inr sub =>
      if ext_refused file
      then (Raise (file_type_not_allowed (upload_ext file)), w)
      else
        match Students._save_stream_to_disk cfg file
                (upload_dest cfg env file) w with
        | (Raise e, w1) => (Raise e, w1)
        | (Return _, w1) =>
            match db_fault env with
            | Some _ =>
                (Raise (mkHTTPException 500
                          (py "Failed to replace submission file")),
                 rolled_back (after_remove cfg (upload_public env file) w1))
            | None =>
                let w2 :=
                  committed
                    (with_submission (db w1) (replaced_row env file sub))
                    w1 in
                (Return (replaced_row env file sub),
                 if truthy (file_path sub)
                    && negb (eqb (file_path sub) (upload_public env file))
                 then after_remove cfg (file_path sub) w2
                 else w2)
            end
        end
  end.
Proof.
  unfold Students.replace_submission_file.
  rewrite student_guard_run.
  destruct (student_edit_guard w sid true user) as [e|sub]; [reflexivity|].
  fold (upload_safe_name file). fold (upload_ext file).
  fold (ext_refused file).
  destruct (ext_refused file); [reflexivity|].
  fold (upload_unique_name env file). fold (upload_dest cfg env file).
  fold (upload_public env file). fold (replaced_row env file sub).
  unfold bind at 1.
  destruct (Students._save_stream_to_disk cfg file _ w) as [[r|e] w1];
    [|reflexivity].
  unfold bind at 1, commit at 1.
  destruct (db_fault env) as [[|]|].
  - unfold bind at 1. rewrite remove_disk_file_run. reflexivity.
  - unfold bind at 1. rewrite remove_disk_file_run. reflexivity.
  - cbn [flush flush1]. cbv zeta. fold (with_submission (db w1) (replaced_row env file sub)).
    fold (committed (with_submission (db w1) (replaced_row env file sub)) w1).
    unfold bind at 1.
    destruct (truthy (file_path sub) && negb (eqb (file_path sub) _)).
    + rewrite remove_disk_file_run. reflexivity.
    + reflexivity.
Qed.

Lemma create_submission_run cfg env aid file notes user w :
  Students.create_submission cfg env aid file notes user w =
  match create_guard env w aid file user with
  | Some e => (Raise e, w)
  | None =>
      match Students._save_stream_to_disk cfg file
              (upload_dest cfg env file) w with
      | (Raise e, w1) => (Raise e, w1)
      | (Return _, w1) =>
          match db_fault env with
          | Some IntegrityError =>
              (Raise (mkHTTPException 400
                        (py "You have already submitted for this assignment")),
               rolled_back (after_remove cfg (upload_public env file) w1))
          | Some OtherError =>
              (Raise (mkHTTPException 500 (py "Failed to create submission")),
               rolled_back (after_remove cfg (upload_public env file) w1))
          | None =>
              (Return
                 (set_submission_id (next_submission_id (db w))
                    (created_row env aid file notes user)),
               committed
                 (mkDB
                    (Submission_table (db w1)
                       ++ [set_submission_id (next_submission_id (db w1))
                             (created_row env aid file notes user)])
                    (SubmissionFeedback_table (db w1))
                    (Assignment_table (db w1)))
                 w1)
          end
      end
  end.
Proof.
  unfold Students.create_submission, create_guard,
    Students._require_student, role_of.
  unfold bind at 1.
  destruct (negb (mem _ [py "student"])); [reflexivity|].
  unfold ret at 1.
  destruct (aid <=? 0); [reflexivity|].
  unfold bind at 1, get_db at 1.
  destruct (get_assignment (db w) aid) as [a|]; [|reflexivity].
  destruct (negb (Students._assignment_time_window_ok env a)); [reflexivity|].
  fold (upload_safe_name file). fold (upload_ext file).
  fold (ext_refused file).
  destruct (ext_refused file); [reflexivity|].
  fold (upload_unique_name env file). fold (upload_dest cfg env file).
  fold (upload_public env file).
  fold (created_row env aid file notes user).
  unfold bind at 1.
  destruct (Students._save_stream_to_disk cfg file _ w) as [[r|e] w1];
    [|reflexivity].
  unfold bind at 1, commit at 1.
  destruct (db_fault env) as [[|]|].
  - unfold bind at 1. rewrite remove_disk_file_run. reflexivity.
  - unfold bind at 1. rewrite remove_disk_file_run. reflexivity.
  - reflexivity.
Qed.

(** ** Effects of the routes on the tables *)

Lemma db_after_remove cfg p w : db (after_remove cfg p w) = db w.
Proof. unfold after_remove. now destruct (removable _ _ _). Qed.

Lemma student_edit_guard_inr w sid allow user sub :
  student_edit_guard w sid allow user = inr sub ->
  mem (role_of user) [py "student"] = true
  /\ get_submission (db w) sid = Some sub
  /\ student_id sub = id user
  /\ editable sub allow = true.
Proof.
  unfold student_edit_guard.
  destruct (mem (role_of user) [py "student"]); [|discriminate]. cbn [negb].
  destruct (get_submission (db w) sid) as [s|]; [|discriminate].
  destruct (Z.eqb_spec (student_id s) (id user)); [|discriminate].
  cbn [negb]. destruct (editable s allow) eqn:E; [|discriminate].
  intros H. inversion H; subst. repeat split; auto.
Qed.

Lemma get_submission_id d sid sub :
  get_submission d sid = Some sub -> submission_id sub = sid.
Proof. intros H. now apply find_Some_id in H. Qed.

Lemma update_notes_statuses env sid notes user w r w' :
  Students.update_submission_notes env sid notes user w = (r, w') ->
  same_statuses (db w) (db w').
Proof.
  rewrite update_submission_notes_run.
  destruct (student_edit_guard w sid true user) as [e|sub] eqn:G.
  - intros H. inversion H; subst. apply same_statuses_refl.
  - apply student_edit_guard_inr in G as (_ & Hsub & _ & _).
    destruct (db_fault env); intros H; inversion H; subst; simpl.
    + apply same_statuses_refl.
    + apply (same_statuses_replace _ sub); [|reflexivity].
      simpl. now rewrite (get_submission_id _ _ _ Hsub).
Qed.

Lemma student_delete_statuses cfg env sid allow user w r w' :
  Students.delete_submission cfg env sid allow user w = (r, w') ->
  same_statuses (db w) (db w').
Proof.
  rewrite student_delete_submission_run.
  destruct (student_edit_guard w sid allow user) as [e|sub] eqn:G.
  - intros H. inversion H; subst. apply same_statuses_refl.
  - destruct (_ || _); intros H; inversion H; subst.
    + apply same_statuses_refl.
    + rewrite db_after_remove. apply same_statuses_delete.
Qed.

Lemma admin_delete_statuses cfg env sid delete_file user w r w' :
  Submissions.delete_submission cfg env sid delete_file user w = (r, w') ->
  same_statuses (db w) (db w').
Proof.
  rewrite admin_delete_submission_run.
  destruct (negb _).
  { intros H. inversion H; subst. apply same_statuses_refl. }
  destruct (get_submission (db w) sid) as [sub|].
  2:{ intros H. inversion H; subst. apply same_statuses_refl. }
  destruct (_ || _); intros H; inversion H; subst.
  - apply same_statuses_refl.
  - cbv zeta.
    match goal with
    | |- context [if ?c then _ else _] => destruct c
    end; unfold unlinked, committed, without_submission; simpl;
      apply same_statuses_delete.
Qed.

Lemma replace_file_statuses cfg env sid file user w r w' :
  Students.replace_submission_file cfg env sid file user w = (r, w') ->
  same_statuses (db w) (db w').
Proof.
  rewrite replace_submission_file_run.
  destruct (student_edit_guard w sid true user) as [e|sub] eqn:G.
  { intros H. inversion H; subst. apply same_statuses_refl. }
  apply student_edit_guard_inr in G as (_ & Hsub & _ & _).
  destruct (ext_refused file).
  { intros H. inversion H; subst. apply same_statuses_refl. }
  destruct (Students._save_stream_to_disk cfg file _ w) as [[x|e] w1] eqn:S;
    apply save_stream_frame in S as (Hd & _ & _).
  - destruct (db_fault env); intros H; inversion H; subst.
    + simpl. rewrite db_after_remove, Hd. apply same_statuses_refl.
    + assert (E : db (if truthy (file_path sub)
                         && negb (eqb (file_path sub) (upload_public env file))
                      then after_remove cfg (file_path sub)
                             (committed
                                (with_submission (db w1)
                                   (replaced_row env file sub)) w1)
                      else committed
                             (with_submission (db w1)
                                (replaced_row env file sub)) w1)
                 = with_submission (db w1) (replaced_row env file sub)).
      { destruct (_ && _); [rewrite db_after_remove|]; reflexivity. }
      rewrite E, Hd.
      apply (same_statuses_replace _ sub); [|reflexivity].
      simpl. now rewrite (get_submission_id _ _ _ Hsub).
  - intros H. inversion H; subst. rewrite Hd. apply same_statuses_refl.
Qed.

(** What an upload leaves in the table: nothing when it fails; when it
    succeeds the old rows, then the new row, in status "Pending". *)
Lemma create_submission_tables cfg env aid file notes user w r w' :
  Students.create_submission cfg env aid file notes user w = (r, w') ->
  (exists e, r = Raise e /\ db w' = db w)
  \/ exists row,
       r = Return row
       /\ row = set_submission_id (next_submission_id (db w))
                  (created_row env aid file notes user)
       /\ status row = py "Pending"
       /\ db w' = mkDB (Submission_table (db w) ++ [row])
                    (SubmissionFeedback_table (db w))
                    (Assignment_table (db w)).
Proof.
  rewrite create_submission_run.
  destruct (create_guard env w aid file user).
  { intros H. inversion H; subst. left. eauto. }
  destruct (Students._save_stream_to_disk cfg file _ w) as [[x|e] w1] eqn:S;
    apply save_stream_frame in S as (Hd & _ & _).
  - destruct (db_fault env) as [[|]|]; intros H; inversion H; subst.
    + left. simpl. rewrite db_after_remove. eauto.
    + left. simpl. rewrite db_after_remove. eauto.
    + right. eexists. split; [reflexivity|]. split; [reflexivity|].
      split; [reflexivity|]. simpl. now rewrite Hd.
  - intros H. inversion H; subst. left. eauto.
Qed.

Lemma create_statuses cfg env aid file notes user w r w' :
  Students.create_submission cfg env aid file notes user w = (r, w') ->
  same_statuses (db w) (db w').
Proof.
  intros H.
  apply create_submission_tables in H as [(e & _ & ->)|(row & _ & _ & _ & ->)].
  - apply same_statuses_refl.
  - apply same_statuses_add.
Qed.

Lemma update_status_needs_role env sid body user w :
  mem (role_of user) [py "admin"; py "doctor"] = false ->
  Submissions.update_submission_status env sid body user w
  = (Raise (mkHTTPException 403 (py "Admin or doctor role required")), w).
Proof.
  intros H. now rewrite update_submission_status_run, H.
Qed.

Lemma review_needs_role env sid payload user w :
  mem (role_of user) [py "admin"; py "doctor"] = false ->
  Doctor.review_submission env sid payload user w
  = (Raise (mkHTTPException 403 (py "Doctor role required")), w).
Proof.
  intros H. unfold Doctor.review_submission, Doctor._require_doctor.
  fold (role_of user).
  assert (E : eqb (role_of user) (py "doctor") = false).
  { unfold eqb. apply bool_decide_eq_false_2. intros E. rewrite E in H.
    discriminate. }
  rewrite E. reflexivity.
Qed.

Lemma handle_result {A} (m : M A) (f : A -> Response) w res w' :
  (r <- m ;; ret (f r)) w = (res, w') ->
  exists r, m w = (r, w')
            /\ res = match r with
                     | Return a => Return (f a)
                     | Raise e => Raise e
                     end.
Proof.
  unfold bind, ret. destruct (m w) as [[a|e] w1]; intros H;
    inversion H; subst; eauto.
Qed.

(** Only the two review routes change a stored status. *)
Lemma handle_same_statuses cfg env req user w res w' :
  is_review req = false ->
  handle cfg env req user w = (res, w') ->
  same_statuses (db w) (db w').
Proof.
  destruct req; simpl; try discriminate; intros _ H;
    apply handle_result in H as (r & H & _).
  - eapply create_statuses; eauto.
  - eapply update_notes_statuses; eauto.
  - eapply replace_file_statuses; eauto.
  - eapply student_delete_statuses; eauto.
  - eapply admin_delete_statuses; eauto.
Qed.

(** ** Validation of a review *)

(** Evaluate the comparisons between string literals in the goal. *)
Ltac py_eval :=
  repeat (progress
    (repeat match goal with
     | |- context [mem (py ?a) ?l] =>
         let t := constr:(mem (py a) l) in
         let v := eval vm_compute in t in
         progress change t with v
     | |- context [eqb (py ?a) (py ?b)] =>
         let t := constr:(eqb (py a) (py b)) in
         let v := eval vm_compute in t in
         progress change t with v
     end; cbn [negb andb orb])).

Lemma payload_valid_Rejected body :
  Submissions.p_status body = py "Rejected" -> payload_valid body = true.
Proof. unfold payload_valid. intros ->. py_eval. reflexivity. Qed.

Lemma payload_valid_Pending body :
  Submissions.p_status body = py "Pending" -> payload_valid body = true.
Proof. unfold payload_valid. intros ->. py_eval. reflexivity. Qed.

(** Past the guards, on a stored submission and a database with no fault
    of its own, the call is decided by the flush of its changes; where the
    flush goes through, the changes are committed and the response
    read-back fails. *)
Lemma valid_update_run env sid body user w sub :
  mem (role_of user) [py "admin"; py "doctor"] = true ->
  payload_valid body = true ->
  get_submission (db w) sid = Some sub ->
  db_fault env = None ->
  Submissions.update_submission_status env sid body user w
  = match flush (now env) (db w)
            (status_update_changes (db w) sid body user sub) with
    | inl IntegrityError => (Raise constraint_error, rolled_back w)
    | inl OtherError => (Raise update_failed, rolled_back w)
    | inr d' => (Raise update_failed, rolled_back (committed d' w))
    end.
Proof.
  intros Hrole Hvalid Hsub Hfault.
  rewrite update_submission_status_run, Hrole. cbn [negb].
  unfold payload_valid in Hvalid.
  apply andb_true_iff in Hvalid as [Hv Hv3].
  apply andb_true_iff in Hv as [Hv1 Hv2].
  rewrite Hv1. cbn [negb].
  apply negb_true_iff in Hv2. rewrite Hv2.
  apply negb_true_iff in Hv3. rewrite Hv3.
  rewrite Hsub, Hfault. reflexivity.
Qed.

(** Past the guards, a status update with neither grade nor feedback text
    commits: the submission takes the new status, the feedback table stays
    as it is.  The answer is the 500 of the response read-back. *)
Lemma status_only_update_commits env sid body user w sub :
  mem (role_of user) [py "admin"; py "doctor"] = true ->
  payload_valid body = true ->
  Submissions.p_grade body = None ->
  Submissions.p_feedback_text body = None ->
  get_submission (db w) sid = Some sub ->
  db_fault env = None ->
  Submissions.update_submission_status env sid body user w
  = (Raise update_failed,
     rolled_back
       (committed
          (mkDB (replace_submission
                   (set_status (Submissions.p_status body) sub)
                   (Submission_table (db w)))
             (SubmissionFeedback_table (db w)) (Assignment_table (db w)))
          w)).
Proof.
  intros Hrole Hvalid Hg Ht Hsub Hfault.
  rewrite (valid_update_run env sid body user w sub) by assumption.
  now rewrite (flush_status_only (now env) (db w) sid body user sub Hg Ht).
Qed.

(** C3.  For a call to the status update by a doctor or an admin: status
    "Accepted" with a null grade fails with the validation error "Grade is
    required when accepting a submission"; status "NeedsRevision" with a
    feedback text that is null or made of whitespace only fails with the
    validation error "Feedback text is required when marking NeedsRevision";
    in both cases the world (submission row, feedback row, files) is left
    exactly as it was.  Status "Rejected" imposes neither requirement: it
    passes the validation whatever the grade and the feedback text are,
    and with neither of them the call on a stored submission (the
    database having no fault of its own) leaves the tables with the
    status "Rejected" written to the submission and nothing else
    changed. *)
Theorem review_validation_errors env sid body user w :
  mem (role_of user) [py "admin"; py "doctor"] = true ->
  (Submissions.p_status body = py "Accepted" ->
   Submissions.p_grade body = None ->
   Submissions.update_submission_status env sid body user w
   = (Raise grade_required, w))
  /\ (Submissions.p_status body = py "NeedsRevision" ->
      (Submissions.p_feedback_text body = None
       \/ exists t, Submissions.p_feedback_text body = Some t
                    /\ forallb isspace t = true) ->
      Submissions.update_submission_status env sid body user w
      = (Raise feedback_required, w))
  /\ (Submissions.p_status body = py "Rejected" ->
      payload_valid body = true
      /\ forall sub,
           Submissions.p_grade body = None ->
           Submissions.p_feedback_text body = None ->
           get_submission (db w) sid = Some sub ->
           db_fault env = None ->
           db (snd (Submissions.update_submission_status
                      env sid body user w))
           = mkDB (replace_submission (set_status (py "Rejected") sub)
                     (Submission_table (db w)))
               (SubmissionFeedback_table (db w))
               (Assignment_table (db w))).
Proof.
  intros Hrole. split; [|split].
  - intros Hst Hg.
    rewrite update_submission_status_run, Hrole, Hst, Hg. py_eval.
    reflexivity.
  - intros Hst Ht.
    rewrite update_submission_status_run, Hrole, Hst. py_eval.
    destruct Ht as [->|(t & -> & Hsp)]; [reflexivity|].
    apply strip_nil_iff in Hsp. rewrite Hsp. reflexivity.
  - intros Hst. split; [now apply payload_valid_Rejected|].
    intros sub Hg Ht Hsub Hfault.
    rewrite (status_only_update_commits env sid body user w sub);
      auto using payload_valid_Rejected.
    rewrite Hst. reflexivity.
Qed.

(** A doctor accepts without a grade, marks "NeedsRevision" with a blank
    text, and rejects with neither. *)
Lemma review_validation_errors_witness :
  Submissions.update_submission_status env0 1
    (Submissions.mkStatusUpdatePayload (py "Accepted") None (Some (py "ok")))
    doctor3 (w_sub "Pending")
  = (Raise grade_required, w_sub "Pending")
  /\ Submissions.update_submission_status env0 1
       (Submissions.mkStatusUpdatePayload (py "NeedsRevision") None
          (Some (py "  ")))
       doctor3 (w_sub "Pending")
     = (Raise feedback_required, w_sub "Pending")
  /\ db (snd (Submissions.update_submission_status env0 1
                (Submissions.mkStatusUpdatePayload (py "Rejected") None None)
                doctor3 (w_sub "Pending")))
     = mkDB [set_status (py "Rejected")
               (sub_row "Pending" "/uploads/aaaa_old.pdf")]
         [] [assignment10].
Proof.
  split; [|split].
  - apply (review_validation_errors env0 1
             (Submissions.mkStatusUpdatePayload (py "Accepted") None
                (Some (py "ok")))
             doctor3 (w_sub "Pending")); reflexivity.
  - apply (review_validation_errors env0 1
             (Submissions.mkStatusUpdatePayload (py "NeedsRevision") None
                (Some (py "  ")))
             doctor3 (w_sub "Pending")); [reflexivity | reflexivity |].
    right. eexists. split; reflexivity.
  - apply (proj2 (proj2 (proj2
             (review_validation_errors env0 1
                (Submissions.mkStatusUpdatePayload (py "Rejected") None None)
                doctor3 (w_sub "Pending") eq_refl)) eq_refl)
             (sub_row "Pending" "/uploads/aaaa_old.pdf"));
      reflexivity.
Defined.

(** C2 (as stated, refuted).  A doctor sends target status "Pending" for an
    accepted submission: the call passes the validation, the stored status
    goes from "Accepted" to "Pending", and the answer is no validation
    error but the 500 "Failed to update submission status" of the response
    read-back. *)
Lemma pending_target_counterexample :
  exists w',
    Submissions.update_submission_status env0 1
      (Submissions.mkStatusUpdatePayload (py "Pending") None None)
      doctor3 (w_reviewed "Accepted")
    = (Raise update_failed, w')
    /\ status <$> get_submission (db (w_reviewed "Accepted")) 1
       = Some (py "Accepted")
    /\ status <$> get_submission (db w') 1 = Some (py "Pending").
Proof.
  eexists. split; [vm_compute; reflexivity|].
  split; vm_compute; reflexivity.
Qed.

(** C2 (amended).  For a call to the status update by a doctor or an admin,
    the target status must be one of the four values of [VALID_STATUSES]
    (Pending, Accepted, Rejected, NeedsRevision): a call with any other
    target status fails with the validation error "Invalid status" and
    leaves the world unchanged.  Target status "Pending" passes the
    validation, and with neither grade nor feedback text the call on a
    stored submission (the database having no fault of its own) commits:
    the tables it leaves hold the status "Pending" for the submission and
    are otherwise as they were. *)
Theorem status_update_valid_statuses env sid body user w :
  mem (role_of user) [py "admin"; py "doctor"] = true ->
  (Submissions.p_status body <> py "Pending" ->
   Submissions.p_status body <> py "Accepted" ->
   Submissions.p_status body <> py "Rejected" ->
   Submissions.p_status body <> py "NeedsRevision" ->
   Submissions.update_submission_status env sid body user w
   = (Raise invalid_status, w))
  /\ (Submissions.p_status body = py "Pending" ->
      payload_valid body = true
      /\ forall sub,
           Submissions.p_grade body = None ->
           Submissions.p_feedback_text body = None ->
           get_submission (db w) sid = Some sub ->
           db_fault env = None ->
           db (snd (Submissions.update_submission_status
                      env sid body user w))
           = mkDB (replace_submission (set_status (py "Pending") sub)
                     (Submission_table (db w)))
               (SubmissionFeedback_table (db w))
               (Assignment_table (db w))
           /\ get_submission
                (db (snd (Submissions.update_submission_status
                            env sid body user w))) sid
              = Some (set_status (py "Pending") sub)).
Proof.
  intros Hrole. split.
  - intros H1 H2 H3 H4.
    rewrite update_submission_status_run, Hrole. cbn [negb].
    assert (Hm : mem (Submissions.p_status body) Submissions.VALID_STATUSES
                 = false).
    { unfold mem, Submissions.VALID_STATUSES. apply bool_decide_eq_false_2.
      rewrite !elem_of_cons, elem_of_nil. intuition. }
    rewrite Hm. reflexivity.
  - intros Hst. split; [now apply payload_valid_Pending|].
    intros sub Hg Ht Hsub Hfault.
    rewrite (status_only_update_commits env sid body user w sub);
      auto using payload_valid_Pending.
    rewrite Hst. split; [reflexivity|].
    cbn [snd rolled_back committed db].
    rewrite get_submission_replace, Hsub. simpl.
    now rewrite Z.eqb_refl.
Qed.

(** A doctor sends the unknown status "Done", then "Pending". *)
Lemma status_update_valid_statuses_witness :
  Submissions.update_submission_status env0 1
    (Submissions.mkStatusUpdatePayload (py "Done") None None)
    doctor3 (w_reviewed "Accepted")
  = (Raise invalid_status, w_reviewed "Accepted")
  /\ db (snd (Submissions.update_submission_status env0 1
                (Submissions.mkStatusUpdatePayload (py "Pending") None None)
                doctor3 (w_reviewed "Accepted")))
     = mkDB [set_status (py "Pending")
               (sub_row "Accepted" "/uploads/aaaa_old.pdf")]
         [fb_row] [assignment10]
  /\ get_submission
       (db (snd (Submissions.update_submission_status env0 1
                   (Submissions.mkStatusUpdatePayload (py "Pending")
                      None None)
                   doctor3 (w_reviewed "Accepted")))) 1
     = Some (set_status (py "Pending")
               (sub_row "Accepted" "/uploads/aaaa_old.pdf")).
Proof.
  split.
  - apply (status_update_valid_statuses env0 1
             (Submissions.mkStatusUpdatePayload (py "Done") None None)
             doctor3 (w_reviewed "Accepted"));
      [reflexivity | | | |]; vm_compute; discriminate.
  - apply (proj2 (proj2
             (status_update_valid_statuses env0 1
                (Submissions.mkStatusUpdatePayload (py "Pending") None None)
                doctor3 (w_reviewed "Accepted") eq_refl) eq_refl)
             (sub_row "Accepted" "/uploads/aaaa_old.pdf"));
      reflexivity.
Defined.

(** C7.  A submission has a feedback row with a grade (and the database
    has no fault of its own).  A doctor or an admin sends status
    "Rejected" with a null grade.  The changes are committed: the stored
    status is "Rejected", and the feedback row of the submission still
    holds the grade; when the feedback text is null too, the feedback
    table is not modified at all.  Yet the call does not succeed: the
    response read-back after the commit fails and the answer is the error
    500 "Failed to update submission status". *)
Theorem second_review_commits_then_fails env sid body user w sub fb g :
  mem (role_of user) [py "admin"; py "doctor"] = true ->
  get_submission (db w) sid = Some sub ->
  get_feedback (db w) sid = Some fb ->
  grade fb = Some g ->
  db_fault env = None ->
  Submissions.p_status body = py "Rejected" ->
  Submissions.p_grade body = None ->
  exists fb' w',
    Submissions.update_submission_status env sid body user w
    = (Raise update_failed, w')
    /\ get_submission (db w') sid = Some (set_status (py "Rejected") sub)
    /\ get_feedback (db w') sid = Some fb'
    /\ grade fb' = Some g
    /\ (Submissions.p_feedback_text body = None ->
        fb' = fb
        /\ SubmissionFeedback_table (db w')
           = SubmissionFeedback_table (db w)).
Proof.
  intros Hrole Hsub Hfb Hgr Hfault Hst Hg.
  pose proof (payload_valid_Rejected body Hst) as Hvalid.
  destruct (Submissions.p_feedback_text body) as [t|] eqn:Ht.
  - (* a feedback text is sent: the row is updated in place *)
    destruct (flush_status_existing (now env) (db w) sid body user sub fb Hfb)
      as (fb1 & Hfl & Hid & Hsid & Hgrade & _).
    { right. rewrite Ht. discriminate. }
    destruct (get_submission_status_update _ _ _ _ _ _ _ Hsub Hfl)
      as [G1 G2].
    assert (Hsid' : fb_submission_id fb = sid).
    { unfold get_feedback in Hfb.
      apply List.find_some in Hfb as [_ E]. now apply Z.eqb_eq in E. }
    assert (G3 : get_feedback
                   (mkDB (replace_submission
                            (set_status (Submissions.p_status body) sub)
                            (Submission_table (db w)))
                      (replace_feedback fb1 (SubmissionFeedback_table (db w)))
                      (Assignment_table (db w))) sid = Some fb1).
    { unfold get_feedback. cbn [SubmissionFeedback_table].
      apply (find_replace_feedback fb1 fb); [exact Hfb | exact Hid | lia]. }
    exists fb1. eexists.
    rewrite (valid_update_run env sid body user w sub) by assumption.
    rewrite Hfl.
    split; [reflexivity|]. cbn [rolled_back committed db].
    rewrite G1, G3, Hgrade, Hg, Hst.
    repeat split; auto; congruence.
  - (* neither grade nor text: the feedback table is untouched *)
    exists fb. eexists.
    rewrite (status_only_update_commits env sid body user w sub);
      auto.
    rewrite Hst. split; [reflexivity|].
    cbn [rolled_back committed db SubmissionFeedback_table].
    rewrite get_submission_replace, Hsub. simpl. rewrite Z.eqb_refl.
    unfold get_feedback in *. cbn [SubmissionFeedback_table].
    repeat split; auto.
Qed.

(** A reviewed submission with grade 17/2 is rejected without a grade. *)
Lemma second_review_commits_then_fails_witness :
  exists fb' w',
    Submissions.update_submission_status env0 1
      (Submissions.mkStatusUpdatePayload (py "Rejected") None None)
      doctor3 (w_reviewed "Accepted")
    = (Raise update_failed, w')
    /\ get_submission (db w') 1
       = Some (set_status (py "Rejected")
                 (sub_row "Accepted" "/uploads/aaaa_old.pdf"))
    /\ get_feedback (db w') 1 = Some fb'
    /\ grade fb' = Some (QArith_base.Qmake 17 2)
    /\ (Submissions.p_feedback_text
          (Submissions.mkStatusUpdatePayload (py "Rejected") None None)
        = None ->
        fb' = fb_row
        /\ SubmissionFeedback_table (db w')
           = SubmissionFeedback_table (db (w_reviewed "Accepted"))).
Proof.
  apply (second_review_commits_then_fails env0 1
           (Submissions.mkStatusUpdatePayload (py "Rejected") None None)
           doctor3 (w_reviewed "Accepted")
           (sub_row "Accepted" "/uploads/aaaa_old.pdf")
           fb_row (QArith_base.Qmake 17 2)); reflexivity.
Defined.

(** The review route of the doctor router, in contrast, refuses the target
    status "Pending" before it touches anything. *)
Lemma doctor_review_refuses_pending env sid payload user w :
  Submissions._is_doctor user = true ->
  Doctor.r_status payload = py "Pending" ->
  Doctor.review_submission env sid payload user w
  = (Raise (mkHTTPException 400
              (py "Invalid status. Use Accepted | Rejected | NeedsRevision")),
     w).
Proof.
  intros Hdoc Hst. unfold Doctor.review_submission, Doctor._require_doctor.
  unfold Submissions._is_doctor in Hdoc. rewrite Hdoc, Hst. reflexivity.
Qed.

(** C10.  The caller is an admin, the submission has no feedback row, and
    the call supplies a grade or a feedback text.  Every such call fails,
    and the tables and the files stay as they were: no feedback row is
    recorded and the status is unchanged.  When the call passes the
    validation (and the database has no fault of its own), the session
    tries to insert a feedback row without [doctor_id], the flush is
    refused with [IntegrityError], the transaction is rolled back and the
    error is "Constraint error while updating submission". *)
Theorem admin_first_feedback_refused env sid body user w sub :
  role_of user = py "admin" ->
  get_submission (db w) sid = Some sub ->
  get_feedback (db w) sid = None ->
  (Submissions.p_grade body <> None
   \/ Submissions.p_feedback_text body <> None) ->
  (exists e w',
     Submissions.update_submission_status env sid body user w = (Raise e, w')
     /\ db w' = db w /\ files w' = files w)
  /\ (payload_valid body = true ->
      db_fault env = None ->
      Submissions.upsert_feedback body sid user (get_feedback (db w) sid)
      = [Add_Feedback
           (mkFeedbackKwargs sid (Submissions.p_feedback_text body)
              (Submissions.p_grade body) None)]
      /\ flush (now env) (db w)
           (status_update_changes (db w) sid body user sub)
         = inl IntegrityError
      /\ Submissions.update_submission_status env sid body user w
         = (Raise constraint_error, rolled_back w)).
Proof.
  intros Hadmin Hsub Hfb Hany.
  pose proof (role_admin_reviewer user Hadmin) as Hrole.
  pose proof (role_admin_not_doctor user Hadmin) as Hdoc.
  destruct (flush_status_no_doctor (now env) (db w) sid body user sub
              Hdoc Hfb Hany) as [Hups Hfl].
  split.
  - rewrite update_submission_status_run, Hrole. cbn [negb].
    destruct (negb (mem _ Submissions.VALID_STATUSES)); [eauto|].
    destruct (eqb _ (py "Accepted") && _); [eauto|].
    destruct (eqb _ (py "NeedsRevision") && _); [eauto|].
    rewrite Hsub.
    destruct (db_fault env) as [[|]|]; [eauto | eauto |].
    rewrite Hfl. eauto.
  - intros Hvalid Hfault. split; [exact Hups|]. split; [exact Hfl|].
    rewrite update_submission_status_run, Hrole. cbn [negb].
    unfold payload_valid in Hvalid.
    apply andb_true_iff in Hvalid as [Hv Hv3].
    apply andb_true_iff in Hv as [Hv1 Hv2].
    rewrite Hv1. cbn [negb].
    apply negb_true_iff in Hv2. rewrite Hv2.
    apply negb_true_iff in Hv3. rewrite Hv3.
    rewrite Hsub, Hfault, Hfl. reflexivity.
Qed.

(** An admin accepts a pending submission with grade 17/2. *)
Lemma admin_first_feedback_refused_witness :
  (exists e w',
     Submissions.update_submission_status env0 1
       (Submissions.mkStatusUpdatePayload (py "Accepted")
          (Some (QArith_base.Qmake 17 2)) None)
       admin1 (w_sub "Pending")
     = (Raise e, w')
     /\ db w' = db (w_sub "Pending") /\ files w' = files (w_sub "Pending"))
  /\ Submissions.update_submission_status env0 1
       (Submissions.mkStatusUpdatePayload (py "Accepted")
          (Some (QArith_base.Qmake 17 2)) None)
       admin1 (w_sub "Pending")
     = (Raise constraint_error, rolled_back (w_sub "Pending")).
Proof.
  assert (Hany : Submissions.p_grade
                   (Submissions.mkStatusUpdatePayload (py "Accepted")
                      (Some (QArith_base.Qmake 17 2)) None) <> None
                 \/ Submissions.p_feedback_text
                      (Submissions.mkStatusUpdatePayload (py "Accepted")
                         (Some (QArith_base.Qmake 17 2)) None) <> None).
  { left. simpl. discriminate. }
  destruct (admin_first_feedback_refused env0 1
              (Submissions.mkStatusUpdatePayload (py "Accepted")
                 (Some (QArith_base.Qmake 17 2)) None)
              admin1 (w_sub "Pending")
              (sub_row "Pending" "/uploads/aaaa_old.pdf")
              eq_refl eq_refl eq_refl Hany) as [H1 H2].
  split; [exact H1|].
  apply H2; reflexivity.
Defined.

(** C1.  For one request to any of the modelled routes: a submission that
    the upload route creates is stored in status "Pending"; a stored status
    that differs after the request was changed by one of the two review
    (status-update) routes, called with role doctor or admin; and the
    student routes (create, update notes, replace file, delete) leave the
    status of every stored submission as it was. *)
Theorem status_changes_only_by_review cfg env req user w res w' :
  handle cfg env req user w = (res, w') ->
  (forall aid file notes row,
     req = POST_student_submissions aid file notes ->
     res = Return (SubmissionRead row) ->
     status row = py "Pending"
     /\ Submission_table (db w') = Submission_table (db w) ++ [row])
  /\ (forall sid s s',
        get_submission (db w) sid = Some s ->
        get_submission (db w') sid = Some s' ->
        status s' <> status s ->
        is_review req = true
        /\ mem (role_of user) [py "admin"; py "doctor"] = true)
  /\ (is_student_facing req = true -> same_statuses (db w) (db w')).
Proof.
  intros H. split; [|split].
  - intros aid file notes row -> ->. simpl in H.
    apply handle_result in H as (r & H & E).
    apply create_submission_tables in H
      as [(e & -> & _)|(row' & -> & _ & Hst & ->)]; [discriminate|].
    inversion E; subst. auto.
  - intros sid s s' Hs Hs' Hne.
    destruct (is_review req) eqn:Hrev.
    + split; [reflexivity|].
      destruct (mem (role_of user) [py "admin"; py "doctor"]) eqn:Hrole;
        [reflexivity|].
      exfalso. apply Hne.
      destruct req; try discriminate; simpl in H;
        apply handle_result in H as (r & H & _).
      * rewrite update_status_needs_role in H by assumption.
        inversion H; subst. congruence.
      * rewrite review_needs_role in H by assumption.
        inversion H; subst. congruence.
    + exfalso. apply Hne.
      eapply (handle_same_statuses _ _ _ _ _ _ _ Hrev H); eauto.
  - intros Hst. apply (handle_same_statuses cfg env req user w res w');
      [|exact H].
    destruct req; try discriminate; reflexivity.
Qed.

(** A student uploads a report; a doctor rejects a pending submission. *)
Lemma status_changes_only_by_review_witness :
  (status (set_submission_id 1
             (created_row env0 10 report_pdf None student7))
   = py "Pending")
  /\ (is_review
        (PATCH_submission_status 1
           (Submissions.mkStatusUpdatePayload (py "Rejected") None None))
      = true
      /\ mem (role_of doctor3) [py "admin"; py "doctor"] = true).
Proof.
  split.
  - apply (proj1 (status_changes_only_by_review cfg0 env0
                    (POST_student_submissions 10 report_pdf None)
                    student7 w_empty
                    (fst (handle cfg0 env0
                            (POST_student_submissions 10 report_pdf None)
                            student7 w_empty))
                    (snd (handle cfg0 env0
                            (POST_student_submissions 10 report_pdf None)
                            student7 w_empty))
                    (surjective_pairing _))
             10 report_pdf None); [reflexivity | vm_compute; reflexivity].
  - apply (proj1 (proj2 (status_changes_only_by_review cfg0 env0
                    (PATCH_submission_status 1
                       (Submissions.mkStatusUpdatePayload (py "Rejected")
                          None None))
                    doctor3 (w_sub "Pending")
                    (fst (handle cfg0 env0
                            (PATCH_submission_status 1
                               (Submissions.mkStatusUpdatePayload
                                  (py "Rejected") None None))
                            doctor3 (w_sub "Pending")))
                    (snd (handle cfg0 env0
                            (PATCH_submission_status 1
                               (Submissions.mkStatusUpdatePayload
                                  (py "Rejected") None None))
                            doctor3 (w_sub "Pending")))
                    (surjective_pairing _)))
             1 (sub_row "Pending" "/uploads/aaaa_old.pdf")
             (set_status (py "Rejected")
                (sub_row "Pending" "/uploads/aaaa_old.pdf")));
      [reflexivity | vm_compute; reflexivity | vm_compute; discriminate].
Defined.

(** ** Edits by the owning student *)

Lemma student_edit_guard_owner w sid allow user sub :
  mem (role_of user) [py "student"] = true ->
  get_submission (db w) sid = Some sub ->
  student_id sub = id user ->
  student_edit_guard w sid allow user
  = if editable sub allow then inr sub else inl (cannot_modify (status sub)).
Proof.
  intros Hrole Hsub Hown. unfold student_edit_guard.
  rewrite Hrole, Hsub. cbn [negb].
  assert (E : (student_id sub =? id user) = true) by now apply Z.eqb_eq.
  rewrite E. reflexivity.
Qed.

Lemma editable_reviewed sub allow :
  status sub = py "Accepted" \/ status sub = py "Rejected" ->
  editable sub allow = false.
Proof.
  unfold editable. intros [->| ->]; py_eval; now rewrite andb_false_r.
Qed.

Lemma editable_open sub allow :
  status sub = py "Pending"
  \/ (allow = true /\ status sub = py "NeedsRevision") ->
  editable sub allow = true.
Proof.
  unfold editable. intros [->|[-> ->]]; py_eval; reflexivity.
Qed.

(** C4.  The caller is the student who owns the submission.  While its
    status is "Accepted" or "Rejected", update notes, replace file and
    delete all fail with the invalid-state error "Cannot modify a submission
    in status '...'" and leave the world (submission row, feedback, stored
    files) exactly as it was.  While its status is "Pending" or
    "NeedsRevision" the three operations pass the guard: the notes update
    commits, the file replacement commits for an allowed file within the
    size ceiling, and the delete commits (for "NeedsRevision" only when
    [allow_when_needs_revision] is set, otherwise it is the same
    invalid-state error) when no feedback row refers to the submission. *)
Theorem edits_only_before_review cfg env sid user w sub :
  mem (role_of user) [py "student"] = true ->
  get_submission (db w) sid = Some sub ->
  student_id sub = id user ->
  (status sub = py "Accepted" \/ status sub = py "Rejected" ->
   (forall notes,
      Students.update_submission_notes env sid notes user w
      = (Raise (cannot_modify (status sub)), w))
   /\ (forall file,
         Students.replace_submission_file cfg env sid file user w
         = (Raise (cannot_modify (status sub)), w))
   /\ (forall allow,
         Students.delete_submission cfg env sid allow user w
         = (Raise (cannot_modify (status sub)), w)))
  /\ (status sub = py "Pending" \/ status sub = py "NeedsRevision" ->
      db_fault env = None ->
      (forall notes,
         exists w',
           Students.update_submission_notes env sid notes user w
           = (Return (set_student_notes (or_none notes) sub), w'))
      /\ (forall file,
            ext_refused file = false ->
            Z.of_nat (length (body file)) <= MAX_UPLOAD_MB cfg * 1024 * 1024 ->
            exists w',
              Students.replace_submission_file cfg env sid file user w
              = (Return (replaced_row env file sub), w'))
      /\ (forall allow,
            status sub = py "Pending" \/ allow = true ->
            has_feedback (db w) sub = false ->
            exists w',
              Students.delete_submission cfg env sid allow user w
              = (Return tt, w')
              /\ get_submission (db w') sid = None)
      /\ (status sub = py "NeedsRevision" ->
          Students.delete_submission cfg env sid false user w
          = (Raise (cannot_modify (status sub)), w))).
Proof.
  intros Hrole Hsub Hown. split.
  - intros Hst. repeat split; intros.
    + rewrite update_submission_notes_run,
        (student_edit_guard_owner w sid true user sub),
        editable_reviewed by assumption. reflexivity.
    + rewrite replace_submission_file_run,
        (student_edit_guard_owner w sid true user sub),
        editable_reviewed by assumption. reflexivity.
    + rewrite student_delete_submission_run,
        (student_edit_guard_owner w sid allow user sub),
        editable_reviewed by assumption. reflexivity.
  - intros Hst Hfault.
    assert (Hed : editable sub true = true).
    { apply editable_open. destruct Hst; auto. }
    repeat split.
    + intros notes. eexists.
      rewrite update_submission_notes_run,
        (student_edit_guard_owner w sid true user sub), Hed, Hfault
        by assumption. reflexivity.
    + intros file Hext Hsize.
      destruct (save_stream_ok cfg file (upload_dest cfg env file) w Hsize)
        as (evs & Hsave & _).
      eexists.
      rewrite replace_submission_file_run,
        (student_edit_guard_owner w sid true user sub), Hed, Hext, Hsave,
        Hfault by assumption. reflexivity.
    + intros allow Hallow Hfb.
      assert (Hed' : editable sub allow = true).
      { apply editable_open. destruct Hst as [H|H]; [auto|].
        destruct Hallow as [H'|H']; auto. }
      eexists.
      rewrite student_delete_submission_run,
        (student_edit_guard_owner w sid allow user sub), Hed', Hfault, Hfb
        by assumption.
      rewrite bool_decide_eq_false_2 by (intros H; now apply H).
      split; [reflexivity|].
      rewrite db_after_remove. cbn [committed db].
      rewrite <- (get_submission_id _ _ _ Hsub).
      apply get_submission_deleted.
    + intros Hnr.
      rewrite student_delete_submission_run,
        (student_edit_guard_owner w sid false user sub) by assumption.
      unfold editable. rewrite Hnr. py_eval. reflexivity.
Qed.

(** The owner of an accepted submission tries the three edits; the owner of
    a pending one updates the notes. *)
Lemma edits_only_before_review_witness :
  (Students.update_submission_notes env0 1 (Some (py "hi")) student7
     (w_reviewed "Accepted")
   = (Raise (cannot_modify (py "Accepted")), w_reviewed "Accepted")
   /\ Students.replace_submission_file cfg0 env0 1 report_pdf student7
        (w_reviewed "Accepted")
      = (Raise (cannot_modify (py "Accepted")), w_reviewed "Accepted")
   /\ Students.delete_submission cfg0 env0 1 true student7
        (w_reviewed "Accepted")
      = (Raise (cannot_modify (py "Accepted")), w_reviewed "Accepted"))
  /\ exists w',
       Students.update_submission_notes env0 1 (Some (py "hi")) student7
         (w_sub "Pending")
       = (Return (set_student_notes (Some (py "hi"))
                    (sub_row "Pending" "/uploads/aaaa_old.pdf")), w').
Proof.
  split.
  - destruct (proj1 (edits_only_before_review cfg0 env0 1 student7
                       (w_reviewed "Accepted")
                       (sub_row "Accepted" "/uploads/aaaa_old.pdf")
                       eq_refl eq_refl eq_refl) (or_introl eq_refl))
      as (H1 & H2 & H3).
    split; [apply H1 | split; [apply H2 | apply H3]].
  - destruct (proj2 (edits_only_before_review cfg0 env0 1 student7
                       (w_sub "Pending")
                       (sub_row "Pending" "/uploads/aaaa_old.pdf")
                       eq_refl eq_refl eq_refl) (or_introl eq_refl) eq_refl)
      as (H1 & _).
    apply (H1 (Some (py "hi"))).
Defined.

(** C5.  The per-file ceiling is [MAX_UPLOAD_MB * 1024 * 1024] bytes (with
    [MAX_UPLOAD_MB] not negative).  An upload with more bytes than the
    ceiling never creates a Submission row; when it passes the guards that
    precede the streaming, the call fails with the too-large error (413)
    and the partially written file is deleted: the destination is absent
    afterwards and the rest of the file store is as before.  An upload at
    or under the ceiling that passes the guards is written in full to the
    destination, and the call (the database having no fault) returns the
    new row with the full content stored. *)
Theorem upload_size_ceiling cfg env aid file notes user w :
  0 <= MAX_UPLOAD_MB cfg ->
  (MAX_UPLOAD_MB cfg * 1024 * 1024 < Z.of_nat (length (body file)) ->
   (exists e w',
      Students.create_submission cfg env aid file notes user w
      = (Raise e, w')
      /\ db w' = db w)
   /\ (create_guard env w aid file user = None ->
       exists w',
         Students.create_submission cfg env aid file notes user w
         = (Raise (too_large cfg), w')
         /\ db w' = db w
         /\ files w' = delete (fs_key cfg (upload_dest cfg env file)) (files w)
         /\ files w' !! fs_key cfg (upload_dest cfg env file) = None))
  /\ (Z.of_nat (length (body file)) <= MAX_UPLOAD_MB cfg * 1024 * 1024 ->
      create_guard env w aid file user = None ->
      (exists evs,
         Students._save_stream_to_disk cfg file (upload_dest cfg env file) w
         = (Return (Z.of_nat (length (body file)),
                    or_default (content_type file) []),
            mkWorld (db w)
              (<[fs_key cfg (upload_dest cfg env file) := body file]>
                 (files w))
              (trace w ++ evs)))
      /\ (db_fault env = None ->
          exists row w',
            Students.create_submission cfg env aid file notes user w
            = (Return row, w')
            /\ files w' !! fs_key cfg (upload_dest cfg env file)
               = Some (body file)
            /\ Submission_table (db w') = Submission_table (db w) ++ [row])).
Proof.
  intros Hpos. split.
  - intros Hbig.
    destruct (save_stream_too_large cfg file (upload_dest cfg env file) w
                Hpos Hbig) as (evs & Hsave & _).
    split.
    + rewrite create_submission_run.
      destruct (create_guard env w aid file user); [eauto|].
      rewrite Hsave. eauto.
    + intros Hguard. eexists.
      rewrite create_submission_run, Hguard, Hsave.
      split; [reflexivity|]. cbn [db files].
      repeat split. apply lookup_delete_eq.
  - intros Hsmall Hguard.
    destruct (save_stream_ok cfg file (upload_dest cfg env file) w Hsmall)
      as (evs & Hsave & _).
    split; [eauto|].
    intros Hfault. eexists. eexists.
    rewrite create_submission_run, Hguard, Hsave, Hfault.
    split; [reflexivity|]. cbn [committed db files Submission_table].
    split; [apply lookup_insert_eq | reflexivity].
Qed.

(** With a ceiling of zero bytes a four-byte upload is refused; with the
    ceiling of 50 MB it is stored. *)
Lemma upload_size_ceiling_witness :
  (exists w',
     Students.create_submission cfg_zero env0 10 report_pdf None student7
       w_empty
     = (Raise (too_large cfg_zero), w')
     /\ db w' = db w_empty
     /\ files w'
        = delete (fs_key cfg_zero (upload_dest cfg_zero env0 report_pdf))
            (files w_empty)
     /\ files w' !! fs_key cfg_zero (upload_dest cfg_zero env0 report_pdf)
        = None)
  /\ exists row w',
       Students.create_submission cfg0 env0 10 report_pdf None student7
         w_empty
       = (Return row, w')
       /\ files w' !! fs_key cfg0 (upload_dest cfg0 env0 report_pdf)
          = Some (body report_pdf)
       /\ Submission_table (db w') = Submission_table (db w_empty) ++ [row].
Proof.
  split.
  - apply (proj1 (upload_size_ceiling cfg_zero env0 10 report_pdf None
                    student7 w_empty ltac:(simpl; lia)));
      [simpl; lia | reflexivity].
  - apply (proj2 (upload_size_ceiling cfg0 env0 10 report_pdf None
                    student7 w_empty ltac:(simpl; lia)));
      [simpl; lia | reflexivity | reflexivity].
Defined.

(** ** Deleting a submission *)

Lemma has_feedback_false_Forall d sub :
  has_feedback d sub = false ->
  Forall (fun f => fb_submission_id f <> submission_id sub)
    (SubmissionFeedback_table d).
Proof.
  unfold has_feedback. intros H. apply List.Forall_forall. intros f Hin.
  intros E. apply Z.eqb_eq in E.
  assert (Ht : List.existsb
                 (fun f => fb_submission_id f =? submission_id sub)
                 (SubmissionFeedback_table d) = true).
  { apply List.existsb_exists. eauto. }
  congruence.
Qed.

(** A delete that returns normally found no feedback row for the
    submission, removed the submission row and left the other tables. *)
Lemma delete_success cfg env req sid user w w' :
  deleted_id req = Some sid ->
  handle cfg env req user w = (Return NoContent, w') ->
  exists sub,
    may_delete req user w = Some sub
    /\ get_submission (db w) sid = Some sub
    /\ db_fault env = None
    /\ has_feedback (db w) sub = false
    /\ db w' = without_submission (db w) sub.
Proof.
  destruct req; try discriminate; simpl; intros E H; inversion E; subst;
    apply handle_result in H as ([[]|e] & H & Hr); try discriminate.
  - rewrite student_delete_submission_run in H.
    destruct (student_edit_guard w sid allow_when_needs_revision user)
      as [e|sub] eqn:G; [discriminate|].
    pose proof (student_edit_guard_inr _ _ _ _ _ G) as (_ & Hsub & _ & _).
    destruct (db_fault env) as [x|]; [discriminate|].
    rewrite bool_decide_eq_false_2 in H by (intros F; now apply F).
    cbn [orb] in H. destruct (has_feedback (db w) sub) eqn:F; [discriminate|].
    inversion H; subst. exists sub. rewrite db_after_remove. auto.
  - rewrite admin_delete_submission_run in H.
    destruct (eqb (role_of user) (py "admin")); [|discriminate].
    cbn [negb] in H.
    destruct (get_submission (db w) sid) as [sub|] eqn:Hsub; [|discriminate].
    destruct (db_fault env) as [x|]; [discriminate|].
    rewrite bool_decide_eq_false_2 in H by (intros F; now apply F).
    cbn [orb] in H. destruct (has_feedback (db w) sub) eqn:F; [discriminate|].
    cbv zeta in H. inversion H; subst. exists sub.
    repeat split; auto.
    match goal with
    | |- context [if ?c then _ else _] => destruct c
    end; reflexivity.
Qed.

(** C9.  After a delete of a submission that returns normally (by the
    owning student or by an admin), the submission row is gone and no row
    of the feedback table refers to its id: the session detaches the
    feedback rows of a deleted submission, the column refuses NULL, so a
    delete commits only when there is no such row, and it leaves the
    feedback table as it was. *)
Theorem no_feedback_outlives_submission cfg env req sid user w w' :
  deleted_id req = Some sid ->
  handle cfg env req user w = (Return NoContent, w') ->
  get_submission (db w') sid = None
  /\ Forall (fun f => fb_submission_id f <> sid)
       (SubmissionFeedback_table (db w'))
  /\ SubmissionFeedback_table (db w') = SubmissionFeedback_table (db w).
Proof.
  intros Hreq H.
  destruct (delete_success cfg env req sid user w w' Hreq H)
    as (sub & _ & Hsub & _ & Hfb & ->).
  pose proof (get_submission_id _ _ _ Hsub) as Hid.
  split; [|split].
  - rewrite <- Hid. apply get_submission_deleted.
  - rewrite <- Hid. now apply has_feedback_false_Forall.
  - reflexivity.
Qed.

(** A student deletes a pending submission that has no feedback. *)
Lemma no_feedback_outlives_submission_witness :
  get_submission
    (db (snd (handle cfg0 env0 (DELETE_student_submission 1 false) student7
                (w_sub "Pending")))) 1 = None
  /\ Forall (fun f => fb_submission_id f <> 1)
       (SubmissionFeedback_table
          (db (snd (handle cfg0 env0 (DELETE_student_submission 1 false)
                      student7 (w_sub "Pending")))))
  /\ SubmissionFeedback_table
       (db (snd (handle cfg0 env0 (DELETE_student_submission 1 false)
                   student7 (w_sub "Pending"))))
     = SubmissionFeedback_table (db (w_sub "Pending")).
Proof.
  apply (no_feedback_outlives_submission cfg0 env0
           (DELETE_student_submission 1 false) 1 student7 (w_sub "Pending"));
    [reflexivity | vm_compute; reflexivity].
Defined.

(** With a feedback row in place the delete is refused, for the student and
    for the admin alike. *)
Lemma delete_with_feedback_refused cfg env req sid user w sub :
  deleted_id req = Some sid ->
  may_delete req user w = Some sub ->
  has_feedback (db w) sub = true ->
  handle cfg env req user w
  = (Raise (mkHTTPException 500 (py "Failed to delete submission")),
     rolled_back w).
Proof.
  destruct req; try discriminate; simpl; intros E Hm Hfb; inversion E; subst.
  - unfold bind. rewrite student_delete_submission_run.
    destruct (student_edit_guard w sid allow_when_needs_revision user)
      as [e|s]; [discriminate|]. inversion Hm; subst.
    now rewrite Hfb, orb_true_r.
  - unfold bind. rewrite admin_delete_submission_run.
    destruct (eqb (role_of user) (py "admin")); [|discriminate].
    cbn [negb]. rewrite Hm. now rewrite Hfb, orb_true_r.
Qed.

(** What a conditional unlink of a removable file does to the world. *)
Lemma unlink_if_removable cfg w p (c : bool) :
  let w' := if c && removable cfg w p then unlinked cfg w p else w in
  db w' = db w
  /\ files w' = (if c && removable cfg w p
                 then delete (fs_key cfg p) (files w) else files w)
  /\ (forall k, inside_root cfg k = false -> files w' !! k = files w !! k)
  /\ exists evs, trace w' = trace w ++ evs
                 /\ forall k, In (EvUnlink k) evs -> inside_root cfg k = true.
Proof.
  destruct c; cbn [andb]; [destruct (removable cfg w p) eqn:R|]; cbv zeta.
  - repeat split.
    + intros k Hk. simpl. apply lookup_delete_ne. intros E. subst k.
      apply removable_inside in R. congruence.
    + exists [EvUnlink (fs_key cfg p)]. split; [reflexivity|].
      intros k [E|[]]. inversion E; subst. now apply removable_inside in R.
  - repeat split. exists []. rewrite app_nil_r. split; [reflexivity|].
    intros k [].
  - repeat split. exists []. rewrite app_nil_r. split; [reflexivity|].
    intros k [].
Qed.

Lemma after_remove_spec cfg p w :
  db (after_remove cfg p w) = db w
  /\ files (after_remove cfg p w)
     = (if removable cfg w (candidate cfg p)
        then delete (fs_key cfg (candidate cfg p)) (files w) else files w)
  /\ (forall k, inside_root cfg k = false ->
                files (after_remove cfg p w) !! k = files w !! k)
  /\ exists evs, trace (after_remove cfg p w) = trace w ++ evs
                 /\ forall k, In (EvUnlink k) evs -> inside_root cfg k = true.
Proof. apply (unlink_if_removable cfg w (candidate cfg p) true). Qed.

Lemma removable_committed cfg d w p :
  removable cfg (committed d w) p = removable cfg w p.
Proof. reflexivity. Qed.

(** C6.  For a delete of a submission by the owning student or by an
    admin: no file whose key lies outside the storage root is created,
    changed or removed, and every unlink of the request is on a key inside
    the root, whatever [file_path] holds.  A delete that passes the guards
    (no database fault, no feedback row) returns normally and removes the
    submission row whatever [file_path] holds, and it removes the stored
    blob exactly when the path computed from [file_path] is an existing
    file that resolves inside the storage root (for the admin route, when
    [delete_file] is set and [file_path] is not empty). *)
Theorem delete_removes_blob_only_inside_root
    cfg env req sid user w res w' :
  deleted_id req = Some sid ->
  handle cfg env req user w = (res, w') ->
  (forall k, inside_root cfg k = false -> files w' !! k = files w !! k)
  /\ (exists evs,
        trace w' = trace w ++ evs
        /\ forall k, In (EvUnlink k) evs -> inside_root cfg k = true)
  /\ (forall sub,
        may_delete req user w = Some sub ->
        db_fault env = None ->
        has_feedback (db w) sub = false ->
        res = Return NoContent
        /\ get_submission (db w') sid = None
        /\ files w' = match delete_target cfg req sub with
                      | Some p =>
                          if removable cfg w p
                          then delete (fs_key cfg p) (files w)
                          else files w
                      | None => files w
                      end).
Proof.
  assert (Hnil : forall w0 : World,
            exists evs : list Event,
              trace w0 = trace w0 ++ evs
              /\ forall k, In (EvUnlink k) evs -> inside_root cfg k = true).
  { intros w0. exists []. rewrite app_nil_r. split; [reflexivity|].
    intros k []. }
  assert (Hroll : forall w0 : World,
            exists evs : list Event,
              trace (rolled_back w0) = trace w0 ++ evs
              /\ forall k, In (EvUnlink k) evs -> inside_root cfg k = true).
  { intros w0. exists [EvRollback]. split; [reflexivity|].
    intros k [E|[]]. discriminate. }
  destruct req; try discriminate; simpl; intros E H; inversion E; subst;
    apply handle_result in H as (r & H & Hr).
  - (* the student route *)
    rewrite student_delete_submission_run in H.
    destruct (student_edit_guard w sid allow_when_needs_revision user)
      as [e|sub] eqn:G.
    { inversion H; subst. repeat split; auto; congruence. }
    pose proof (student_edit_guard_inr _ _ _ _ _ G) as (_ & Hsub & _ & _).
    destruct (bool_decide (db_fault env <> None) || has_feedback (db w) sub)
      eqn:C.
    { inversion H; subst. split; [auto|]. split; [auto|].
      intros sub' Hm Hf Hfb. exfalso. inversion Hm; subst sub'.
      rewrite Hf, Hfb in C.
      rewrite bool_decide_eq_false_2 in C by (intros F; now apply F).
      discriminate. }
    inversion H; subst.
    destruct (after_remove_spec cfg (file_path sub)
                (committed (without_submission (db w) sub) w))
      as (Hd & Hf & Hout & evs & Ht & Hev).
    split; [exact Hout|]. split.
    { exists (EvCommit :: evs). rewrite Ht. cbn [committed trace].
      rewrite <- app_assoc. split; [reflexivity|].
      intros k [F|F]; [discriminate | auto]. }
    intros sub' Hm _ _. inversion Hm; subst sub'.
    split; [reflexivity|]. split.
    + rewrite Hd. cbn [committed db].
      rewrite <- (get_submission_id _ _ _ Hsub).
      apply get_submission_deleted.
    + rewrite Hf. reflexivity.
  - (* the admin route *)
    rewrite admin_delete_submission_run in H.
    destruct (eqb (role_of user) (py "admin")); cbn [negb] in H.
    2:{ inversion H; subst. repeat split; auto; congruence. }
    destruct (get_submission (db w) sid) as [sub|] eqn:Hsub.
    2:{ inversion H; subst. repeat split; auto; congruence. }
    destruct (bool_decide (db_fault env <> None) || has_feedback (db w) sub)
      eqn:C.
    { inversion H; subst. split; [auto|]. split; [auto|].
      intros sub' Hm Hf Hfb. exfalso. inversion Hm; subst sub'.
      rewrite Hf, Hfb in C.
      rewrite bool_decide_eq_false_2 in C by (intros F; now apply F).
      discriminate. }
    cbv zeta in H. inversion H; subst.
    destruct (unlink_if_removable cfg
                (committed (without_submission (db w) sub) w)
                (Submissions._disk_path_from_public cfg (file_path sub))
                (delete_file && truthy (file_path sub)))
      as (Hd & Hf & Hout & evs & Ht & Hev).
    cbv zeta in Hd, Hf, Hout, Ht.
    split; [exact Hout|]. split.
    { exists (EvCommit :: evs). rewrite Ht. cbn [committed trace].
      rewrite <- app_assoc. split; [reflexivity|].
      intros k [F|F]; [discriminate | auto]. }
    intros sub' Hm _ _. inversion Hm; subst sub'.
    split; [reflexivity|]. split.
    + rewrite Hd. cbn [committed db].
      rewrite <- (get_submission_id _ _ _ Hsub).
      apply get_submission_deleted.
    + rewrite Hf. rewrite removable_committed.
      destruct (delete_file && truthy (file_path sub)); reflexivity.
Qed.

(** An admin deletes a submission whose [file_path] was changed to
    "/uploads/../../../etc/passwd": the row goes, the foreign file stays. *)
Lemma delete_removes_blob_only_inside_root_witness :
  files (snd (handle cfg0 env0 (DELETE_submission 1 true) admin1
                (w_tampered "/uploads/../../../etc/passwd"))) !! etc_passwd
  = files (w_tampered "/uploads/../../../etc/passwd") !! etc_passwd
  /\ fst (handle cfg0 env0 (DELETE_submission 1 true) admin1
            (w_tampered "/uploads/../../../etc/passwd"))
     = Return NoContent
  /\ get_submission
       (db (snd (handle cfg0 env0 (DELETE_submission 1 true) admin1
                   (w_tampered "/uploads/../../../etc/passwd")))) 1
     = None.
Proof.
  destruct (delete_removes_blob_only_inside_root cfg0 env0
              (DELETE_submission 1 true) 1 admin1
              (w_tampered "/uploads/../../../etc/passwd")
              (fst (handle cfg0 env0 (DELETE_submission 1 true) admin1
                      (w_tampered "/uploads/../../../etc/passwd")))
              (snd (handle cfg0 env0 (DELETE_submission 1 true) admin1
                      (w_tampered "/uploads/../../../etc/passwd")))
              eq_refl (surjective_pairing _)) as (Hout & _ & Hok).
  split.
  - apply Hout. vm_compute. reflexivity.
  - destruct (Hok (sub_row "Pending" "/uploads/../../../etc/passwd")
                eq_refl eq_refl eq_refl) as (Hres & Hrow & _).
    split; assumption.
Defined.

(** The same request for the two routes, evaluated: the path computed by
    the admin route resolves to the foreign file and is left alone, the
    student route looks for "passwd" under the root and finds nothing. *)
Example tampered_delete_admin :
  handle cfg0 env0 (DELETE_submission 1 true) admin1
    (w_tampered "/uploads/../../../etc/passwd")
  = (Return NoContent,
     committed
       (without_submission (db (w_tampered "/uploads/../../../etc/passwd"))
          (sub_row "Pending" "/uploads/../../../etc/passwd"))
       (w_tampered "/uploads/../../../etc/passwd")).
Proof. vm_compute. reflexivity. Qed.

Example tampered_delete_student :
  handle cfg0 env0 (DELETE_student_submission 1 false) student7
    (w_tampered "/etc/passwd")
  = (Return NoContent,
     committed
       (without_submission (db (w_tampered "/etc/passwd"))
          (sub_row "Pending" "/etc/passwd"))
       (w_tampered "/etc/passwd")).
Proof. vm_compute. reflexivity. Qed.

(** ** Replacing the file of a submission *)

(** In a run of events [evsA ++ evsB] where [evsA] unlinks nothing but
    [k0] and [evsB] is empty or starts with the commit, every unlink of
    another key comes after the commit. *)
Lemma unlink_order (k0 : list str) (evsA evsB : list Event) :
  (forall k, In (EvUnlink k) evsA -> k = k0) ->
  (evsB = [] \/ exists rest, evsB = EvCommit :: rest) ->
  forall pre k post,
    evsA ++ evsB = pre ++ EvUnlink k :: post ->
    k <> k0 ->
    In EvCommit pre.
Proof.
  intros HA HB pre k post E Hk.
  destruct HB as [->|[rest ->]].
  - exfalso. apply Hk, HA. rewrite app_nil_r in E. rewrite E.
    apply in_elt.
  - apply app_eq_app in E as [l [[E1 E2]|[E1 E2]]].
    + destruct l as [|x l]; simpl in E2; [discriminate|].
      inversion E2; subst. exfalso. apply Hk, HA. apply in_elt.
    + destruct l as [|x l]; simpl in E2; [discriminate|].
      inversion E2; subst. apply in_elt.
Qed.

Lemma touches_unlink (k0 : list str) (evs : list Event) :
  Forall (touches k0) evs -> forall k, In (EvUnlink k) evs -> k = k0.
Proof.
  intros HF k Hin. rewrite List.Forall_forall in HF.
  destruct (HF _ Hin) as [E|[[n E]|E]]; congruence.
Qed.

Lemma touches_no_commit (k0 : list str) (evs : list Event) :
  Forall (touches k0) evs -> ~ In EvCommit evs.
Proof.
  intros HF Hin. rewrite List.Forall_forall in HF.
  destruct (HF _ Hin) as [E|[[n E]|E]]; discriminate.
Qed.

(** The paths of an upload, for a [uuid4().hex] without slash. *)
Lemma upload_paths cfg env file :
  ~ In slash (uuid_hex env) ->
  candidate cfg (upload_public env file) = upload_dest cfg env file
  /\ is_relative_to (resolve (cwd cfg) (upload_dest cfg env file))
       (resolve (cwd cfg) (Students.UPLOAD_DIR cfg)) = true.
Proof.
  intros Hu.
  destruct (generated_paths cfg env
              (or_default (Some (or_default (filename file) (py "upload")))
                 (py "upload")) Hu) as (H1 & _ & H3).
  split; [exact H1 | exact H3].
Qed.

(** C8.  For a file replacement whose generated storage name is fresh (the
    destination does not exist yet; [uuid4().hex] has no slash): every
    unlink of a file other than the new destination happens after the
    commit, so no run deletes the previous file before the updated row is
    committed.  When the call returns normally, the row was committed with
    the new file, [submitted_at] is the current time, and the old blob is
    removed after the commit (if it is a file under the storage root).
    When the commit fails, the newly written file is unlinked, nothing is
    committed, and the tables and the whole file store, the old blob
    included, are as before. *)
Theorem replace_file_commit_order cfg env sid file user w res w' :
  ~ In slash (uuid_hex env) ->
  files w !! fs_key cfg (upload_dest cfg env file) = None ->
  Students.replace_submission_file cfg env sid file user w = (res, w') ->
  exists evs,
    trace w' = trace w ++ evs
    /\ (forall pre k post,
          evs = pre ++ EvUnlink k :: post ->
          k <> fs_key cfg (upload_dest cfg env file) ->
          In EvCommit pre)
    /\ (forall row,
          res = Return row ->
          exists sub w1 n,
            get_submission (db w) sid = Some sub
            /\ row = replaced_row env file sub
            /\ submitted_at row = now env
            /\ get_submission (db w') sid = Some row
            /\ In EvCommit evs
            /\ Students._save_stream_to_disk cfg file
                 (upload_dest cfg env file) w = (Return n, w1)
            /\ w' = (if truthy (file_path sub)
                        && negb (eqb (file_path sub) (upload_public env file))
                     then after_remove cfg (file_path sub)
                            (committed (with_submission (db w) row) w1)
                     else committed (with_submission (db w) row) w1))
    /\ (forall sub,
          student_edit_guard w sid true user = inr sub ->
          ext_refused file = false ->
          Z.of_nat (length (body file)) <= MAX_UPLOAD_MB cfg * 1024 * 1024 ->
          db_fault env <> None ->
          res = Raise (mkHTTPException 500
                         (py "Failed to replace submission file"))
          /\ db w' = db w
          /\ files w' = files w
          /\ ~ In EvCommit evs
          /\ In (EvUnlink (fs_key cfg (upload_dest cfg env file))) evs).
Proof.
  intros Hu Hfresh H.
  destruct (upload_paths cfg env file Hu) as [Hcand Hrel].
  set (k0 := fs_key cfg (upload_dest cfg env file)) in *.
  rewrite replace_submission_file_run in H.
  destruct (student_edit_guard w sid true user) as [e|sub] eqn:G.
  { inversion H; subst. exists []. rewrite app_nil_r.
    split; [reflexivity|]. split.
    - intros pre k post E. destruct pre; discriminate.
    - split; [discriminate | congruence]. }
  pose proof (student_edit_guard_inr _ _ _ _ _ G) as (_ & Hsub & _ & _).
  destruct (ext_refused file) eqn:Hext.
  { inversion H; subst. exists []. rewrite app_nil_r.
    split; [reflexivity|]. split.
    - intros pre k post E. destruct pre; discriminate.
    - split; [discriminate | congruence]. }
  destruct (Students._save_stream_to_disk cfg file
              (upload_dest cfg env file) w) as [[n|e] w1] eqn:S.
  2:{ (* the upload is refused *)
    inversion H; subst.
    destruct (save_stream_frame _ _ _ _ _ _ S) as (_ & _ & evs & Ht & Hev).
    exists evs. split; [exact Ht|]. split.
    - intros pre k post E Hk.
      apply (unlink_order k0 evs [] (touches_unlink _ _ Hev)
               (or_introl eq_refl) pre k post); [|exact Hk].
      now rewrite app_nil_r.
    - split; [discriminate|].
      intros sub' _ _ Hsize _.
      destruct (save_stream_ok cfg file (upload_dest cfg env file) w Hsize)
        as (evs' & Hok & _).
      rewrite Hok in S. discriminate. }
  destruct (save_stream_frame _ _ _ _ _ _ S) as (Hd & Hfs & evs1 & Ht1 & Hev1).
  destruct (db_fault env) as [x|] eqn:Hfault.
  - (* the commit fails *)
    inversion H; subst. clear H.
    destruct (after_remove_spec cfg (upload_public env file) w1)
      as (Hd2 & Hf2 & _ & evs2 & Ht2 & _).
    assert (Hevs2 : forall k, In (EvUnlink k) evs2 -> k = k0).
    { unfold after_remove in Ht2. rewrite Hcand in Ht2.
      destruct (removable cfg w1 (upload_dest cfg env file)).
      - simpl in Ht2. apply app_inv_head in Ht2. subst evs2.
        intros k [E|[]]. now inversion E.
      - rewrite <- (app_nil_r (trace w1)) in Ht2 at 1.
        apply app_inv_head in Ht2. subst evs2. intros k []. }
    exists (evs1 ++ evs2 ++ [EvRollback]).
    split.
    { cbn [rolled_back trace]. rewrite Ht2, Ht1, <- !app_assoc.
      reflexivity. }
    split.
    { intros pre k post E Hk.
      apply (unlink_order k0 (evs1 ++ evs2 ++ [EvRollback]) []
               ltac:(intros k' Hin; rewrite !in_app_iff in Hin;
                     destruct Hin as [Hin|[Hin|[Hin|[]]]];
                     [ eapply touches_unlink; eauto
                     | auto | discriminate ])
               (or_introl eq_refl) pre k post); [|exact Hk].
      now rewrite app_nil_r. }
    split; [discriminate|].
    intros sub' Hg _ Hsize _.
    destruct (save_stream_ok cfg file (upload_dest cfg env file) w Hsize)
      as (evs' & Hok & _).
    assert (Hw1 : w1 = mkWorld (db w) (<[k0 := body file]> (files w))
                         (trace w ++ evs')).
    { rewrite Hok in S. now inversion S. }
    assert (Hrem : removable cfg w1 (upload_dest cfg env file) = true).
    { unfold removable. rewrite Hrel, andb_true_r.
      apply bool_decide_eq_true_2. rewrite Hw1. cbn [files]. fold k0.
      rewrite lookup_insert_eq. eauto. }
    assert (Har : after_remove cfg (upload_public env file) w1
                  = unlinked cfg w1 (upload_dest cfg env file)).
    { unfold after_remove. rewrite Hcand, Hrem. reflexivity. }
    rewrite Har in Ht2 |- *. cbn [unlinked trace] in Ht2. fold k0 in Ht2.
    apply app_inv_head in Ht2. subst evs2.
    split; [reflexivity|]. split; [exact Hd|].
    split.
    { cbn [rolled_back unlinked files]. fold k0. rewrite Hw1. cbn [files].
      now apply delete_insert_id. }
    split.
    + rewrite !in_app_iff. intros [Hin|[Hin|Hin]].
      * now apply (touches_no_commit _ _ Hev1).
      * destruct Hin as [E|[]]. discriminate.
      * destruct Hin as [E|[]]. discriminate.
    + rewrite !in_app_iff. right. left. now left.
  - (* the commit succeeds *)
    cbv zeta in H. rewrite Hd in H. inversion H; subst. clear H.
    set (row := replaced_row env file sub) in *.
    set (w2 := committed (with_submission (db w) row) w1) in *.
    assert (exists evs3,
              trace (if truthy (file_path sub)
                        && negb (eqb (file_path sub) (upload_public env file))
                     then after_remove cfg (file_path sub) w2 else w2)
              = trace w2 ++ evs3) as [evs3 Ht3].
    { destruct (_ && _).
      - destruct (after_remove_spec cfg (file_path sub) w2)
          as (_ & _ & _ & evs3 & Ht3 & _). eauto.
      - exists []. now rewrite app_nil_r. }
    exists (evs1 ++ EvCommit :: evs3). split.
    { rewrite Ht3. subst w2. cbn [committed trace].
      rewrite Ht1, <- !app_assoc. reflexivity. }
    split.
    { intros pre k post E Hk.
      apply (unlink_order k0 evs1 (EvCommit :: evs3)
               (touches_unlink _ _ Hev1)
               (or_intror (ex_intro _ evs3 eq_refl)) pre k post E Hk). }
    split.
    + intros row' E. inversion E; subst row'. clear E.
      exists sub, w1, n.
      split; [exact Hsub|]. split; [reflexivity|]. split; [reflexivity|].
      split.
      { assert (Hdb : db (if truthy (file_path sub)
                             && negb (eqb (file_path sub)
                                        (upload_public env file))
                          then after_remove cfg (file_path sub) w2 else w2)
                      = with_submission (db w) row).
        { destruct (_ && _); [rewrite db_after_remove|]; reflexivity. }
        rewrite Hdb. unfold with_submission.
        rewrite get_submission_replace, Hsub. simpl.
        now rewrite Z.eqb_refl. }
      split; [rewrite in_app_iff; right; now left|].
      split; reflexivity.
    + intros sub' _ _ _ Hf. congruence.
Qed.

(** The owner replaces the file of a pending submission while the database
    is down: the call fails and the file store is as before; with the
    database up, the submission time becomes the current time. *)
Lemma replace_file_commit_order_witness :
  (fst (Students.replace_submission_file cfg0 env_down 1 report_pdf student7
          (w_sub "Pending"))
   = Raise (mkHTTPException 500 (py "Failed to replace submission file"))
   /\ files (snd (Students.replace_submission_file cfg0 env_down 1
                    report_pdf student7 (w_sub "Pending")))
      = files (w_sub "Pending"))
  /\ forall row,
       fst (Students.replace_submission_file cfg0 env0 1 report_pdf student7
              (w_sub "Pending")) = Return row ->
       submitted_at row = now env0.
Proof.
  assert (Hu : ~ In slash (uuid_hex env0)).
  { intros H. vm_compute in H. intuition discriminate. }
  split.
  - destruct (replace_file_commit_order cfg0 env_down 1 report_pdf student7
                (w_sub "Pending")
                (fst (Students.replace_submission_file cfg0 env_down 1
                        report_pdf student7 (w_sub "Pending")))
                (snd (Students.replace_submission_file cfg0 env_down 1
                        report_pdf student7 (w_sub "Pending")))
                Hu ltac:(vm_compute; reflexivity) (surjective_pairing _))
      as (evs & _ & _ & _ & Hfail).
    destruct (Hfail (sub_row "Pending" "/uploads/aaaa_old.pdf")
                ltac:(vm_compute; reflexivity) ltac:(vm_compute; reflexivity)
                ltac:(simpl; lia) ltac:(simpl; discriminate))
      as (Hres & _ & Hfiles & _).
    split; assumption.
  - intros row Hrow.
    destruct (replace_file_commit_order cfg0 env0 1 report_pdf student7
                (w_sub "Pending")
                (fst (Students.replace_submission_file cfg0 env0 1
                        report_pdf student7 (w_sub "Pending")))
                (snd (Students.replace_submission_file cfg0 env0 1
                        report_pdf student7 (w_sub "Pending")))
                Hu ltac:(vm_compute; reflexivity) (surjective_pairing _))
      as (evs & _ & _ & Hok & _).
    destruct (Hok row Hrow) as (sub & w1 & n & _ & _ & Hat & _).
    exact Hat.
Defined.

(** The two runs, evaluated: the events of the successful replacement and
    of the one whose commit fails. *)
Example replace_file_trace_ok :
  trace (snd (Students.replace_submission_file cfg0 env0 1 report_pdf
                student7 (w_sub "Pending")))
  = [EvOpen (fs_key cfg0 (upload_dest cfg0 env0 report_pdf));
     EvWrite (fs_key cfg0 (upload_dest cfg0 env0 report_pdf)) 4;
     EvCommit;
     EvUnlink (blob_path "aaaa_old.pdf")].
Proof. vm_compute. reflexivity. Qed.

Example replace_file_trace_failed :
  trace (snd (Students.replace_submission_file cfg0 env_down 1 report_pdf
                student7 (w_sub "Pending")))
  = [EvOpen (fs_key cfg0 (upload_dest cfg0 env0 report_pdf));
     EvWrite (fs_key cfg0 (upload_dest cfg0 env0 report_pdf)) 4;
     EvUnlink (fs_key cfg0 (upload_dest cfg0 env0 report_pdf));
     EvRollback].
Proof. vm_compute. reflexivity. Qed.

(** ** Tables: what one step keeps *)

Lemma eqb_true (a b : str) : eqb a b = true <-> a = b.
Proof. unfold eqb. apply bool_decide_eq_true. Qed.

Lemma map_replace_submission_id (row : Submission) (l : list Submission) :
  List.map submission_id (replace_submission row l)
  = List.map submission_id l.
Proof.
  unfold replace_submission. rewrite List.map_map. apply List.map_ext.
  intros s. destruct (submission_id s =? submission_id row) eqn:E; [|done].
  apply Z.eqb_eq in E. now rewrite E.
Qed.

Lemma map_replace_feedback_id (row : SubmissionFeedback)
    (l : list SubmissionFeedback) :
  List.map feedback_id (replace_feedback row l) = List.map feedback_id l.
Proof.
  unfold replace_feedback. rewrite List.map_map. apply List.map_ext.
  intros f. destruct (feedback_id f =? feedback_id row) eqn:E; [|done].
  apply Z.eqb_eq in E. now rewrite E.
Qed.

Lemma NoDup_map_filter {A B} (g : A -> B) (p : A -> bool) (l : list A) :
  NoDup (List.map g l) -> NoDup (List.map g (List.filter p l)).
Proof.
  induction l as [|a l IH]; simpl; intros H; [constructor|].
  apply NoDup_cons in H as [Hn Hd].
  destruct (p a); simpl.
  - apply NoDup_cons. split; [|auto].
    intros Hin. apply Hn.
    apply list_elem_of_In in Hin. apply list_elem_of_In.
    apply List.in_map_iff in Hin as (x & Hx & Hin).
    apply List.in_map_iff. exists x. split; [done|].
    now apply List.filter_In in Hin.
  - auto.
Qed.

Lemma NoDup_map_inj_on {A B} (g : A -> B) (l : list A) (a b : A) :
  NoDup (List.map g l) -> In a l -> In b l -> g a = g b -> a = b.
Proof.
  induction l as [|x l IH]; simpl; intros H Ha Hb E; [done|].
  apply NoDup_cons in H as [Hn Hd].
  destruct Ha as [->|Ha], Hb as [->|Hb]; auto.
  - exfalso. apply Hn. apply list_elem_of_In. rewrite E.
    now apply List.in_map.
  - exfalso. apply Hn. apply list_elem_of_In. rewrite <- E.
    now apply List.in_map.
Qed.

Lemma next_feedback_id_fresh (d : DB) (f : SubmissionFeedback) :
  In f (SubmissionFeedback_table d) -> feedback_id f < next_feedback_id d.
Proof.
  unfold next_feedback_id.
  induction (SubmissionFeedback_table d) as [|x l IH]; simpl; [done|].
  intros [->|H]; [lia|]. specialize (IH H). lia.
Qed.

Lemma find_feedback_In (l : list SubmissionFeedback) sid fb :
  List.find (fun f => fb_submission_id f =? sid) l = Some fb ->
  fb_submission_id fb = sid /\ In fb l.
Proof.
  intros H. apply List.find_some in H as [Hin E].
  apply Z.eqb_eq in E. done.
Qed.

Lemma find_feedback_None (l : list SubmissionFeedback) sid :
  List.find (fun f => fb_submission_id f =? sid) l = None ->
  ~ In sid (List.map fb_submission_id l).
Proof.
  intros H Hin. apply List.in_map_iff in Hin as (f & E & Hin).
  apply (List.find_none _ _ H) in Hin. simpl in Hin.
  apply Z.eqb_neq in Hin. done.
Qed.

(** A row written over the row of its key and its submission leaves the
    submissions of the feedback rows as they were. *)
Lemma map_replace_feedback_sid (fb0 row : SubmissionFeedback)
    (l : list SubmissionFeedback) :
  NoDup (List.map feedback_id l) ->
  In fb0 l ->
  feedback_id row = feedback_id fb0 ->
  fb_submission_id row = fb_submission_id fb0 ->
  List.map fb_submission_id (replace_feedback row l)
  = List.map fb_submission_id l.
Proof.
  intros Hnd Hin Hid Hsid.
  unfold replace_feedback. rewrite List.map_map.
  apply List.map_ext_in. intros f Hf.
  destruct (feedback_id f =? feedback_id row) eqn:E; [|done].
  apply Z.eqb_eq in E.
  assert (f = fb0) as ->; [|done].
  apply (NoDup_map_inj_on feedback_id l); auto. congruence.
Qed.

Section Step_facts.

Variable env : Env.
Variables d d' : DB.
Hypothesis Hstep : db_step env d d'.

Lemma step_assignments : Assignment_table d' = Assignment_table d.
Proof. destruct Hstep; reflexivity. Qed.

Lemma step_statuses_valid : statuses_valid d -> statuses_valid d'.
Proof.
  unfold statuses_valid. intros Hv.
  destruct Hstep
    as [|row file Hrow Hp|sub Hfb|sub row fbs Hsub Hst Hp Hfbs|fbs Hfbs];
    cbn [Submission_table without_submission]; auto.
  - apply Forall_app. split; [done|]. now constructor.
  - apply List.Forall_forall. intros s Hs.
    apply List.filter_In in Hs as [Hs _].
    rewrite List.Forall_forall in Hv. auto.
  - unfold replace_submission. apply List.Forall_forall. intros s Hs.
    apply List.in_map_iff in Hs as (s0 & <- & Hs0).
    rewrite List.Forall_forall in Hv.
    destruct (submission_id s0 =? submission_id row); [|auto].
    destruct Hst as [Hst| ->]; [done|].
    apply find_Some_id in Hsub as [_ Hin]. auto.
Qed.

Lemma step_submission_keys :
  submission_keys_unique d -> submission_keys_unique d'.
Proof.
  unfold submission_keys_unique. intros Hv.
  destruct Hstep
    as [|row file Hrow Hp|sub Hfb|sub row fbs Hsub Hst Hp Hfbs|fbs Hfbs];
    cbn [Submission_table without_submission]; auto.
  - rewrite List.map_app. simpl. apply NoDup_app. split; [done|].
    split; [|apply NoDup_singleton].
    intros x Hx Hx'. apply list_elem_of_In in Hx.
    apply list_elem_of_singleton in Hx'. subst x.
    apply List.in_map_iff in Hx as (s & E & Hs).
    apply next_submission_id_fresh in Hs. lia.
  - now apply NoDup_map_filter.
  - now rewrite map_replace_submission_id.
Qed.

Lemma fb_change_keys fbs :
  fb_change d fbs ->
  feedback_keys_unique d ->
  NoDup (List.map feedback_id fbs)
  /\ NoDup (List.map fb_submission_id fbs).
Proof.
  intros Hc [Hk Hs].
  destruct Hc as [|row Hsub Hnone Hid|fb0 row Hin Hid Hsid|fid]; auto.
  - rewrite !List.map_app. simpl. split.
    + apply NoDup_app. split; [done|]. split; [|apply NoDup_singleton].
      intros x Hx Hx'. apply list_elem_of_In in Hx.
      apply list_elem_of_singleton in Hx'. subst x.
      apply List.in_map_iff in Hx as (f & E & Hf).
      apply next_feedback_id_fresh in Hf. lia.
    + apply NoDup_app. split; [done|]. split; [|apply NoDup_singleton].
      intros x Hx Hx'. apply list_elem_of_In in Hx.
      apply list_elem_of_singleton in Hx'. subst x.
      now apply find_feedback_None in Hnone.
  - rewrite map_replace_feedback_id.
    rewrite (map_replace_feedback_sid fb0); auto.
  - split; now apply NoDup_map_filter.
Qed.

Lemma step_feedback_keys :
  feedback_keys_unique d -> feedback_keys_unique d'.
Proof.
  intros Hv. unfold feedback_keys_unique.
  destruct Hstep
    as [|row file Hrow Hp|sub Hfb|sub row fbs Hsub Hst Hp Hfbs|fbs Hfbs];
    cbn [SubmissionFeedback_table without_submission]; auto;
    now apply fb_change_keys.
Qed.

Lemma fb_change_refers fbs :
  fb_change d fbs ->
  feedback_refers d ->
  Forall (fun f => is_Some (get_submission d (fb_submission_id f))) fbs.
Proof.
  unfold feedback_refers. intros Hc Hv.
  destruct Hc as [|row Hsub Hnone Hid|fb0 row Hin Hid Hsid|fid]; auto.
  - apply Forall_app. split; [done|]. now constructor.
  - unfold replace_feedback. apply List.Forall_forall. intros f Hf.
    apply List.in_map_iff in Hf as (f0 & <- & Hf0).
    rewrite List.Forall_forall in Hv.
    destruct (feedback_id f0 =? feedback_id row); [|auto].
    rewrite Hsid. auto.
  - apply List.Forall_forall. intros f Hf.
    apply List.filter_In in Hf as [Hf _].
    rewrite List.Forall_forall in Hv. auto.
Qed.

Lemma step_feedback_refers : feedback_refers d -> feedback_refers d'.
Proof.
  intros Hv. unfold feedback_refers.
  destruct Hstep
    as [|row file Hrow Hp|sub Hfb|sub row fbs Hsub Hst Hp Hfbs|fbs Hfbs];
    cbn [SubmissionFeedback_table without_submission]; auto.
  - eapply Forall_impl; [exact Hv|]. intros f [s Hs]. simpl in *.
    exists s. now apply get_submission_add.
  - apply has_feedback_false_Forall in Hfb.
    apply List.Forall_forall. intros f Hf.
    unfold feedback_refers in Hv. rewrite List.Forall_forall in Hv, Hfb.
    unfold get_submission, without_submission. cbn [Submission_table].
    rewrite find_filter_submission.
    destruct (fb_submission_id f =? submission_id sub) eqn:E.
    + apply Z.eqb_eq in E. now apply Hfb in Hf.
    + now apply Hv.
  - eapply Forall_impl; [apply (fb_change_refers fbs); auto|].
    intros f [s Hs]. simpl in *.
    rewrite get_submission_replace, Hs. simpl. eauto.
  - now apply fb_change_refers.
Qed.

End Step_facts.

(** ** The doctor's review and the feedback routes, step by step *)

Lemma commit_run env ps w :
  commit env ps w
  = match db_fault env with
    | Some e => (Return (Some e), w)
    | None =>
        match flush (now env) (db w) ps with
        | inl e => (Return (Some e), w)
        | inr d' => (Return None, committed d' w)
        end
    end.
Proof. reflexivity. Qed.

Lemma feedback_has_doctor_id :
  mem (py "doctor_id") SubmissionFeedback_attrs = true.
Proof. vm_compute. reflexivity. Qed.

Lemma review_row_ids payload user fb0 :
  feedback_id (review_row payload user fb0) = feedback_id fb0
  /\ fb_submission_id (review_row payload user fb0) = fb_submission_id fb0
  /\ created_at (review_row payload user fb0) = created_at fb0.
Proof.
  unfold review_row.
  destruct (Doctor.r_feedback_text payload), (Doctor.r_grade payload);
    cbn [set_feedback_text set_grade doctor_id];
    destruct (doctor_id fb0 =? 0); repeat split; reflexivity.
Qed.

Lemma find_by_id_replace (row fb0 : SubmissionFeedback)
    (l : list SubmissionFeedback) :
  In fb0 l ->
  feedback_id row = feedback_id fb0 ->
  List.find (fun f => feedback_id f =? feedback_id fb0)
    (replace_feedback row l)
  = Some row.
Proof.
  intros Hin Hid. induction l as [|x l IH]; [done|].
  cbn [replace_feedback List.map List.find]. rewrite Hid.
  destruct (feedback_id x =? feedback_id fb0) eqn:E.
  - rewrite Hid, Z.eqb_refl. reflexivity.
  - rewrite E. destruct Hin as [->|Hin].
    + rewrite Z.eqb_refl in E. discriminate.
    + unfold replace_feedback in IH. rewrite Hid in IH. auto.
Qed.

Lemma find_by_id_appended (d : DB) (row : SubmissionFeedback) :
  feedback_id row = next_feedback_id d ->
  List.find (fun f => feedback_id f =? next_feedback_id d)
    (SubmissionFeedback_table d ++ [row])
  = Some row.
Proof.
  intros Hid. rewrite find_app.
  replace (List.find (fun f => feedback_id f =? next_feedback_id d)
             (SubmissionFeedback_table d)) with (@None SubmissionFeedback).
  - simpl. now rewrite Hid, Z.eqb_refl.
  - symmetry. apply existsb_false_find.
    apply not_true_is_false. intros H.
    apply List.existsb_exists in H as (f & Hf & E).
    apply Z.eqb_eq in E. apply next_feedback_id_fresh in Hf. lia.
Qed.

Lemma get_submission_set_status d sid sub st fbs asg :
  get_submission d sid = Some sub ->
  get_submission
    (mkDB (replace_submission (set_status st sub) (Submission_table d))
       fbs asg) sid
  = Some (set_status st sub).
Proof.
  intros S. rewrite get_submission_replace, S. simpl.
  now rewrite Z.eqb_refl.
Qed.

Lemma get_feedback_reviewed env d sid payload user sub :
  get_feedback (reviewed env d sid payload user sub) sid
  = Some (reviewed_feedback env d sid payload user).
Proof.
  unfold reviewed, reviewed_feedback_table, reviewed_feedback,
    get_feedback at 1.
  cbn [SubmissionFeedback_table].
  destruct (get_feedback d sid) as [fb0|] eqn:F.
  - pose proof (review_row_ids payload user fb0) as (Hid & Hsid & _).
    apply find_feedback_In in F as F'. destruct F' as [E _].
    apply (find_replace_feedback _ fb0); auto. congruence.
  - rewrite find_app. unfold get_feedback in F. rewrite F.
    simpl. now rewrite Z.eqb_refl.
Qed.

(** [review_submission] as a decision tree on the world. *)
Lemma review_submission_run env sid payload user w :
  Doctor.review_submission env sid payload user w =
  if negb (eqb (role_of user) (py "doctor"))
  then (Raise doctor_role_required, w)
  else if negb (mem (Doctor.r_status payload) Doctor.REVIEWABLE_STATUSES)
  then (Raise (mkHTTPException 400
                 (py "Invalid status. Use Accepted | Rejected | NeedsRevision")),
        w)
  else if eqb (Doctor.r_status payload) (py "Accepted")
          && bool_decide (Doctor.r_grade payload = None)
  then (Raise (mkHTTPException 400
                 (py "Grade is required when status is Accepted")), w)
  else if eqb (Doctor.r_status payload) (py "NeedsRevision")
          && match Doctor.r_feedback_text payload with
             | None => true
             | Some t => negb (truthy (strip t))
             end
  then (Raise (mkHTTPException 400
                 (py "Feedback text is required when status is NeedsRevision")),
        w)
  else
    match get_submission (db w) sid with
    | None => (Raise submission_not_found, w)
    | Some sub =>
        match db_fault env with
        | Some IntegrityError =>
            (Raise (mkHTTPException 400
                      (py "Database constraint error while saving review")),
             rolled_back w)
        | Some OtherError =>
            (Raise (mkHTTPException 500 (py "Failed to submit review")),
             rolled_back w)
        | None =>
            (Return (set_status (Doctor.r_status payload) sub,
                     reviewed_feedback env (db w) sid payload user),
             committed (reviewed env (db w) sid payload user sub) w)
        end
    end.
Proof.
  unfold Doctor.review_submission, Doctor._require_doctor, role_of.
  unfold bind at 1.
  destruct (negb (eqb _ (py "doctor"))); [reflexivity|].
  unfold ret at 1.
  destruct (negb (mem _ Doctor.REVIEWABLE_STATUSES)); [reflexivity|].
  destruct (eqb _ (py "Accepted") && _); [reflexivity|].
  destruct (eqb _ (py "NeedsRevision") && _); [reflexivity|].
  unfold bind at 1, get_db at 1.
  destruct (get_submission (db w) sid) as [sub|] eqn:S; [|reflexivity].
  rewrite doctor_assigned_always. cbn [negb].
  unfold bind at 1. rewrite commit_run.
  destruct (db_fault env) as [[|]|]; try reflexivity.
  unfold Doctor._has_attr. rewrite feedback_has_doctor_id. cbn [andb].
  assert (flush (now env) (db w)
            [match get_feedback (db w) sid with
             | Some fb0 =>
                 if doctor_id
                      match Doctor.r_grade payload with
                      | Some g =>
                          set_grade g
                            match Doctor.r_feedback_text payload with
                            | Some t => set_feedback_text t fb0
                            | None => fb0
                            end
                      | None =>
                          match Doctor.r_feedback_text payload with
                          | Some t => set_feedback_text t fb0
                          | None => fb0
                          end
                      end =? 0
                 then
                   Dirty_Feedback
                     (set_doctor_id (id user)
                        match Doctor.r_grade payload with
                        | Some g =>
                            set_grade g
                              match Doctor.r_feedback_text payload with
                              | Some t => set_feedback_text t fb0
                              | None => fb0
                              end
                        | None =>
                            match Doctor.r_feedback_text payload with
                            | Some t => set_feedback_text t fb0
                            | None => fb0
                            end
                        end)
                 else
                   Dirty_Feedback
                     match Doctor.r_grade payload with
                     | Some g =>
                         set_grade g
                           match Doctor.r_feedback_text payload with
                           | Some t => set_feedback_text t fb0
                           | None => fb0
                           end
                     | None =>
                         match Doctor.r_feedback_text payload with
                         | Some t => set_feedback_text t fb0
                         | None => fb0
                         end
                     end
             | None =>
                 Add_Feedback
                   (mkFeedbackKwargs sid (Doctor.r_feedback_text payload)
                      (Doctor.r_grade payload) (Some (id user)))
             end;
             Dirty_Submission (set_status (Doctor.r_status payload) sub)]
          = inr (reviewed env (db w) sid payload user sub)) as ->.
  { unfold reviewed, reviewed_feedback_table, reviewed_feedback, review_row.
    destruct (get_feedback (db w) sid) as [fb0|] eqn:F.
    - destruct (doctor_id _ =? 0); reflexivity.
    - cbn [flush flush1 kw_doctor_id kw_submission_id].
      unfold get_feedback in F. apply find_none_existsb in F.
      rewrite F. reflexivity. }
  unfold bind at 1, get_db at 1. cbn [db committed].
  rewrite get_feedback_reviewed.
  unfold reviewed at 1. rewrite (get_submission_set_status _ _ sub) by done.
  reflexivity.
Qed.

(** *** [routers/feedback.py] *)

Lemma feedback_assigned_always d sub doc :
  Feedback._submission_is_assigned_to_doctor d sub doc = true.
Proof.
  unfold Feedback._submission_is_assigned_to_doctor.
  replace (List.find (Feedback._has_attr Submission_attrs)
             [py "doctor_id"; py "assigned_doctor_id"; py "reviewer_id"])
    with (@None str) by (vm_compute; reflexivity).
  replace (List.find (Feedback._has_attr Assignment_attrs)
             [py "doctor_id"; py "reviewer_id"])
    with (@None str) by (vm_compute; reflexivity).
  destruct (if Feedback._has_attr Submission_attrs (py "assignment")
            then get_assignment d (assignment_id sub) else None);
    reflexivity.
Qed.

Lemma doctor_is_not_admin (r : str) :
  eqb r (py "doctor") = true -> eqb r (py "admin") = false.
Proof. intros H. apply eqb_true in H. subst r. reflexivity. Qed.

Lemma ensure_can_modify_run d fb sub user w :
  Feedback._ensure_can_modify_feedback d fb sub user w
  = match feedback_guard fb user with
    | Some e => (Raise e, w)
    | None => (Return tt, w)
    end.
Proof.
  unfold Feedback._ensure_can_modify_feedback, Feedback._require_doctor,
    feedback_guard, role_of.
  unfold bind at 1.
  destruct (eqb (lower (or_default (role user) [])) (py "doctor")) eqn:R;
    [|reflexivity].
  cbn [negb]. unfold ret at 1.
  rewrite feedback_assigned_always. cbn [negb].
  destruct fb as [fb0|]; [|reflexivity].
  unfold Feedback._has_attr. rewrite feedback_has_doctor_id.
  rewrite (doctor_is_not_admin _ R). cbn [negb andb].
  rewrite andb_true_r.
  destruct (negb (doctor_id fb0 =? 0) && negb (doctor_id fb0 =? id user));
    reflexivity.
Qed.

Lemma upsert_row_ids body user fb0 :
  feedback_id (Feedback.upsert_row body user fb0) = feedback_id fb0
  /\ fb_submission_id (Feedback.upsert_row body user fb0)
     = fb_submission_id fb0
  /\ created_at (Feedback.upsert_row body user fb0) = created_at fb0.
Proof.
  unfold Feedback.upsert_row, Feedback._has_attr.
  rewrite feedback_has_doctor_id. cbn [andb].
  destruct (Feedback.in_text body), (Feedback.in_grade body);
    cbn [set_feedback_text set_grade doctor_id];
    destruct (doctor_id fb0 =? 0); repeat split; reflexivity.
Qed.

Lemma update_row_ids body fb0 :
  feedback_id (Feedback.update_row body fb0) = feedback_id fb0
  /\ fb_submission_id (Feedback.update_row body fb0) = fb_submission_id fb0
  /\ doctor_id (Feedback.update_row body fb0) = doctor_id fb0
  /\ created_at (Feedback.update_row body fb0) = created_at fb0.
Proof.
  unfold Feedback.update_row.
  destruct (Feedback.up_text body), (Feedback.up_grade body);
    repeat split; reflexivity.
Qed.

(** [upsert_feedback] as a decision tree on the world. *)
Lemma upsert_feedback_run env body user w :
  Feedback.upsert_feedback env body user w =
  match get_submission (db w) (Feedback.in_submission_id body) with
  | None => (Raise submission_not_found, w)
  | Some sub =>
      match feedback_guard
              (get_feedback (db w) (Feedback.in_submission_id body)) user
      with
      | Some e => (Raise e, w)
      | None =>
          match db_fault env with
          | Some IntegrityError =>
              (Raise (mkHTTPException 400
                        (py "Constraint error while saving feedback")),
               rolled_back w)
          | Some OtherError =>
              (Raise (mkHTTPException 500 (py "Failed to save feedback")),
               rolled_back w)
          | None =>
              (Return (true,
                       Feedback._to_read
                         (upserted_feedback env (db w) body user)),
               committed (upserted env (db w) body user) w)
          end
      end
  end.
Proof.
  unfold Feedback.upsert_feedback.
  unfold bind at 1, get_db at 1.
  destruct (get_submission (db w) _) as [sub|] eqn:S; [|reflexivity].
  unfold bind at 1. rewrite ensure_can_modify_run.
  destruct (feedback_guard _ user); [reflexivity|].
  unfold bind at 1. rewrite commit_run.
  destruct (db_fault env) as [[|]|]; try reflexivity.
  unfold Feedback._has_attr at 1. rewrite feedback_has_doctor_id.
  unfold upserted, upserted_feedback.
  destruct (get_feedback (db w) (Feedback.in_submission_id body))
    as [fb0|] eqn:F.
  - cbn [fst snd flush flush1].
    unfold bind at 1, get_db at 1. cbn [db committed].
    unfold Feedback.get_feedback_by_id. cbn [SubmissionFeedback_table].
    apply find_feedback_In in F as [_ Hin].
    rewrite (find_by_id_replace _ fb0); auto.
    apply upsert_row_ids.
  - cbn [fst snd flush flush1 kw_doctor_id kw_submission_id].
    unfold get_feedback in F. apply find_none_existsb in F as F'.
    rewrite F'. cbn [kw_feedback_text kw_grade].
    unfold bind at 1, get_db at 1. cbn [db committed].
    unfold Feedback.get_feedback_by_id. cbn [SubmissionFeedback_table].
    rewrite find_by_id_appended by reflexivity. reflexivity.
Qed.

Lemma get_feedback_by_id_In d fid fb :
  Feedback.get_feedback_by_id d fid = Some fb ->
  feedback_id fb = fid /\ In fb (SubmissionFeedback_table d).
Proof.
  intros H. apply List.find_some in H as [Hin E].
  apply Z.eqb_eq in E. done.
Qed.

(** [update_feedback] as a decision tree on the world. *)
Lemma update_feedback_run env fid body user w :
  Feedback.update_feedback env fid body user w =
  if negb (eqb (role_of user) (py "doctor"))
  then (Raise doctor_role_required, w)
  else
    match Feedback.get_feedback_by_id (db w) fid with
    | None => (Raise feedback_not_found, w)
    | Some fb =>
        match get_submission (db w) (fb_submission_id fb) with
        | None =>
            (Raise (mkHTTPException 404
                      (py "Submission not found for this feedback")), w)
        | Some sub =>
            match feedback_guard (Some fb) user with
            | Some e => (Raise e, w)
            | None =>
                if negb (bool_decide (Feedback.up_text body <> None)
                         || bool_decide (Feedback.up_grade body <> None))
                then (Return (Feedback._to_read fb), w)
                else
                  match db_fault env with
                  | Some IntegrityError =>
                      (Raise (mkHTTPException 400
                                (py "Constraint error while updating feedback")),
                       rolled_back w)
                  | Some OtherError =>
                      (Raise (mkHTTPException 500
                                (py "Failed to update feedback")),
                       rolled_back w)
                  | None =>
                      (Return (Feedback._to_read
                                 (Feedback.update_row body fb)),
                       committed
                         (with_feedback (db w)
                            (Feedback.update_row body fb)) w)
                  end
            end
        end
    end.
Proof.
  unfold Feedback.update_feedback, Feedback._require_doctor, role_of.
  unfold bind at 1.
  destruct (negb (eqb _ (py "doctor"))); [reflexivity|].
  unfold ret at 1. unfold bind at 1, get_db at 1.
  destruct (Feedback.get_feedback_by_id (db w) fid) as [fb|] eqn:F;
    [|reflexivity].
  destruct (get_submission (db w) (fb_submission_id fb)) as [sub|];
    [|reflexivity].
  unfold bind at 1. rewrite ensure_can_modify_run.
  destruct (feedback_guard _ user); [reflexivity|].
  destruct (Feedback.up_text body) as [t|] eqn:T,
           (Feedback.up_grade body) as [g|] eqn:G;
    repeat first
      [ rewrite bool_decide_eq_true_2 by done
      | rewrite bool_decide_eq_false_2 by (intros H; now apply H) ];
    cbn [negb orb].
  4: { unfold Feedback.update_row. rewrite T, G. reflexivity. }
  all: unfold bind at 1; rewrite commit_run;
    destruct (db_fault env) as [[|]|]; try reflexivity;
    cbn [flush flush1];
    unfold bind at 1, get_db at 1; cbn [db committed];
    unfold Feedback.get_feedback_by_id; cbn [SubmissionFeedback_table];
    apply get_feedback_by_id_In in F as [_ Hin];
    rewrite (find_by_id_replace _ fb) by (auto; apply update_row_ids);
    reflexivity.
Qed.

(** [delete_feedback] as a decision tree on the world. *)
Lemma delete_feedback_run env fid user w :
  Feedback.delete_feedback env fid user w =
  if negb (eqb (role_of user) (py "doctor"))
  then (Raise doctor_role_required, w)
  else
    match Feedback.get_feedback_by_id (db w) fid with
    | None => (Raise feedback_not_found, w)
    | Some fb =>
        match get_submission (db w) (fb_submission_id fb) with
        | None =>
            (Raise (mkHTTPException 404
                      (py "Submission not found for this feedback")), w)
        | Some sub =>
            match feedback_guard (Some fb) user with
            | Some e => (Raise e, w)
            | None =>
                match db_fault env with
                | Some _ =>
                    (Raise (mkHTTPException 500
                              (py "Failed to delete feedback")),
                     rolled_back w)
                | None =>
                    (Return tt,
                     committed (Feedback.without_feedback (db w) fid) w)
                end
            end
        end
    end.
Proof.
  unfold Feedback.delete_feedback, Feedback._require_doctor, role_of.
  unfold bind at 1.
  destruct (negb (eqb _ (py "doctor"))); [reflexivity|].
  unfold ret at 1. unfold bind at 1, get_db at 1.
  destruct (Feedback.get_feedback_by_id (db w) fid) as [fb|] eqn:F;
    [|reflexivity].
  destruct (get_submission (db w) (fb_submission_id fb)) as [sub|];
    [|reflexivity].
  unfold bind at 1. rewrite ensure_can_modify_run.
  destruct (feedback_guard _ user); [reflexivity|].
  unfold bind at 1, Feedback.commit_delete at 1.
  apply get_feedback_by_id_In in F as [-> _].
  destruct (db_fault env) as [[|]|]; reflexivity.
Qed.

(** [get_feedback_for_submission] as a decision tree on the world. *)
Lemma get_feedback_for_submission_run sid user w :
  Feedback.get_feedback_for_submission sid user w =
  if negb (eqb (role_of user) (py "doctor"))
  then (Raise doctor_role_required, w)
  else
    match get_submission (db w) sid with
    | None => (Raise submission_not_found, w)
    | Some sub =>
        match get_feedback (db w) sid with
        | None => (Raise feedback_not_found, w)
        | Some fb => (Return (Feedback._to_read fb), w)
        end
    end.
Proof.
  unfold Feedback.get_feedback_for_submission, Feedback._require_doctor,
    role_of.
  unfold bind at 1.
  destruct (negb (eqb _ (py "doctor"))); [reflexivity|].
  unfold ret at 1. unfold bind at 1, get_db at 1.
  destruct (get_submission (db w) sid) as [sub|]; [|reflexivity].
  destruct (get_feedback (db w) sid) as [fb|]; [|reflexivity].
  rewrite feedback_assigned_always. reflexivity.
Qed.

(** ** Every route is a step on the tables *)

Lemma bind_ret_inv {A B} (m : M A) (f : A -> B) w res w' :
  (x <- m ;; ret (f x)) w = (res, w') ->
  exists r, m w = (r, w')
            /\ res = match r with
                     | Return a => Return (f a)
                     | Raise e => Raise e
                     end.
Proof.
  unfold bind, ret. destruct (m w) as [[a|e] w1]; intros H;
    inversion H; subst; eauto.
Qed.

Lemma reviewable_valid (s : str) :
  mem s Doctor.REVIEWABLE_STATUSES = true ->
  mem s Submissions.VALID_STATUSES = true.
Proof.
  unfold mem. rewrite !bool_decide_eq_true.
  unfold Doctor.REVIEWABLE_STATUSES, Submissions.VALID_STATUSES.
  intros H. apply elem_of_cons. now right.
Qed.

Lemma pending_valid : mem (py "Pending") Submissions.VALID_STATUSES = true.
Proof. vm_compute. reflexivity. Qed.

Lemma step_with_submission env d sid sub row :
  get_submission d sid = Some sub ->
  submission_id row = submission_id sub ->
  status row = status sub ->
  file_path row = file_path sub
  \/ (exists file, file_path row = upload_public env file) ->
  db_step env d (with_submission d row).
Proof.
  intros S Hid Hst Hp. unfold with_submission.
  apply (step_edit env d sub row); [|now right|done|constructor].
  rewrite Hid. apply get_submission_id in S as E. now rewrite E.
Qed.

Lemma create_db_step cfg env aid file notes user w r w' :
  Students.create_submission cfg env aid file notes user w = (r, w') ->
  db_step env (db w) (db w').
Proof.
  intros H. apply create_submission_tables in H
    as [(e & _ & ->)|(row & _ & -> & _ & ->)]; [constructor|].
  apply (step_create env _ _ file); [apply pending_valid|reflexivity].
Qed.

Lemma notes_db_step env sid notes user w r w' :
  Students.update_submission_notes env sid notes user w = (r, w') ->
  db_step env (db w) (db w').
Proof.
  rewrite update_submission_notes_run.
  destruct (student_edit_guard w sid true user) as [e|sub] eqn:G.
  { intros H. inversion H. constructor. }
  apply student_edit_guard_inr in G as (_ & S & _ & _).
  destruct (db_fault env); intros H; inversion H; subst; cbn [db rolled_back].
  - constructor.
  - apply (step_with_submission _ _ sid sub); auto.
Qed.

Lemma replace_file_db_step cfg env sid file user w r w' :
  Students.replace_submission_file cfg env sid file user w = (r, w') ->
  db_step env (db w) (db w').
Proof.
  rewrite replace_submission_file_run.
  destruct (student_edit_guard w sid true user) as [e|sub] eqn:G.
  { intros H. inversion H. constructor. }
  apply student_edit_guard_inr in G as (_ & S & _ & _).
  destruct (ext_refused file).
  { intros H. inversion H. constructor. }
  destruct (Students._save_stream_to_disk cfg file _ w) as [[n|e] w1] eqn:Sv;
    apply save_stream_frame in Sv as (Hdb & _).
  2: { intros H. inversion H; subst. rewrite Hdb. constructor. }
  destruct (db_fault env).
  { intros H. inversion H; subst. cbn [db rolled_back].
    rewrite db_after_remove, Hdb. constructor. }
  cbn zeta. intros H. inversion H; subst.
  assert (db_step env (db w)
            (with_submission (db w1) (replaced_row env file sub))) as Hs.
  { rewrite Hdb. apply (step_with_submission _ _ sid sub); eauto. }
  destruct (truthy (file_path sub) && _); [rewrite db_after_remove|]; exact Hs.
Qed.

Lemma student_delete_db_step cfg env sid allow user w r w' :
  Students.delete_submission cfg env sid allow user w = (r, w') ->
  db_step env (db w) (db w').
Proof.
  rewrite student_delete_submission_run.
  destruct (student_edit_guard w sid allow user) as [e|sub].
  { intros H. inversion H. constructor. }
  destruct (bool_decide (db_fault env <> None) || has_feedback (db w) sub)
    eqn:E; intros H; inversion H; subst.
  - constructor.
  - rewrite db_after_remove. cbn [db committed].
    apply orb_false_elim in E as [_ E]. now apply step_delete.
Qed.

Lemma admin_delete_db_step cfg env sid delete_file user w r w' :
  Submissions.delete_submission cfg env sid delete_file user w = (r, w') ->
  db_step env (db w) (db w').
Proof.
  rewrite admin_delete_submission_run.
  destruct (negb (eqb (role_of user) (py "admin"))).
  { intros H. inversion H. constructor. }
  destruct (get_submission (db w) sid) as [sub|].
  2: { intros H. inversion H. constructor. }
  destruct (bool_decide (db_fault env <> None) || has_feedback (db w) sub)
    eqn:E; cbn zeta; intros H; inversion H; subst.
  - constructor.
  - apply orb_false_elim in E as [_ E].
    destruct (delete_file && truthy (file_path sub) && _);
      cbn [db committed unlinked]; now apply step_delete.
Qed.

Lemma upsert_changes_step env now_ d sid body user sub st d' :
  get_submission d sid = Some sub ->
  mem st Submissions.VALID_STATUSES = true ->
  flush now_ d
    (Dirty_Submission (set_status st sub)
       :: Submissions.upsert_feedback body sid user (get_feedback d sid))
  = inr d' ->
  db_step env d d'.
Proof.
  intros S Hst. cbn [flush flush1].
  assert (get_submission d (submission_id (set_status st sub)) = Some sub)
    as S'.
  { cbn [set_status submission_id]. apply get_submission_id in S as E.
    now rewrite E. }
  unfold Submissions.upsert_feedback.
  destruct (bool_decide (Submissions.p_feedback_text body <> None)
            || bool_decide (Submissions.p_grade body <> None)).
  2: { cbn [flush]. intros H. inversion H.
       apply (step_edit env d sub); auto. constructor. }
  destruct (get_feedback d sid) as [fb0|] eqn:F.
  - cbn [flush flush1 SubmissionFeedback_table Submission_table
           Assignment_table].
    intros H. inversion H.
    apply (step_edit env d sub); auto.
    apply find_feedback_In in F as [_ Hin].
    apply (fb_update d fb0); [done| |].
    + destruct (Submissions.p_feedback_text body),
        (Submissions.p_grade body);
        cbn [set_feedback_text set_grade doctor_id];
        match goal with
        | |- context [if ?c then _ else _] => destruct c
        end; reflexivity.
    + destruct (Submissions.p_feedback_text body),
        (Submissions.p_grade body);
        cbn [set_feedback_text set_grade doctor_id];
        match goal with
        | |- context [if ?c then _ else _] => destruct c
        end; reflexivity.
  - cbn [flush flush1 kw_doctor_id kw_submission_id kw_feedback_text
           kw_grade SubmissionFeedback_table Submission_table
           Assignment_table].
    destruct (if Submissions._has_attr SubmissionFeedback_attrs
                   (py "doctor_id") && Submissions._is_doctor user
              then Some (id user) else None) as [doc|]; [|discriminate].
    destruct (List.existsb _ _); [discriminate|].
    intros H. inversion H.
    apply (step_edit env d sub); auto.
    apply (fb_insert d
             (mkSubmissionFeedback (next_feedback_id d) sid doc
                (Submissions.p_feedback_text body)
                (Submissions.p_grade body) now_)); cbn [fb_submission_id];
      [rewrite S; eauto|done|reflexivity].
Qed.

Lemma status_update_db_step env sid body user w r w' :
  Submissions.update_submission_status env sid body user w = (r, w') ->
  db_step env (db w) (db w').
Proof.
  rewrite update_submission_status_run.
  destruct (negb (mem (role_of user) _)).
  { intros H. inversion H. constructor. }
  destruct (negb (mem (Submissions.p_status body) _)) eqn:V.
  { intros H. inversion H. constructor. }
  apply negb_false_iff in V.
  destruct (eqb _ (py "Accepted") && _).
  { intros H. inversion H. constructor. }
  destruct (eqb _ (py "NeedsRevision") && _).
  { intros H. inversion H. constructor. }
  destruct (get_submission (db w) sid) as [sub|] eqn:S.
  2: { intros H. inversion H. constructor. }
  destruct (db_fault env) as [[|]|].
  1,2: intros H; inversion H; constructor.
  destruct (flush _ _ _) as [[|]|d'] eqn:F.
  1,2: intros H; inversion H; constructor.
  apply (upsert_changes_step env _ _ _ _ _ sub) in F; auto.
  intros H; inversion H; exact F.
Qed.

Lemma reviewed_step env d sid payload user sub :
  get_submission d sid = Some sub ->
  mem (Doctor.r_status payload) Doctor.REVIEWABLE_STATUSES = true ->
  db_step env d (reviewed env d sid payload user sub).
Proof.
  intros S Hst. unfold reviewed.
  apply (step_edit env d sub).
  - cbn [set_status submission_id]. apply get_submission_id in S as E.
    now rewrite E.
  - left. now apply reviewable_valid.
  - now left.
  - unfold reviewed_feedback_table, reviewed_feedback.
    destruct (get_feedback d sid) as [fb0|] eqn:F.
    + apply find_feedback_In in F as [_ Hin].
      apply (fb_update d fb0); [done| |]; apply review_row_ids.
    + apply (fb_insert d
               (mkSubmissionFeedback (next_feedback_id d) sid (id user)
                  (Doctor.r_feedback_text payload) (Doctor.r_grade payload)
                  (now env))); cbn [fb_submission_id];
        [rewrite S; eauto|done|reflexivity].
Qed.

Lemma review_db_step env sid payload user w r w' :
  Doctor.review_submission env sid payload user w = (r, w') ->
  db_step env (db w) (db w').
Proof.
  rewrite review_submission_run.
  destruct (negb (eqb (role_of user) _)).
  { intros H. inversion H. constructor. }
  destruct (negb (mem (Doctor.r_status payload) _)) eqn:V.
  { intros H. inversion H. constructor. }
  apply negb_false_iff in V.
  destruct (eqb _ (py "Accepted") && _).
  { intros H. inversion H. constructor. }
  destruct (eqb _ (py "NeedsRevision") && _).
  { intros H. inversion H. constructor. }
  destruct (get_submission (db w) sid) as [sub|] eqn:S.
  2: { intros H. inversion H. constructor. }
  destruct (db_fault env) as [[|]|];
    intros H; inversion H; subst; cbn [db rolled_back committed].
  1,2: constructor.
  now apply reviewed_step.
Qed.

Lemma upserted_step env d body user sub :
  get_submission d (Feedback.in_submission_id body) = Some sub ->
  db_step env d (upserted env d body user).
Proof.
  intros S. unfold upserted. apply step_feedback.
  unfold upserted_feedback.
  destruct (get_feedback d _) as [fb0|] eqn:F.
  - apply find_feedback_In in F as [_ Hin].
    apply (fb_update d fb0); [done| |]; apply upsert_row_ids.
  - apply (fb_insert d
             (mkSubmissionFeedback (next_feedback_id d)
                (Feedback.in_submission_id body) (id user)
                (Feedback.in_text body) (Feedback.in_grade body)
                (now env))); cbn [fb_submission_id];
      [rewrite S; eauto|done|reflexivity].
Qed.

Lemma upsert_feedback_db_step env body user w r w' :
  Feedback.upsert_feedback env body user w = (r, w') ->
  db_step env (db w) (db w').
Proof.
  rewrite upsert_feedback_run.
  destruct (get_submission (db w) _) as [sub|] eqn:S.
  2: { intros H. inversion H. constructor. }
  destruct (feedback_guard _ user).
  { intros H. inversion H. constructor. }
  destruct (db_fault env) as [[|]|];
    intros H; inversion H; subst; cbn [db rolled_back committed].
  1,2: constructor.
  now apply (upserted_step _ _ _ _ sub).
Qed.

Lemma update_feedback_db_step env fid body user w r w' :
  Feedback.update_feedback env fid body user w = (r, w') ->
  db_step env (db w) (db w').
Proof.
  rewrite update_feedback_run.
  destruct (negb (eqb (role_of user) _)).
  { intros H. inversion H. constructor. }
  destruct (Feedback.get_feedback_by_id (db w) fid) as [fb|] eqn:F.
  2: { intros H. inversion H. constructor. }
  destruct (get_submission (db w) _) as [sub|].
  2: { intros H. inversion H. constructor. }
  destruct (feedback_guard _ user).
  { intros H. inversion H. constructor. }
  destruct (negb _).
  { intros H. inversion H. constructor. }
  destruct (db_fault env) as [[|]|];
    intros H; inversion H; subst; cbn [db rolled_back committed].
  1,2: constructor.
  unfold with_feedback. apply step_feedback.
  apply get_feedback_by_id_In in F as [_ Hin].
  apply (fb_update _ fb); [done| |]; apply update_row_ids.
Qed.

Lemma delete_feedback_db_step env fid user w r w' :
  Feedback.delete_feedback env fid user w = (r, w') ->
  db_step env (db w) (db w').
Proof.
  rewrite delete_feedback_run.
  destruct (negb (eqb (role_of user) _)).
  { intros H. inversion H. constructor. }
  destruct (Feedback.get_feedback_by_id (db w) fid) as [fb|].
  2: { intros H. inversion H. constructor. }
  destruct (get_submission (db w) _) as [sub|].
  2: { intros H. inversion H. constructor. }
  destruct (feedback_guard _ user).
  { intros H. inversion H. constructor. }
  destruct (db_fault env) as [[|]|];
    intros H; inversion H; subst; cbn [db rolled_back committed].
  1,2: constructor.
  unfold Feedback.without_feedback. apply step_feedback. apply fb_delete.
Qed.

(** The read-only routes leave the world as it is. *)
Lemma get_feedback_reads sid user w r w' :
  Feedback.get_feedback_for_submission sid user w = (r, w') -> w' = w.
Proof.
  rewrite get_feedback_for_submission_run.
  destruct (negb _); [intros H; now inversion H|].
  destruct (get_submission _ _); [|intros H; now inversion H].
  destruct (get_feedback _ _); intros H; now inversion H.
Qed.

Lemma my_submission_stats_reads env user w r w' :
  Stats.my_submission_stats env user w = (r, w') -> w' = w.
Proof.
  unfold Stats.my_submission_stats, Students._require_student.
  unfold bind at 1.
  destruct (negb _); [intros H; now inversion H|].
  unfold ret at 1. unfold bind, get_db, ret. intros H. now inversion H.
Qed.

Lemma submissions_stats_reads env mine_only user w r w' :
  Stats.submissions_stats env mine_only user w = (r, w') -> w' = w.
Proof.
  unfold Stats.submissions_stats, Submissions._require_admin_or_doctor.
  unfold bind at 1.
  destruct (negb _); [intros H; now inversion H|].
  unfold ret at 1. unfold bind, get_db, ret. intros H. now inversion H.
Qed.

Lemma handle_db_step cfg env req user w res w' :
  handle cfg env req user w = (res, w') -> db_step env (db w) (db w').
Proof.
  destruct req; cbn [handle]; intros H;
    apply bind_ret_inv in H as (r & H & _).
  - eapply create_db_step; eauto.
  - eapply notes_db_step; eauto.
  - eapply replace_file_db_step; eauto.
  - eapply student_delete_db_step; eauto.
  - eapply status_update_db_step; eauto.
  - eapply admin_delete_db_step; eauto.
  - eapply review_db_step; eauto.
Qed.

Lemma serve_db_step cfg env req user w res w' :
  Site.serve cfg env req user w = (res, w') ->
  db_step env (db w) (db w').
Proof.
  destruct req; cbn [Site.serve]; intros H;
    apply bind_ret_inv in H as (r & H & _).
  - eapply handle_db_step; eauto.
  - eapply upsert_feedback_db_step; eauto.
  - eapply update_feedback_db_step; eauto.
  - eapply delete_feedback_db_step; eauto.
  - apply get_feedback_reads in H as ->. constructor.
  - apply my_submission_stats_reads in H as ->. constructor.
  - apply submissions_stats_reads in H as ->. constructor.
Qed.

Lemma serve_all_cons cfg c calls w :
  Site.serve_all cfg (c :: calls) w
  = Site.serve_all cfg calls
      (snd (Site.serve cfg (Site.c_env c) (Site.c_req c) (Site.c_user c) w)).
Proof. reflexivity. Qed.

(** What every step keeps, every sequence of requests keeps. *)
Lemma serve_all_keeps (P : DB -> Prop) cfg calls :
  (forall env d d',
     ~ In slash (uuid_hex env) -> db_step env d d' -> P d -> P d') ->
  uuids_plain calls ->
  forall w, P (db w) -> P (db (Site.serve_all cfg calls w)).
Proof.
  intros Hstep. induction calls as [|c calls IH]; intros Hu w Hw; [done|].
  apply List.Forall_cons_iff in Hu as [Hc Hu].
  rewrite serve_all_cons. apply IH; [done|].
  eapply Hstep; [exact Hc| |exact Hw].
  eapply serve_db_step. apply surjective_pairing.
Qed.

Lemma serve_all_keeps_any (P : DB -> Prop) cfg calls :
  (forall env d d', db_step env d d' -> P d -> P d') ->
  forall w, P (db w) -> P (db (Site.serve_all cfg calls w)).
Proof.
  intros Hstep. induction calls as [|c calls IH]; intros w Hw; [done|].
  rewrite serve_all_cons. apply IH.
  eapply Hstep; [|exact Hw].
  eapply serve_db_step. apply surjective_pairing.
Qed.

(** ** What the tables keep over any sequence of requests *)

(** X1.  Whatever requests are served, in whatever order and by whatever
    callers, every stored submission keeps one of the four statuses
    Pending, Accepted, Rejected, NeedsRevision. *)
Theorem statuses_stay_valid cfg calls w :
  statuses_valid (db w) ->
  statuses_valid (db (Site.serve_all cfg calls w)).
Proof.
  apply (serve_all_keeps_any statuses_valid).
  intros env d d' Hs. now apply (step_statuses_valid env d).
Qed.

Lemma statuses_stay_valid_witness :
  statuses_valid (db (Site.serve_all cfg0 Scenario.session (w_sub "Pending"))).
Proof.
  apply statuses_stay_valid.
  apply List.Forall_cons; [vm_compute; reflexivity|apply List.Forall_nil].
Defined.

(** X2.  Submission keys stay unique: no sequence of requests makes two
    submissions share a [submission_id]. *)
Theorem submission_keys_stay_unique cfg calls w :
  submission_keys_unique (db w) ->
  submission_keys_unique (db (Site.serve_all cfg calls w)).
Proof.
  apply (serve_all_keeps_any submission_keys_unique).
  intros env d d' Hs. now apply (step_submission_keys env d).
Qed.

Lemma submission_keys_stay_unique_witness :
  submission_keys_unique
    (db (Site.serve_all cfg0 Scenario.session (w_sub "Pending"))).
Proof.
  apply submission_keys_stay_unique.
  apply NoDup_cons_2; [apply not_elem_of_nil|apply NoDup_nil_2].
Defined.

(** X3.  A submission never has two feedback rows, and feedback keys stay
    unique, over any sequence of requests. *)
Theorem feedback_keys_stay_unique cfg calls w :
  feedback_keys_unique (db w) ->
  feedback_keys_unique (db (Site.serve_all cfg calls w)).
Proof.
  apply (serve_all_keeps_any feedback_keys_unique).
  intros env d d' Hs. now apply (step_feedback_keys env d).
Qed.

Lemma feedback_keys_stay_unique_witness :
  feedback_keys_unique
    (db (Site.serve_all cfg0 Scenario.session (w_reviewed "NeedsRevision"))).
Proof.
  apply feedback_keys_stay_unique.
  split; (apply NoDup_cons_2; [apply not_elem_of_nil|apply NoDup_nil_2]).
Defined.

(** X4.  Referential integrity: over any sequence of requests every
    feedback row refers to a submission that is stored. *)
Theorem feedback_always_refers cfg calls w :
  feedback_refers (db w) ->
  feedback_refers (db (Site.serve_all cfg calls w)).
Proof.
  apply (serve_all_keeps_any feedback_refers).
  intros env d d' Hs. now apply (step_feedback_refers env d).
Qed.

Lemma feedback_always_refers_witness :
  feedback_refers
    (db (Site.serve_all cfg0 Scenario.session (w_reviewed "NeedsRevision"))).
Proof.
  apply feedback_always_refers.
  apply List.Forall_cons; [vm_compute; eauto|apply List.Forall_nil].
Defined.

(** ** The file store over any sequence of requests *)

Lemma upload_dest_inside cfg env file :
  ~ In slash (uuid_hex env) ->
  inside_root cfg (fs_key cfg (upload_dest cfg env file)) = true.
Proof.
  intros Hu. destruct (upload_paths cfg env file Hu) as [_ H].
  unfold is_relative_to in H. apply andb_true_iff in H as [_ H].
  exact H.
Qed.

(** Streaming an upload touches no file outside the storage root. *)
Lemma save_stream_outside cfg env file w r w1 :
  ~ In slash (uuid_hex env) ->
  Students._save_stream_to_disk cfg file (upload_dest cfg env file) w
  = (r, w1) ->
  forall k, inside_root cfg k = false -> files w1 !! k = files w !! k.
Proof.
  intros Hu H k Hk. apply save_stream_frame in H as (_ & Hf & _).
  apply Hf. intros ->. rewrite upload_dest_inside in Hk by done.
  discriminate.
Qed.

Lemma create_files_outside cfg env aid file notes user w r w' :
  ~ In slash (uuid_hex env) ->
  Students.create_submission cfg env aid file notes user w = (r, w') ->
  forall k, inside_root cfg k = false -> files w' !! k = files w !! k.
Proof.
  intros Hu. rewrite create_submission_run.
  destruct (create_guard env w aid file user).
  { intros H. now inversion H. }
  destruct (Students._save_stream_to_disk cfg file _ w) as [[n|e] w1] eqn:Sv;
    pose proof (save_stream_outside _ _ _ _ _ _ Hu Sv) as Hout.
  2: { intros H. now inversion H; subst. }
  destruct (db_fault env) as [[|]|]; intros H; inversion H; subst;
    intros k Hk; cbn [files rolled_back committed].
  1,2: destruct (after_remove_spec cfg (upload_public env file) w1)
         as (_ & _ & Hr & _); rewrite Hr by done; auto.
  auto.
Qed.

Lemma replace_files_outside cfg env sid file user w r w' :
  ~ In slash (uuid_hex env) ->
  Students.replace_submission_file cfg env sid file user w = (r, w') ->
  forall k, inside_root cfg k = false -> files w' !! k = files w !! k.
Proof.
  intros Hu. rewrite replace_submission_file_run.
  destruct (student_edit_guard w sid true user) as [e|sub].
  { intros H. now inversion H. }
  destruct (ext_refused file).
  { intros H. now inversion H. }
  destruct (Students._save_stream_to_disk cfg file _ w) as [[n|e] w1] eqn:Sv;
    pose proof (save_stream_outside _ _ _ _ _ _ Hu Sv) as Hout.
  2: { intros H. now inversion H; subst. }
  destruct (db_fault env) as [e|]; cbn zeta; intros H; inversion H; subst;
    intros k Hk.
  - cbn [files rolled_back].
    destruct (after_remove_spec cfg (upload_public env file) w1)
      as (_ & _ & Hr & _). rewrite Hr by done. auto.
  - destruct (truthy (file_path sub) && _).
    + destruct (after_remove_spec cfg (file_path sub)
                  (committed
                     (with_submission (db w1) (replaced_row env file sub))
                     w1)) as (_ & _ & Hr & _).
      rewrite Hr by done. cbn [files committed]. auto.
    + cbn [files committed]. auto.
Qed.

Lemma student_delete_files_outside cfg env sid allow user w r w' :
  Students.delete_submission cfg env sid allow user w = (r, w') ->
  forall k, inside_root cfg k = false -> files w' !! k = files w !! k.
Proof.
  rewrite student_delete_submission_run.
  destruct (student_edit_guard w sid allow user) as [e|sub].
  { intros H. now inversion H. }
  destruct (bool_decide _ || _); intros H; inversion H; subst; intros k Hk.
  - reflexivity.
  - destruct (after_remove_spec cfg (file_path sub)
                (committed (without_submission (db w) sub) w))
      as (_ & _ & Hr & _). now rewrite Hr.
Qed.

Lemma admin_delete_files_outside cfg env sid delete_file user w r w' :
  Submissions.delete_submission cfg env sid delete_file user w = (r, w') ->
  forall k, inside_root cfg k = false -> files w' !! k = files w !! k.
Proof.
  rewrite admin_delete_submission_run.
  destruct (negb _). { intros H. now inversion H. }
  destruct (get_submission (db w) sid) as [sub|].
  2: { intros H. now inversion H. }
  destruct (bool_decide _ || _); cbn zeta; intros H; inversion H; subst;
    intros k Hk.
  - reflexivity.
  - destruct (unlink_if_removable cfg
                (committed (without_submission (db w) sub) w)
                (Submissions._disk_path_from_public cfg (file_path sub))
                (delete_file && truthy (file_path sub)))
      as (_ & _ & Hr & _).
    cbv zeta in Hr. now rewrite Hr.
Qed.

(** The routes that do not handle files. *)
Lemma notes_files env sid notes user w r w' :
  Students.update_submission_notes env sid notes user w = (r, w') ->
  files w' = files w.
Proof.
  rewrite update_submission_notes_run.
  destruct (student_edit_guard w sid true user); [intros H; now inversion H|].
  destruct (db_fault env); intros H; now inversion H.
Qed.

Lemma status_update_files env sid body user w r w' :
  Submissions.update_submission_status env sid body user w = (r, w') ->
  files w' = files w.
Proof.
  rewrite update_submission_status_run.
  repeat match goal with
         | |- context [if ?c then _ else _] => destruct c
         | |- context [match get_submission ?d ?s with _ => _ end] =>
             destruct (get_submission d s)
         | |- context [match get_assignment ?d ?s with _ => _ end] =>
             destruct (get_assignment d s)
         | |- context [match db_fault ?e with _ => _ end] =>
             destruct (db_fault e) as [[|]|]
         | |- context [match flush ?n ?d ?p with _ => _ end] =>
             destruct (flush n d p) as [[|]|]
         end; intros H; now inversion H.
Qed.

Lemma review_files env sid payload user w r w' :
  Doctor.review_submission env sid payload user w = (r, w') ->
  files w' = files w.
Proof.
  rewrite review_submission_run.
  repeat match goal with
         | |- context [if ?c then _ else _] => destruct c
         | |- context [match get_submission ?d ?s with _ => _ end] =>
             destruct (get_submission d s)
         | |- context [match db_fault ?e with _ => _ end] =>
             destruct (db_fault e) as [[|]|]
         end; intros H; now inversion H.
Qed.

Lemma upsert_feedback_files env body user w r w' :
  Feedback.upsert_feedback env body user w = (r, w') -> files w' = files w.
Proof.
  rewrite upsert_feedback_run.
  repeat match goal with
         | |- context [match get_submission ?d ?s with _ => _ end] =>
             destruct (get_submission d s)
         | |- context [match feedback_guard ?f ?u with _ => _ end] =>
             destruct (feedback_guard f u)
         | |- context [match db_fault ?e with _ => _ end] =>
             destruct (db_fault e) as [[|]|]
         end; intros H; now inversion H.
Qed.

Lemma update_feedback_files env fid body user w r w' :
  Feedback.update_feedback env fid body user w = (r, w') ->
  files w' = files w.
Proof.
  rewrite update_feedback_run.
  repeat match goal with
         | |- context [if ?c then _ else _] => destruct c
         | |- context [match Feedback.get_feedback_by_id ?d ?s with _ => _ end]
           => destruct (Feedback.get_feedback_by_id d s)
         | |- context [match get_submission ?d ?s with _ => _ end] =>
             destruct (get_submission d s)
         | |- context [match feedback_guard ?f ?u with _ => _ end] =>
             destruct (feedback_guard f u)
         | |- context [match db_fault ?e with _ => _ end] =>
             destruct (db_fault e) as [[|]|]
         end; intros H; now inversion H.
Qed.

Lemma delete_feedback_files env fid user w r w' :
  Feedback.delete_feedback env fid user w = (r, w') -> files w' = files w.
Proof.
  rewrite delete_feedback_run.
  repeat match goal with
         | |- context [if ?c then _ else _] => destruct c
         | |- context [match Feedback.get_feedback_by_id ?d ?s with _ => _ end]
           => destruct (Feedback.get_feedback_by_id d s)
         | |- context [match get_submission ?d ?s with _ => _ end] =>
             destruct (get_submission d s)
         | |- context [match feedback_guard ?f ?u with _ => _ end] =>
             destruct (feedback_guard f u)
         | |- context [match db_fault ?e with _ => _ end] =>
             destruct (db_fault e) as [[|]|]
         end; intros H; now inversion H.
Qed.

Lemma serve_files_outside cfg env req user w res w' :
  ~ In slash (uuid_hex env) ->
  Site.serve cfg env req user w = (res, w') ->
  forall k, inside_root cfg k = false -> files w' !! k = files w !! k.
Proof.
  intros Hu.
  destruct req as [[]| | | | | |]; cbn [Site.serve handle]; intros H;
    apply bind_ret_inv in H as (r & H & _);
    try (apply bind_ret_inv in H as (r' & H & _)).
  - eapply create_files_outside; eauto.
  - apply notes_files in H. now rewrite H.
  - eapply replace_files_outside; eauto.
  - eapply student_delete_files_outside; eauto.
  - apply status_update_files in H. now rewrite H.
  - eapply admin_delete_files_outside; eauto.
  - apply review_files in H. now rewrite H.
  - apply upsert_feedback_files in H. now rewrite H.
  - apply update_feedback_files in H. now rewrite H.
  - apply delete_feedback_files in H. now rewrite H.
  - apply get_feedback_reads in H as ->. reflexivity.
  - apply my_submission_stats_reads in H as ->. reflexivity.
  - apply submissions_stats_reads in H as ->. reflexivity.
Qed.

(** X5.  No sequence of requests creates, changes or removes a file whose
    key lies outside the storage root, whatever the file names of the
    uploads and the [file_path] values of the stored rows are. *)
Theorem files_outside_root_untouched cfg calls w k :
  uuids_plain calls ->
  inside_root cfg k = false ->
  files (Site.serve_all cfg calls w) !! k = files w !! k.
Proof.
  intros Hu Hk. revert w.
  induction calls as [|c calls IH]; intros w; [reflexivity|].
  apply List.Forall_cons_iff in Hu as [Hc Hu].
  rewrite serve_all_cons, IH by done.
  eapply serve_files_outside; [exact Hc| |exact Hk].
  apply surjective_pairing.
Qed.

Lemma files_outside_root_untouched_witness :
  files (Site.serve_all cfg0 [Scenario.upload; Scenario.purge]
           (w_tampered "/uploads/../../../etc/passwd")) !! etc_passwd
  = files (w_tampered "/uploads/../../../etc/passwd") !! etc_passwd.
Proof.
  apply files_outside_root_untouched.
  - unfold uuids_plain. repeat apply List.Forall_cons;
      try apply List.Forall_nil; vm_compute; intuition discriminate.
  - vm_compute. reflexivity.
Defined.

(** ** An upload that fails *)

Local Opaque Students.CHUNK_SIZE.

(** When the loop raises, the destination is gone. *)
Lemma save_loop_raise_absent cfg dest fuel :
  forall stream total w e w',
    Students.save_loop fuel cfg dest stream total w = (Raise e, w') ->
    files w' !! fs_key cfg dest = None.
Proof.
  induction fuel as [|fuel IH]; intros stream total w e w' H; simpl in H.
  - discriminate.
  - destruct (take (Z.to_nat Students.CHUNK_SIZE) stream) as [|c chunk] eqn:Hc.
    + discriminate.
    + destruct (total + Z.of_nat (length (c :: chunk))
                >? MAX_UPLOAD_MB cfg * 1024 * 1024).
      * unfold bind, unlink, HTTP, raise in H.
        destruct (files w !! fs_key cfg dest) eqn:Hf;
          inversion H; subst; simpl.
        -- apply lookup_delete_eq.
        -- exact Hf.
      * unfold bind at 1 in H. unfold write at 1 in H.
        now apply IH in H.
Qed.

Lemma save_stream_raise_absent cfg file dest w e w' :
  Students._save_stream_to_disk cfg file dest w = (Raise e, w') ->
  files w' !! fs_key cfg dest = None.
Proof.
  unfold Students._save_stream_to_disk.
  unfold bind at 1, open_wb at 1. intros H.
  apply bind_inv in H as [(a & w1 & H1 & H2)|(e' & H1 & _)].
  - destruct a as [t|]; [discriminate|].
    exfalso. eapply (save_loop_enough_fuel cfg dest); [|now rewrite H1].
    lia.
  - now apply save_loop_raise_absent in H1.
Qed.

(** A file store that differs from [fs] at most in the key [k0], where
    both have nothing, is [fs]. *)
Lemma files_eq_but (fs fs' : gmap (list str) (list byte)) (k0 : list str) :
  fs !! k0 = None ->
  fs' !! k0 = None ->
  (forall k, k <> k0 -> fs' !! k = fs !! k) ->
  fs' = fs.
Proof.
  intros H0 H0' H. apply map_eq. intros k.
  destruct (decide (k = k0)) as [->|Hne]; [congruence|auto].
Qed.

(** Removing a freshly written upload gives the file store back. *)
Lemma files_restored cfg env file w w1 :
  ~ In slash (uuid_hex env) ->
  files w !! fs_key cfg (upload_dest cfg env file) = None ->
  (forall k, k <> fs_key cfg (upload_dest cfg env file) ->
             files w1 !! k = files w !! k) ->
  files (after_remove cfg (upload_public env file) w1) = files w.
Proof.
  intros Hu Hfresh Hframe.
  destruct (after_remove_spec cfg (upload_public env file) w1)
    as (_ & -> & _).
  destruct (upload_paths cfg env file Hu) as [-> Hrel].
  unfold removable. rewrite Hrel, andb_true_r.
  destruct (bool_decide _) eqn:B.
  - apply (files_eq_but _ _ (fs_key cfg (upload_dest cfg env file)));
      [done|apply lookup_delete_eq|].
    intros k Hk. rewrite lookup_delete_ne by done. auto.
  - apply bool_decide_eq_false in B.
    apply (files_eq_but _ _ (fs_key cfg (upload_dest cfg env file)));
      [done| |done].
    destruct (files w1 !! _) eqn:E; [|done]. exfalso. apply B. eauto.
Qed.

(** X6.  An upload that is answered with an error leaves no trace in the
    tables or in the file store: for a new submission and for a file
    replacement alike, whatever fails (a guard, the extension check, the
    size ceiling in the middle of the stream, the commit), the tables and
    the whole file store are as before, the partly written or fully
    written new file included.  The generated storage name is taken to be
    fresh. *)
Theorem failed_upload_leaves_nothing cfg env file w :
  ~ In slash (uuid_hex env) ->
  files w !! fs_key cfg (upload_dest cfg env file) = None ->
  (forall aid notes user e w',
     Students.create_submission cfg env aid file notes user w
     = (Raise e, w') ->
     db w' = db w /\ files w' = files w)
  /\ (forall sid user e w',
        Students.replace_submission_file cfg env sid file user w
        = (Raise e, w') ->
        db w' = db w /\ files w' = files w).
Proof.
  intros Hu Hfresh.
  split.
  - intros aid notes user e w'. rewrite create_submission_run.
    destruct (create_guard env w aid file user).
    { intros H. inversion H. auto. }
    destruct (Students._save_stream_to_disk cfg file _ w)
      as [[n|e1] w1] eqn:Sv;
      destruct (save_stream_frame _ _ _ _ _ _ Sv) as (Hd & Hf & _).
    2: { intros H. inversion H; subst. split; [done|].
         apply save_stream_raise_absent in Sv.
         now apply (files_eq_but _ _
                      (fs_key cfg (upload_dest cfg env file))). }
    destruct (db_fault env) as [[|]|]; intros H; inversion H; subst;
      cbn [db files rolled_back]; rewrite db_after_remove;
      (split; [done|now apply (files_restored cfg env)]).
  - intros sid user e w'. rewrite replace_submission_file_run.
    destruct (student_edit_guard w sid true user) as [e0|sub].
    { intros H. inversion H. auto. }
    destruct (ext_refused file).
    { intros H. inversion H. auto. }
    destruct (Students._save_stream_to_disk cfg file _ w)
      as [[n|e1] w1] eqn:Sv;
      destruct (save_stream_frame _ _ _ _ _ _ Sv) as (Hd & Hf & _).
    2: { intros H. inversion H; subst. split; [done|].
         apply save_stream_raise_absent in Sv.
         now apply (files_eq_but _ _
                      (fs_key cfg (upload_dest cfg env file))). }
    destruct (db_fault env) as [e0|]; cbn zeta; intros H; inversion H; subst.
    cbn [db files rolled_back]. rewrite db_after_remove.
    split; [done|now apply (files_restored cfg env)].
Qed.

Lemma failed_upload_leaves_nothing_witness :
  (db (snd (Students.create_submission cfg_zero env0 10 report_pdf None
              student7 (w_sub "Pending")))
   = db (w_sub "Pending")
   /\ files (snd (Students.create_submission cfg_zero env0 10 report_pdf
                    None student7 (w_sub "Pending")))
      = files (w_sub "Pending"))
  /\ (db (snd (Students.replace_submission_file cfg0 env_down 1 report_pdf
                 student7 (w_sub "Pending")))
      = db (w_sub "Pending")
      /\ files (snd (Students.replace_submission_file cfg0 env_down 1
                       report_pdf student7 (w_sub "Pending")))
         = files (w_sub "Pending")).
Proof.
  split.
  - apply (failed_upload_leaves_nothing cfg_zero env0 report_pdf
             (w_sub "Pending"))
      with (aid := 10) (notes := None) (user := student7)
           (e := too_large cfg_zero).
    + vm_compute. intuition discriminate.
    + vm_compute. reflexivity.
    + vm_compute. reflexivity.
  - apply (failed_upload_leaves_nothing cfg0 env_down report_pdf
             (w_sub "Pending"))
      with (sid := 1) (user := student7)
           (e := mkHTTPException 500
                   (py "Failed to replace submission file")).
    + vm_compute. intuition discriminate.
    + vm_compute. reflexivity.
    + vm_compute. reflexivity.
Defined.

(** ** The submission window and the extension check *)

(** [Assignment] has a [deadline] and none of the other columns the window
    check looks for: the window is open until the deadline, inclusive. *)
Lemma window_ok_deadline env a :
  Students._assignment_time_window_ok env a
  = match deadline a with
    | Some e => negb (now env >? e)
    | None => true
    end.
Proof.
  unfold Students._assignment_time_window_ok.
  replace (List.find (Students._has_attr Assignment_attrs)
             [py "start_at"; py "start_date"; py "open_at";
              py "available_from"])
    with (@None str) by (vm_compute; reflexivity).
  replace (List.find (Students._has_attr Assignment_attrs)
             [py "due_at"; py "due_date"; py "deadline"; py "close_at";
              py "available_until"])
    with (Some (py "deadline")) by (vm_compute; reflexivity).
  unfold Assignment_getattr. py_eval.
  destruct (deadline a) as [e|]; [|reflexivity].
  destruct (now env >? e); reflexivity.
Qed.

(** X7.  The submission window of an assignment closes strictly after its
    deadline: a student's upload for an existing assignment is refused
    with 400 once the clock is past the deadline, before any byte is
    written, and the window check lets it through at the deadline itself,
    before it, and when the assignment has no deadline. *)
Theorem deadline_closes_uploads cfg env aid file notes user w a :
  mem (role_of user) [py "student"] = true ->
  0 < aid ->
  get_assignment (db w) aid = Some a ->
  (forall e, deadline a = Some e -> e < now env ->
     Students.create_submission cfg env aid file notes user w
     = (Raise (mkHTTPException 400
                 (py "Submission window is closed or not yet open")), w))
  /\ ((deadline a = None \/ exists e, deadline a = Some e /\ now env <= e) ->
      Students._assignment_time_window_ok env a = true
      /\ create_guard env w aid file user
         = if ext_refused file
           then Some (file_type_not_allowed (upload_ext file))
           else None).
Proof.
  intros Hr Ha Hg.
  assert (create_guard env w aid file user
          = if negb (Students._assignment_time_window_ok env a)
            then Some (mkHTTPException 400
                         (py "Submission window is closed or not yet open"))
            else if ext_refused file
            then Some (file_type_not_allowed (upload_ext file))
            else None) as G.
  { unfold create_guard. rewrite Hr, Hg. cbn [negb].
    destruct (aid <=? 0) eqn:E; [apply Z.leb_le in E; lia|reflexivity]. }
  split.
  - intros e He Hlate. rewrite create_submission_run, G, window_ok_deadline, He.
    replace (now env >? e) with true; [reflexivity|].
    symmetry. rewrite Z.gtb_ltb. now apply Z.ltb_lt.
  - intros Hopen.
    assert (Students._assignment_time_window_ok env a = true) as Hok.
    { rewrite window_ok_deadline.
      destruct Hopen as [->|(e & -> & Hle)]; [reflexivity|].
      rewrite Z.gtb_ltb. apply negb_true_iff. now apply Z.ltb_ge. }
    split; [exact Hok|]. now rewrite G, Hok.
Qed.

Lemma deadline_closes_uploads_witness :
  Students.create_submission cfg0
    (mkEnv 1001 (py "0123456789abcdef0123456789abcdef") None) 10 report_pdf
    None student7 w_empty
  = (Raise (mkHTTPException 400
              (py "Submission window is closed or not yet open")), w_empty)
  /\ Students._assignment_time_window_ok
       (mkEnv 1000 (py "0123456789abcdef0123456789abcdef") None) assignment10
     = true.
Proof.
  split.
  - apply (deadline_closes_uploads cfg0
             (mkEnv 1001 (py "0123456789abcdef0123456789abcdef") None)
             10 report_pdf None student7 w_empty assignment10)
      with (e := 1000); [reflexivity|lia|reflexivity|reflexivity|simpl; lia].
  - apply (deadline_closes_uploads cfg0
             (mkEnv 1000 (py "0123456789abcdef0123456789abcdef") None)
             10 report_pdf None student7 w_empty assignment10);
      [reflexivity|lia|reflexivity|].
    right. exists 1000. split; [reflexivity|simpl; lia].
Defined.

(** *** Names without an extension *)

Lemma rfind_not_in (c : N) (s : str) : ~ In c s -> rfind c s = None.
Proof.
  induction s as [|x s IH]; [done|]. intros H. simpl.
  rewrite IH by (intros Hin; apply H; now right).
  destruct (x =? c)%N eqn:E; [|done].
  apply N.eqb_eq in E. exfalso. apply H. now left.
Qed.

Lemma rfind_leading (c : N) (s : str) :
  ~ In c s -> rfind c (c :: s) = Some O.
Proof.
  intros H. simpl. rewrite rfind_not_in by done. now rewrite N.eqb_refl.
Qed.

Lemma safe_name_plain (file : UploadFile) (n : str) :
  filename file = Some n ->
  ~ In slash n -> n <> [] -> n <> [dot] ->
  upload_safe_name file = n.
Proof.
  intros Hf Hs Hn Hd. unfold upload_safe_name, Students._safe_name.
  rewrite Hf. destruct n as [|c n]; [done|]. cbn [or_default truthy].
  rewrite parse_single by done. reflexivity.
Qed.

Lemma no_suffix_accepted (file : UploadFile) :
  suffix (parse (upload_safe_name file)) = [] ->
  upload_ext file = []
  /\ ext_refused file = false
  /\ Students._infer_file_type (upload_safe_name file) = py "Other".
Proof.
  intros H. unfold ext_refused, upload_ext, Students._infer_file_type.
  rewrite H. repeat split; vm_compute; reflexivity.
Qed.

(** X8.  The extension allow-list is not applied to a name without an
    extension: an upload whose file name has no dot, or whose only dot is
    its first character, passes the check whatever the name is, keeps its
    name, and is stored with file type "Other". *)
Theorem names_without_suffix_accepted (file : UploadFile) (n : str) :
  filename file = Some n ->
  ~ In slash n ->
  n <> [] ->
  (~ In dot n
   \/ exists rest, rest <> [] /\ ~ In dot rest /\ n = dot :: rest) ->
  upload_safe_name file = n
  /\ upload_ext file = []
  /\ ext_refused file = false
  /\ Students._infer_file_type (upload_safe_name file) = py "Other".
Proof.
  intros Hf Hs Hn Hdot.
  assert (n <> [dot]) as Hd.
  { destruct Hdot as [H|(rest & Hst & _ & ->)].
    - intros ->. apply H. now left.
    - intros E. inversion E. done. }
  pose proof (safe_name_plain file n Hf Hs Hn Hd) as Hname.
  split; [exact Hname|]. apply no_suffix_accepted.
  rewrite Hname, parse_single by done.
  unfold suffix, name. cbn [p_parts List.last].
  destruct Hdot as [H|(rest & Hst & Hrest & ->)].
  - now rewrite rfind_not_in.
  - rewrite rfind_leading by done.
    rewrite bool_decide_eq_false_2; [reflexivity|lia].
Qed.

Lemma names_without_suffix_accepted_witness :
  ext_refused (mkUploadFile (Some (py ".htaccess")) None []) = false
  /\ ext_refused (mkUploadFile (Some (py "Makefile")) None []) = false.
Proof.
  split.
  - apply (names_without_suffix_accepted
             (mkUploadFile (Some (py ".htaccess")) None [])
             (py ".htaccess")).
    + reflexivity.
    + vm_compute. intuition discriminate.
    + discriminate.
    + right. exists (py "htaccess").
      split; [discriminate|]. split; [|reflexivity].
      vm_compute. intuition discriminate.
  - apply (names_without_suffix_accepted
             (mkUploadFile (Some (py "Makefile")) None [])
             (py "Makefile")).
    + reflexivity.
    + vm_compute. intuition discriminate.
    + discriminate.
    + left. vm_compute. intuition discriminate.
Defined.

(** ** From the stored path back to the file *)

Lemma startswith_app (p u : str) : startswith p (p ++ u) = true.
Proof.
  induction p as [|c p IH]; [reflexivity|]. simpl.
  now rewrite N.eqb_refl.
Qed.

Lemma remove_all_fuel_no_slash (p u : str) :
  ~ In slash u ->
  forall fuel, remove_all_fuel fuel (slash :: p) u = u.
Proof.
  induction u as [|c u IH]; intros H fuel.
  - destruct fuel; reflexivity.
  - destruct fuel; [reflexivity|]. cbn [remove_all_fuel startswith].
    destruct (slash =? c)%N eqn:E.
    + apply N.eqb_eq in E. exfalso. apply H. now left.
    + cbn [andb]. rewrite IH; [reflexivity|].
      intros Hin. apply H. now right.
Qed.

Lemma remove_uploads_prefix (u : str) :
  ~ In slash u -> remove_all (py "/uploads/") (py "/uploads/" ++ u) = u.
Proof.
  intros H. unfold remove_all.
  change (py "/uploads/") with (slash :: py "uploads/").
  cbn [app length remove_all_fuel].
  change (slash :: py "uploads/" ++ u) with (py "/uploads/" ++ u).
  change (startswith (slash :: py "uploads/") (py "/uploads/" ++ u))
    with (startswith (py "/uploads/") (py "/uploads/" ++ u)).
  rewrite startswith_app.
  change (drop (S (length (py "uploads/"))) (py "/uploads/" ++ u)) with u.
  now apply remove_all_fuel_no_slash.
Qed.

Lemma disk_path_of_upload cfg env file :
  ~ In slash (uuid_hex env) ->
  Submissions._disk_path_from_public cfg (upload_public env file)
  = upload_dest cfg env file.
Proof.
  intros Hu.
  unfold Submissions._disk_path_from_public, upload_public,
    Students._public_path_for.
  change (truthy (py "/uploads/" ++ upload_unique_name env file))
    with true.
  cbn [negb]. rewrite startswith_app.
  rewrite remove_uploads_prefix; [reflexivity|].
  apply (unique_name_props env
           (or_default (Some (or_default (filename file) (py "upload")))
              (py "upload")) Hu).
Qed.

(** X9.  The public path an upload stores leads both delete routes back to
    the file the upload wrote: [_disk_path_from_public] of the admin route
    and the candidate of [_remove_disk_file_if_local] are the upload's
    destination, which lies under the storage root. *)
Theorem stored_path_leads_to_upload cfg env file :
  ~ In slash (uuid_hex env) ->
  Submissions._disk_path_from_public cfg (upload_public env file)
  = upload_dest cfg env file
  /\ candidate cfg (upload_public env file) = upload_dest cfg env file
  /\ inside_root cfg (fs_key cfg (upload_dest cfg env file)) = true.
Proof.
  intros Hu. split; [|split].
  - now apply disk_path_of_upload.
  - now apply upload_paths.
  - now apply upload_dest_inside.
Qed.

Lemma stored_path_leads_to_upload_witness :
  Submissions._disk_path_from_public cfg0 (upload_public env0 report_pdf)
  = upload_dest cfg0 env0 report_pdf
  /\ candidate cfg0 (upload_public env0 report_pdf)
     = upload_dest cfg0 env0 report_pdf
  /\ inside_root cfg0 (fs_key cfg0 (upload_dest cfg0 env0 report_pdf)) = true.
Proof.
  apply stored_path_leads_to_upload. vm_compute. intuition discriminate.
Defined.

(** ** An upload followed by its deletion *)

Lemma create_success_inv cfg env aid file notes user w row w1 :
  Students.create_submission cfg env aid file notes user w
  = (Return row, w1) ->
  exists n w0,
    create_guard env w aid file user = None
    /\ Students._save_stream_to_disk cfg file (upload_dest cfg env file) w
       = (Return n, w0)
    /\ db_fault env = None
    /\ row = set_submission_id (next_submission_id (db w))
               (created_row env aid file notes user)
    /\ w1 = committed
              (mkDB (Submission_table (db w) ++ [row])
                 (SubmissionFeedback_table (db w)) (Assignment_table (db w)))
              w0.
Proof.
  rewrite create_submission_run.
  destruct (create_guard env w aid file user); [discriminate|].
  destruct (Students._save_stream_to_disk cfg file _ w) as [[n|e] w0] eqn:Sv;
    [|discriminate].
  pose proof (save_stream_frame _ _ _ _ _ _ Sv) as (Hd & _).
  destruct (db_fault env) as [[|]|]; try discriminate.
  intros H. inversion H; subst. rewrite Hd. eauto 10.
Qed.

Lemma create_guard_student env w aid file user :
  create_guard env w aid file user = None ->
  mem (role_of user) [py "student"] = true.
Proof.
  unfold create_guard.
  destruct (mem (role_of user) [py "student"]); [done|discriminate].
Qed.

Lemma filter_out_appended (d : DB) (row : Submission) :
  List.filter
    (fun s => negb (submission_id s
                    =? submission_id
                         (set_submission_id (next_submission_id d) row)))
    (Submission_table d ++ [set_submission_id (next_submission_id d) row])
  = Submission_table d.
Proof.
  rewrite List.filter_app. cbn [List.filter].
  rewrite Z.eqb_refl. cbn [negb]. rewrite app_nil_r.
  apply List.forallb_filter_id. apply List.forallb_forall. intros s Hs.
  apply next_submission_id_fresh in Hs.
  cbn [set_submission_id submission_id].
  apply negb_true_iff, Z.eqb_neq. lia.
Qed.

Lemma no_feedback_for_next (d : DB) (row : Submission) :
  feedback_refers d ->
  List.existsb
    (fun f => fb_submission_id f
              =? submission_id (set_submission_id (next_submission_id d) row))
    (SubmissionFeedback_table d)
  = false.
Proof.
  intros Hr. apply not_true_is_false. intros H.
  apply List.existsb_exists in H as (f & Hf & E).
  apply Z.eqb_eq in E. cbn [set_submission_id submission_id] in E.
  unfold feedback_refers in Hr. rewrite List.Forall_forall in Hr.
  destruct (Hr f Hf) as [s Hs]. apply find_Some_id in Hs as [Hid Hin].
  apply next_submission_id_fresh in Hin. lia.
Qed.

(** X10.  Deleting a submission right after its upload gives back the
    tables and the file store of before the upload, by the owner's delete
    route and by the admin's alike: the row and the stored file are gone
    and nothing else has changed. *)
Theorem upload_then_delete_restores
    cfg env env' aid file notes user w row w1 :
  ~ In slash (uuid_hex env) ->
  files w !! fs_key cfg (upload_dest cfg env file) = None ->
  feedback_refers (db w) ->
  db_fault env' = None ->
  Students.create_submission cfg env aid file notes user w
  = (Return row, w1) ->
  (forall allow,
     exists w2,
       Students.delete_submission cfg env' (submission_id row) allow user w1
       = (Return tt, w2)
       /\ db w2 = db w /\ files w2 = files w)
  /\ (forall admin,
        role_of admin = py "admin" ->
        exists w2,
          Submissions.delete_submission cfg env' (submission_id row) true
            admin w1
          = (Return tt, w2)
          /\ db w2 = db w /\ files w2 = files w).
Proof.
  intros Hu Hfresh Hrefers Hfault Hc.
  apply create_success_inv in Hc
    as (n & w0 & Hg & Hsv & _ & Hrow & Hw1).
  pose proof (save_stream_frame _ _ _ _ _ _ Hsv) as (_ & Hframe & _).
  set (d1 := mkDB (Submission_table (db w) ++ [row])
               (SubmissionFeedback_table (db w)) (Assignment_table (db w)))
    in *.
  assert (get_submission (db w1) (submission_id row) = Some row) as Hget.
  { rewrite Hw1. cbn [db committed]. subst d1. rewrite Hrow.
    cbn [set_submission_id submission_id]. apply get_submission_added. }
  assert (has_feedback (db w1) row = false) as Hnofb.
  { rewrite Hw1. cbn [db committed]. subst d1. unfold has_feedback.
    cbn [SubmissionFeedback_table]. rewrite Hrow.
    now apply no_feedback_for_next. }
  assert (without_submission (db w1) row = db w) as Hdb.
  { rewrite Hw1. cbn [db committed]. subst d1. unfold without_submission.
    cbn [Submission_table SubmissionFeedback_table Assignment_table].
    rewrite Hrow.
    rewrite filter_out_appended. now destruct (db w). }
  assert (file_path row = upload_public env file) as Hpath.
  { now rewrite Hrow. }
  assert (forall d, files (after_remove cfg (upload_public env file)
                             (committed d w1)) = files w) as Hfiles.
  { intros d. apply (files_restored cfg env file); auto.
    intros k Hk. rewrite Hw1. cbn [files committed]. auto. }
  split.
  - intros allow. eexists. rewrite student_delete_submission_run.
    rewrite (student_edit_guard_owner w1 _ allow user row);
      [|now apply (create_guard_student env w aid file)|exact Hget
       |now rewrite Hrow].
    replace (editable row allow) with true
      by (rewrite Hrow; reflexivity).
    rewrite Hfault, Hnofb.
    rewrite bool_decide_eq_false_2 by (intros F; now apply F).
    cbn [orb]. split; [reflexivity|].
    rewrite db_after_remove, Hpath, Hfiles. cbn [db committed]. auto.
  - intros admin Hadmin. eexists. rewrite admin_delete_submission_run.
    rewrite Hadmin. change (eqb (py "admin") (py "admin")) with true.
    cbn [negb]. rewrite Hget, Hfault, Hnofb.
    rewrite bool_decide_eq_false_2 by (intros F; now apply F).
    cbn [orb]. cbv zeta. split; [reflexivity|].
    rewrite Hpath.
    rewrite (disk_path_of_upload cfg env file Hu).
    destruct (upload_paths cfg env file Hu) as [Hcand _].
    replace (truthy (upload_public env file)) with true by reflexivity.
    cbn [andb].
    specialize (Hfiles (without_submission (db w1) row)).
    unfold after_remove in Hfiles. rewrite Hcand in Hfiles.
    destruct (removable cfg _ (upload_dest cfg env file));
      cbn [db unlinked committed]; auto.
Qed.

Lemma upload_then_delete_restores_witness :
  (exists w2,
     Students.delete_submission cfg0 Scenario.env1 2 false student7
       (snd (Students.create_submission cfg0 env0 10 report_pdf None
               student7 (w_sub "Pending")))
     = (Return tt, w2)
     /\ db w2 = db (w_sub "Pending") /\ files w2 = files (w_sub "Pending"))
  /\ exists w2,
       Submissions.delete_submission cfg0 Scenario.env1 2 true admin1
         (snd (Students.create_submission cfg0 env0 10 report_pdf None
                 student7 (w_sub "Pending")))
       = (Return tt, w2)
       /\ db w2 = db (w_sub "Pending") /\ files w2 = files (w_sub "Pending").
Proof.
  assert (Students.create_submission cfg0 env0 10 report_pdf None student7
            (w_sub "Pending")
          = (Return (set_submission_id 2
                       (created_row env0 10 report_pdf None student7)),
             snd (Students.create_submission cfg0 env0 10 report_pdf None
                    student7 (w_sub "Pending")))) as Hc.
  { vm_compute. reflexivity. }
  assert (~ In slash (uuid_hex env0)) as Hu.
  { vm_compute. intuition discriminate. }
  assert (feedback_refers (db (w_sub "Pending"))) as Hr.
  { apply List.Forall_nil. }
  destruct (upload_then_delete_restores cfg0 env0 Scenario.env1 10
              report_pdf None student7 (w_sub "Pending") _ _ Hu
              eq_refl Hr eq_refl Hc) as [Hs Ha].
  split; [apply (Hs false)|apply (Ha admin1); reflexivity].
Defined.

(** ** The doctor's review *)

Lemma review_valid_inv payload :
  review_valid payload = true ->
  mem (Doctor.r_status payload) Doctor.REVIEWABLE_STATUSES = true
  /\ eqb (Doctor.r_status payload) (py "Accepted")
     && bool_decide (Doctor.r_grade payload = None) = false
  /\ eqb (Doctor.r_status payload) (py "NeedsRevision")
     && match Doctor.r_feedback_text payload with
        | None => true
        | Some t => negb (truthy (strip t))
        end = false.
Proof.
  unfold review_valid. intros H.
  apply andb_true_iff in H as [H H3]. apply andb_true_iff in H as [H1 H2].
  apply negb_true_iff in H2, H3. auto.
Qed.

Lemma review_submission_ok env sid payload user w sub :
  eqb (role_of user) (py "doctor") = true ->
  review_valid payload = true ->
  get_submission (db w) sid = Some sub ->
  db_fault env = None ->
  Doctor.review_submission env sid payload user w
  = (Return (set_status (Doctor.r_status payload) sub,
             reviewed_feedback env (db w) sid payload user),
     committed (reviewed env (db w) sid payload user sub) w).
Proof.
  intros Hr Hv Hs Hf. apply review_valid_inv in Hv as (H1 & H2 & H3).
  rewrite review_submission_run, Hr, H1, H2, H3, Hs, Hf. reflexivity.
Qed.

Lemma reviewable_not_pending (s : str) :
  mem s Doctor.REVIEWABLE_STATUSES = true -> s <> py "Pending".
Proof. intros H ->. vm_compute in H. discriminate. Qed.

(** X11.  A doctor's review with a payload that passes validation, of a
    stored submission and with no database fault, always commits: the
    submission gets the requested status, which is never Pending, the
    submission has a feedback row afterwards whether or not the payload
    carried a text or a grade, that row carries the payload's text and
    grade where given, a first review records the reviewer, its time and
    exactly the payload's text and grade, and no file is touched. *)
Theorem doctor_review_commits env sid payload user w sub :
  eqb (role_of user) (py "doctor") = true ->
  review_valid payload = true ->
  get_submission (db w) sid = Some sub ->
  db_fault env = None ->
  exists fb w',
    Doctor.review_submission env sid payload user w
    = (Return (set_status (Doctor.r_status payload) sub, fb), w')
    /\ get_submission (db w') sid
       = Some (set_status (Doctor.r_status payload) sub)
    /\ Doctor.r_status payload <> py "Pending"
    /\ get_feedback (db w') sid = Some fb
    /\ fb_submission_id fb = sid
    /\ (forall t, Doctor.r_feedback_text payload = Some t ->
                  feedback_text fb = Some t)
    /\ (forall g, Doctor.r_grade payload = Some g -> grade fb = Some g)
    /\ (get_feedback (db w) sid = None ->
        fb = mkSubmissionFeedback (next_feedback_id (db w)) sid (id user)
               (Doctor.r_feedback_text payload) (Doctor.r_grade payload)
               (now env))
    /\ files w' = files w.
Proof.
  intros Hr Hv Hs Hf.
  exists (reviewed_feedback env (db w) sid payload user),
    (committed (reviewed env (db w) sid payload user sub) w).
  split; [now apply review_submission_ok|].
  cbn [db committed files].
  split. { unfold reviewed. now apply get_submission_set_status. }
  split. { apply reviewable_not_pending. now apply review_valid_inv. }
  split. { apply get_feedback_reviewed. }
  unfold reviewed_feedback.
  destruct (get_feedback (db w) sid) as [fb0|] eqn:F.
  - apply find_feedback_In in F as [E _].
    split. { now rewrite (proj1 (proj2 (review_row_ids payload user fb0))). }
    unfold review_row.
    split; [|split; [|split; [discriminate|reflexivity]]].
    + intros t ->. destruct (Doctor.r_grade payload);
        match goal with
        | |- context [if ?c then _ else _] => destruct c
        end; reflexivity.
    + intros g ->.
      match goal with
      | |- context [if ?c then _ else _] => destruct c
      end; reflexivity.
  - cbn [fb_submission_id feedback_text grade].
    repeat split; auto.
Qed.

Lemma doctor_review_commits_witness :
  exists fb w',
    Doctor.review_submission env0 1
      (Doctor.mkReviewPayload (py "Rejected") None None) doctor3
      (w_sub "Pending")
    = (Return (set_status (py "Rejected")
                 (sub_row "Pending" "/uploads/aaaa_old.pdf"), fb), w')
    /\ get_feedback (db w') 1 = Some fb
    /\ fb = mkSubmissionFeedback 1 1 3 None None 500.
Proof.
  destruct (doctor_review_commits env0 1
              (Doctor.mkReviewPayload (py "Rejected") None None) doctor3
              (w_sub "Pending") (sub_row "Pending" "/uploads/aaaa_old.pdf")
              eq_refl eq_refl eq_refl eq_refl)
    as (fb & w' & H & _ & _ & Hfb & _ & _ & _ & Hnew & _).
  exists fb, w'. split; [exact H|]. split; [exact Hfb|].
  apply Hnew. reflexivity.
Defined.

(** X12.  A second review does not check who wrote the feedback: whoever
    the stored row names as its doctor, a doctor's review overwrites its
    text and grade where the payload gives them and keeps them where it
    does not, and the row keeps its key, its time and its first doctor;
    only a row without a doctor (0) takes the reviewer.  No feedback row
    is added. *)
Theorem second_review_keeps_author env sid payload user w sub fb0 :
  eqb (role_of user) (py "doctor") = true ->
  review_valid payload = true ->
  get_submission (db w) sid = Some sub ->
  get_feedback (db w) sid = Some fb0 ->
  db_fault env = None ->
  exists fb w',
    Doctor.review_submission env sid payload user w
    = (Return (set_status (Doctor.r_status payload) sub, fb), w')
    /\ get_feedback (db w') sid = Some fb
    /\ feedback_id fb = feedback_id fb0
    /\ created_at fb = created_at fb0
    /\ doctor_id fb
       = (if doctor_id fb0 =? 0 then id user else doctor_id fb0)
    /\ feedback_text fb
       = match Doctor.r_feedback_text payload with
         | Some t => Some t
         | None => feedback_text fb0
         end
    /\ grade fb
       = match Doctor.r_grade payload with
         | Some g => Some g
         | None => grade fb0
         end
    /\ length (SubmissionFeedback_table (db w'))
       = length (SubmissionFeedback_table (db w)).
Proof.
  intros Hr Hv Hs F Hf.
  exists (reviewed_feedback env (db w) sid payload user),
    (committed (reviewed env (db w) sid payload user sub) w).
  split; [now apply review_submission_ok|].
  cbn [db committed].
  split. { apply get_feedback_reviewed. }
  unfold reviewed, reviewed_feedback_table, reviewed_feedback.
  rewrite F. cbn [SubmissionFeedback_table].
  destruct (review_row_ids payload user fb0) as (Hid & _ & Hat).
  split; [exact Hid|]. split; [exact Hat|].
  unfold replace_feedback. rewrite List.length_map.
  unfold review_row.
  destruct (Doctor.r_feedback_text payload), (Doctor.r_grade payload);
    cbn [set_feedback_text set_grade doctor_id];
    destruct (doctor_id fb0 =? 0); repeat split; reflexivity.
Qed.

Lemma second_review_keeps_author_witness :
  exists fb w',
    Doctor.review_submission env0 1
      (Doctor.mkReviewPayload (py "Rejected") None (Some (py "no")))
      (mkUser 4 (Some (py "doctor"))) (w_reviewed "Accepted")
    = (Return (set_status (py "Rejected")
                 (sub_row "Accepted" "/uploads/aaaa_old.pdf"), fb), w')
    /\ doctor_id fb = 3
    /\ feedback_text fb = Some (py "no")
    /\ grade fb = Some (QArith_base.Qmake 17 2).
Proof.
  destruct (second_review_keeps_author env0 1
              (Doctor.mkReviewPayload (py "Rejected") None (Some (py "no")))
              (mkUser 4 (Some (py "doctor"))) (w_reviewed "Accepted")
              (sub_row "Accepted" "/uploads/aaaa_old.pdf") fb_row
              eq_refl eq_refl eq_refl eq_refl eq_refl)
    as (fb & w' & H & _ & _ & _ & Hd & Ht & Hg & _).
  exists fb, w'. auto.
Defined.

(** ** The feedback router *)

Lemma feedback_guard_not_doctor fb user :
  eqb (role_of user) (py "doctor") = false ->
  feedback_guard fb user = Some doctor_role_required.
Proof. unfold feedback_guard. now intros ->. Qed.

(** X13.  The feedback routes are for doctors only, admins included in
    the refusal: whoever is not a doctor cannot create, change, delete or
    read feedback through them, and the world is exactly as before.  The
    exemption for admins in the authorship rule is therefore never
    reached.  The upsert looks the submission up first, so it answers 404
    for a missing submission even to a caller it would refuse. *)
Theorem feedback_routes_doctor_only env user w :
  eqb (role_of user) (py "doctor") = false ->
  (forall body,
     Feedback.upsert_feedback env body user w
     = (Raise match get_submission (db w) (Feedback.in_submission_id body)
              with
              | Some _ => doctor_role_required
              | None => submission_not_found
              end, w))
  /\ (forall fid body,
        Feedback.update_feedback env fid body user w
        = (Raise doctor_role_required, w))
  /\ (forall fid,
        Feedback.delete_feedback env fid user w
        = (Raise doctor_role_required, w))
  /\ (forall sid,
        Feedback.get_feedback_for_submission sid user w
        = (Raise doctor_role_required, w))
  /\ (forall fb, feedback_guard fb user = Some doctor_role_required).
Proof.
  intros Hr. repeat split.
  - intros body. rewrite upsert_feedback_run.
    destruct (get_submission (db w) _); [|reflexivity].
    now rewrite feedback_guard_not_doctor.
  - intros fid body. now rewrite update_feedback_run, Hr.
  - intros fid. now rewrite delete_feedback_run, Hr.
  - intros sid. now rewrite get_feedback_for_submission_run, Hr.
  - intros fb. now apply feedback_guard_not_doctor.
Qed.

Lemma feedback_routes_doctor_only_witness :
  Feedback.upsert_feedback env0
    (Feedback.mkFeedbackIn 1 (Some (py "fine")) None) admin1
    (w_reviewed "Accepted")
  = (Raise doctor_role_required, w_reviewed "Accepted")
  /\ Feedback.delete_feedback env0 1 admin1 (w_reviewed "Accepted")
     = (Raise doctor_role_required, w_reviewed "Accepted").
Proof.
  destruct (feedback_routes_doctor_only env0 admin1 (w_reviewed "Accepted")
              eq_refl) as (Hu & _ & Hd & _).
  split; [apply (Hu (Feedback.mkFeedbackIn 1 (Some (py "fine")) None))
         |apply Hd].
Defined.

Lemma feedback_guard_foreign fb user :
  eqb (role_of user) (py "doctor") = true ->
  doctor_id fb <> 0 ->
  doctor_id fb <> id user ->
  feedback_guard (Some fb) user = Some not_the_author.
Proof.
  intros Hr H0 Hu. unfold feedback_guard. rewrite Hr. cbn [negb].
  apply Z.eqb_neq in H0, Hu. now rewrite H0, Hu.
Qed.

(** X14.  Through the feedback routes a doctor cannot change or delete
    feedback that names another doctor: the upsert, the update and the
    delete answer 403 and leave the world exactly as before. *)
Theorem foreign_feedback_protected env user w fb sub :
  eqb (role_of user) (py "doctor") = true ->
  doctor_id fb <> 0 ->
  doctor_id fb <> id user ->
  get_submission (db w) (fb_submission_id fb) = Some sub ->
  (forall body,
     Feedback.in_submission_id body = fb_submission_id fb ->
     get_feedback (db w) (fb_submission_id fb) = Some fb ->
     Feedback.upsert_feedback env body user w = (Raise not_the_author, w))
  /\ (forall fid body,
        Feedback.get_feedback_by_id (db w) fid = Some fb ->
        Feedback.update_feedback env fid body user w
        = (Raise not_the_author, w))
  /\ (forall fid,
        Feedback.get_feedback_by_id (db w) fid = Some fb ->
        Feedback.delete_feedback env fid user w
        = (Raise not_the_author, w)).
Proof.
  intros Hr H0 Hu Hs.
  pose proof (feedback_guard_foreign fb user Hr H0 Hu) as G.
  repeat split.
  - intros body E F. rewrite upsert_feedback_run, E, Hs, F, G. reflexivity.
  - intros fid body F.
    rewrite update_feedback_run, Hr, F, Hs, G. reflexivity.
  - intros fid F. rewrite delete_feedback_run, Hr, F, Hs, G. reflexivity.
Qed.

Lemma foreign_feedback_protected_witness :
  Feedback.upsert_feedback env0
    (Feedback.mkFeedbackIn 1 (Some (py "mine now")) None)
    (mkUser 4 (Some (py "doctor"))) (w_reviewed "Accepted")
  = (Raise not_the_author, w_reviewed "Accepted")
  /\ Feedback.delete_feedback env0 1 (mkUser 4 (Some (py "doctor")))
       (w_reviewed "Accepted")
     = (Raise not_the_author, w_reviewed "Accepted").
Proof.
  assert (doctor_id fb_row <> 0) as H0 by (simpl; lia).
  assert (doctor_id fb_row <> id (mkUser 4 (Some (py "doctor")))) as H1
    by (simpl; lia).
  destruct (foreign_feedback_protected env0 (mkUser 4 (Some (py "doctor")))
              (w_reviewed "Accepted") fb_row
              (sub_row "Accepted" "/uploads/aaaa_old.pdf")
              eq_refl H0 H1 eq_refl) as (Hu & _ & Hd).
  split.
  - apply (Hu (Feedback.mkFeedbackIn 1 (Some (py "mine now")) None));
      reflexivity.
  - apply Hd. reflexivity.
Defined.

Lemma get_feedback_upserted env d body user :
  get_feedback (upserted env d body user) (Feedback.in_submission_id body)
  = Some (upserted_feedback env d body user).
Proof.
  unfold upserted, upserted_feedback, get_feedback at 1.
  cbn [SubmissionFeedback_table].
  destruct (get_feedback d (Feedback.in_submission_id body)) as [fb0|] eqn:F.
  - pose proof (upsert_row_ids body user fb0) as (Hid & Hsid & _).
    apply find_feedback_In in F as F'. destruct F' as [E _].
    apply (find_replace_feedback _ fb0); auto. congruence.
  - rewrite find_app. unfold get_feedback in F. rewrite F.
    simpl. now rewrite Z.eqb_refl.
Qed.

Lemma feedback_guard_None_doctor fb user :
  feedback_guard fb user = None -> eqb (role_of user) (py "doctor") = true.
Proof.
  unfold feedback_guard.
  destruct (eqb (role_of user) (py "doctor")); [done|discriminate].
Qed.

(** X15.  What an upsert answers is what the read route answers
    afterwards: after a successful upsert the feedback of the submission,
    read back by the same doctor, is the feedback the upsert returned, it
    names the submission, and it carries the text and the grade of the
    body where the body gives them. *)
Theorem upsert_then_read env body user w ok fr w1 :
  Feedback.upsert_feedback env body user w = (Return (ok, fr), w1) ->
  ok = true
  /\ Feedback.get_feedback_for_submission (Feedback.in_submission_id body)
       user w1
     = (Return fr, w1)
  /\ Feedback.submissionId fr = Feedback.in_submission_id body
  /\ (forall t, Feedback.in_text body = Some t ->
                Feedback.fr_text fr = Some t)
  /\ (forall g, Feedback.in_grade body = Some g ->
                Feedback.fr_grade fr = Some g).
Proof.
  rewrite upsert_feedback_run.
  destruct (get_submission (db w) _) as [sub|] eqn:S; [|discriminate].
  destruct (feedback_guard _ user) eqn:G; [discriminate|].
  apply feedback_guard_None_doctor in G.
  destruct (db_fault env) as [[|]|]; try discriminate.
  intros H. inversion H; subst. split; [reflexivity|].
  split.
  { rewrite get_feedback_for_submission_run, G. cbn [negb db committed].
    rewrite get_feedback_upserted.
    unfold upserted at 1. unfold get_submission in *.
    cbn [Submission_table]. rewrite S. reflexivity. }
  unfold upserted_feedback, Feedback._to_read.
  cbn [Feedback.submissionId Feedback.fr_text Feedback.fr_grade].
  destruct (get_feedback (db w) _) as [fb0|] eqn:F.
  - apply find_feedback_In in F as [E _].
    split. { now rewrite (proj1 (proj2 (upsert_row_ids body user fb0))). }
    unfold Feedback.upsert_row, Feedback._has_attr.
    rewrite feedback_has_doctor_id. cbn [andb].
    split.
    + intros t ->. destruct (Feedback.in_grade body);
        match goal with
        | |- context [if ?c then _ else _] => destruct c
        end; reflexivity.
    + intros g ->.
      match goal with
      | |- context [if ?c then _ else _] => destruct c
      end; reflexivity.
  - cbn [fb_submission_id feedback_text grade]. auto.
Qed.

Lemma upsert_then_read_witness :
  Feedback.get_feedback_for_submission 1 doctor3
    (snd (Feedback.upsert_feedback env0
            (Feedback.mkFeedbackIn 1 (Some (py "fine")) None) doctor3
            (w_sub "Pending")))
  = (Return (Feedback._to_read
               (mkSubmissionFeedback 1 1 3 (Some (py "fine")) None 500)),
     snd (Feedback.upsert_feedback env0
            (Feedback.mkFeedbackIn 1 (Some (py "fine")) None) doctor3
            (w_sub "Pending"))).
Proof.
  apply (upsert_then_read env0
           (Feedback.mkFeedbackIn 1 (Some (py "fine")) None) doctor3
           (w_sub "Pending") true).
  vm_compute. reflexivity.
Defined.

(** X16.  An update of feedback that gives neither a text nor a grade
    writes nothing: whatever the caller and the state of the database,
    the world is exactly as before, no commit is attempted, and when the
    guards pass the answer is the stored row as it is. *)
Theorem empty_update_writes_nothing env fid body user w :
  Feedback.up_text body = None ->
  Feedback.up_grade body = None ->
  (forall r w', Feedback.update_feedback env fid body user w = (r, w') ->
                w' = w)
  /\ (forall fb sub,
        eqb (role_of user) (py "doctor") = true ->
        Feedback.get_feedback_by_id (db w) fid = Some fb ->
        get_submission (db w) (fb_submission_id fb) = Some sub ->
        feedback_guard (Some fb) user = None ->
        Feedback.update_feedback env fid body user w
        = (Return (Feedback._to_read fb), w)).
Proof.
  intros Ht Hg.
  assert (negb (bool_decide (Feedback.up_text body <> None)
                || bool_decide (Feedback.up_grade body <> None)) = true)
    as Hn.
  { rewrite Ht, Hg.
    rewrite !bool_decide_eq_false_2 by (intros F; now apply F).
    reflexivity. }
  split.
  - intros r w'. rewrite update_feedback_run, Hn.
    destruct (negb (eqb _ _)); [intros H; now inversion H|].
    destruct (Feedback.get_feedback_by_id _ _); [|intros H; now inversion H].
    destruct (get_submission _ _); [|intros H; now inversion H].
    destruct (feedback_guard _ _); intros H; now inversion H.
  - intros fb sub Hr F S G.
    rewrite update_feedback_run, Hr, F, S, G, Hn. reflexivity.
Qed.

Lemma empty_update_writes_nothing_witness :
  Feedback.update_feedback env_down 1 (Feedback.mkFeedbackUpdate None None)
    doctor3 (w_reviewed "Accepted")
  = (Return (Feedback._to_read fb_row), w_reviewed "Accepted").
Proof.
  apply (empty_update_writes_nothing env_down 1
           (Feedback.mkFeedbackUpdate None None) doctor3
           (w_reviewed "Accepted") eq_refl eq_refl)
    with (sub := sub_row "Accepted" "/uploads/aaaa_old.pdf");
    reflexivity.
Defined.

(** X17.  Deleting the feedback of a submission is what makes the
    submission deletable: with at most one feedback row per submission,
    once the doctor's delete of the feedback row has succeeded no feedback
    row refers to the submission, and an admin's delete of the submission,
    which was refused while the feedback existed, goes through. *)
Theorem feedback_delete_unlocks_submission
    cfg env env' fid user admin delete_file w w1 fb sub :
  feedback_keys_unique (db w) ->
  Feedback.get_feedback_by_id (db w) fid = Some fb ->
  get_submission (db w) (fb_submission_id fb) = Some sub ->
  Feedback.delete_feedback env fid user w = (Return tt, w1) ->
  role_of admin = py "admin" ->
  db_fault env' = None ->
  Submissions.delete_submission cfg env' (fb_submission_id fb) delete_file
    admin w
  = (Raise (mkHTTPException 500 (py "Failed to delete submission")),
     rolled_back w)
  /\ has_feedback (db w1) sub = false
  /\ exists w2,
       Submissions.delete_submission cfg env' (fb_submission_id fb)
         delete_file admin w1
       = (Return tt, w2)
       /\ get_submission (db w2) (fb_submission_id fb) = None
       /\ SubmissionFeedback_table (db w2)
          = List.filter (fun f => negb (feedback_id f =? fid))
              (SubmissionFeedback_table (db w)).
Proof.
  intros [Hk Hs] F S Hdel Hadmin Hfault.
  pose proof (get_feedback_by_id_In _ _ _ F) as [Hfid Hin].
  pose proof (get_submission_id _ _ _ S) as Hsid.
  assert (has_feedback (db w) sub = true) as Hhas.
  { unfold has_feedback. apply List.existsb_exists. exists fb.
    split; [done|]. rewrite Hsid. apply Z.eqb_refl. }
  assert (db w1 = Feedback.without_feedback (db w) fid
          /\ files w1 = files w) as [Hdb Hfiles].
  { rewrite delete_feedback_run in Hdel.
    destruct (negb (eqb _ _)); [discriminate|].
    rewrite F, S in Hdel.
    destruct (feedback_guard _ _); [discriminate|].
    destruct (db_fault env); [discriminate|].
    inversion Hdel. auto. }
  assert (has_feedback (db w1) sub = false) as Hnone.
  { rewrite Hdb. unfold has_feedback, Feedback.without_feedback.
    cbn [SubmissionFeedback_table].
    apply not_true_is_false. intros H.
    apply List.existsb_exists in H as (f & Hf & E).
    apply List.filter_In in Hf as [Hf Hne].
    apply Z.eqb_eq in E. apply negb_true_iff, Z.eqb_neq in Hne.
    apply Hne. rewrite <- Hfid.
    f_equal. apply (NoDup_map_inj_on fb_submission_id _ f fb Hs); auto.
    congruence. }
  split; [|split; [exact Hnone|]].
  - rewrite admin_delete_submission_run, Hadmin.
    change (eqb (py "admin") (py "admin")) with true. cbn [negb].
    rewrite S, Hhas, orb_true_r. reflexivity.
  - eexists. rewrite admin_delete_submission_run, Hadmin.
    change (eqb (py "admin") (py "admin")) with true. cbn [negb].
    assert (get_submission (db w1) (fb_submission_id fb) = Some sub) as S1.
    { rewrite Hdb. exact S. }
    rewrite S1, Hfault, Hnone.
    rewrite bool_decide_eq_false_2 by (intros E; now apply E).
    cbn [orb]. cbv zeta. split; [reflexivity|].
    destruct (delete_file && truthy (file_path sub) && _);
      cbn [db unlinked committed without_submission Submission_table
             SubmissionFeedback_table];
      (split; [rewrite <- Hsid; apply get_submission_deleted
              |now rewrite Hdb]).
Qed.

Lemma feedback_delete_unlocks_submission_witness :
  has_feedback
    (db (snd (Feedback.delete_feedback env0 1 doctor3
                (w_reviewed "Accepted"))))
    (sub_row "Accepted" "/uploads/aaaa_old.pdf") = false
  /\ exists w2,
       Submissions.delete_submission cfg0 Scenario.env1 1 true admin1
         (snd (Feedback.delete_feedback env0 1 doctor3
                 (w_reviewed "Accepted")))
       = (Return tt, w2)
       /\ get_submission (db w2) 1 = None
       /\ SubmissionFeedback_table (db w2) = [].
Proof.
  assert (feedback_keys_unique (db (w_reviewed "Accepted"))) as Hk.
  { split; (apply NoDup_cons_2; [apply not_elem_of_nil|apply NoDup_nil_2]). }
  assert (Feedback.delete_feedback env0 1 doctor3 (w_reviewed "Accepted")
          = (Return tt,
             snd (Feedback.delete_feedback env0 1 doctor3
                    (w_reviewed "Accepted")))) as Hd.
  { vm_compute. reflexivity. }
  destruct (feedback_delete_unlocks_submission cfg0 env0 Scenario.env1 1
              doctor3 admin1 true (w_reviewed "Accepted") _ fb_row
              (sub_row "Accepted" "/uploads/aaaa_old.pdf")
              Hk eq_refl eq_refl Hd eq_refl eq_refl)
    as (_ & Hn & w2 & H2 & Hg & Hf).
  split; [exact Hn|]. exists w2. auto.
Defined.

(** ** The statistics routes *)

Lemma fill_lookup (f : str -> Z) (l : list str) :
  forall (m : gmap str Z) (s : str),
    Stats.fill f l m !! s
    = if bool_decide (s ∈ l) then Some (f s) else m !! s.
Proof.
  unfold Stats.fill.
  induction l as [|x l IH]; intros m s; cbn [foldl].
  - rewrite bool_decide_eq_false_2 by apply not_elem_of_nil. reflexivity.
  - rewrite IH. destruct (decide (s ∈ l)) as [Hin|Hin].
    + rewrite !bool_decide_eq_true_2; [reflexivity|now right|done].
    + rewrite (bool_decide_eq_false_2 (s ∈ l)) by done.
      destruct (decide (s = x)) as [->|Hne].
      * rewrite bool_decide_eq_true_2 by left.
        apply lookup_insert_eq.
      * rewrite bool_decide_eq_false_2.
        -- now apply lookup_insert_ne.
        -- intros H. apply elem_of_cons in H as [?|?]; done.
Qed.

Lemma zero_counts_lookup (l : list str) (s : str) :
  s ∈ l -> Stats.zero_counts l !! s = Some 0.
Proof.
  unfold Stats.zero_counts. induction l as [|x l IH]; intros H.
  - now apply not_elem_of_nil in H.
  - cbn [List.map]. rewrite list_to_map_cons.
    destruct (decide (s = x)) as [->|Hne].
    + apply lookup_insert_eq.
    + rewrite lookup_insert_ne by done. apply IH.
      apply elem_of_cons in H as [?|?]; done.
Qed.

Lemma sum_over_ext (g h : str -> Z) (l : list str) :
  (forall s, s ∈ l -> g s = h s) -> sum_over g l = sum_over h l.
Proof.
  unfold sum_over. induction l as [|x l IH]; intros H; [reflexivity|].
  cbn [foldr]. rewrite H by left. rewrite IH; [reflexivity|].
  intros s Hs. apply H. now right.
Qed.

Lemma sum_over_zero (l : list str) : sum_over (fun _ => 0) l = 0.
Proof.
  unfold sum_over. induction l as [|x l IH]; [reflexivity|].
  cbn [foldr]. now rewrite IH.
Qed.

Lemma sum_over_plus (g h : str -> Z) (l : list str) :
  sum_over (fun s => g s + h s) l = sum_over g l + sum_over h l.
Proof.
  unfold sum_over. induction l as [|x l IH]; [reflexivity|].
  cbn [foldr]. rewrite IH. lia.
Qed.

(** One row counts for its status, once. *)
Lemma sum_over_indicator (a : str) (l : list str) :
  NoDup l ->
  sum_over (fun s => if eqb a s then 1 else 0) l
  = if mem a l then 1 else 0.
Proof.
  unfold sum_over, mem, eqb.
  induction l as [|x l IH]; intros Hnd.
  - cbn [foldr]. rewrite bool_decide_eq_false_2 by apply not_elem_of_nil.
    reflexivity.
  - apply NoDup_cons in Hnd as [Hx Hnd]. cbn [foldr]. rewrite IH by done.
    destruct (decide (a = x)) as [->|Hne].
    + rewrite bool_decide_eq_true_2 by done.
      rewrite (bool_decide_eq_false_2 (x ∈ l)) by done.
      rewrite bool_decide_eq_true_2 by left. reflexivity.
    + rewrite bool_decide_eq_false_2 by done.
      destruct (decide (a ∈ l)) as [Hin|Hin].
      * rewrite !bool_decide_eq_true_2; [reflexivity|now right|done].
      * rewrite !bool_decide_eq_false_2; [reflexivity| |done].
        intros H. apply elem_of_cons in H as [?|?]; done.
Qed.

(** The counts by status add up to the number of rows whose status is
    one of the statuses counted. *)
Lemma sum_status_counts (l : list str) (rows : list Submission) :
  NoDup l ->
  sum_over (fun s => Stats.count (Stats.with_status s rows)) l
  = Stats.count (List.filter (fun r => mem (status r) l) rows).
Proof.
  intros Hnd. unfold Stats.count, Stats.with_status.
  induction rows as [|r rows IH].
  - cbn [List.filter length]. apply sum_over_zero.
  - rewrite (sum_over_ext _
               (fun s => (if eqb (status r) s then 1 else 0)
                         + Z.of_nat
                             (length
                                (List.filter
                                   (fun r0 => eqb (status r0) s) rows)))).
    + rewrite sum_over_plus, IH, sum_over_indicator by done.
      cbn [List.filter]. destruct (mem (status r) l); cbn [length]; lia.
    + intros s _. cbn [List.filter].
      destruct (eqb (status r) s); cbn [length]; lia.
Qed.

Lemma filter_all {A} (p : A -> bool) (l : list A) :
  Forall (fun x => p x = true) l -> List.filter p l = l.
Proof.
  intros H. apply List.forallb_filter_id. apply List.forallb_forall.
  rewrite List.Forall_forall in H. exact H.
Qed.

Lemma valid_statuses_NoDup : NoDup Submissions.VALID_STATUSES.
Proof.
  apply (bool_decide_unpack _). vm_compute. exact I.
Qed.

Lemma statuses_valid_filter (d : DB) (p : Submission -> bool) :
  statuses_valid d ->
  Forall (fun r => mem (status r) Submissions.VALID_STATUSES = true)
    (List.filter p (Submission_table d)).
Proof.
  unfold statuses_valid. rewrite !List.Forall_forall. intros H r Hr.
  apply List.filter_In in Hr as [Hr _]. auto.
Qed.

(** The counts of the filled dictionary. *)
Lemma counted_filled (rows : list Submission) (n t : Z) :
  counted
    (Stats.mkStatsResponse n
       (Stats.fill (fun s => Stats.count (Stats.with_status s rows))
          Submissions.VALID_STATUSES
          (Stats.zero_counts Submissions.VALID_STATUSES)) t)
  = Stats.count
      (List.filter (fun r => mem (status r) Submissions.VALID_STATUSES)
         rows).
Proof.
  unfold counted. cbn [Stats.by_status].
  rewrite <- sum_status_counts by apply valid_statuses_NoDup.
  apply sum_over_ext. intros s Hs.
  rewrite fill_lookup, bool_decide_eq_true_2 by done. reflexivity.
Qed.

Lemma counted_zero (n t : Z) :
  counted
    (Stats.mkStatsResponse n (Stats.zero_counts Submissions.VALID_STATUSES)
       t)
  = 0.
Proof.
  unfold counted. cbn [Stats.by_status].
  rewrite <- (sum_over_zero Submissions.VALID_STATUSES).
  apply sum_over_ext. intros s Hs. now rewrite zero_counts_lookup.
Qed.

Lemma count_filter_le (p : Submission -> bool) (rows : list Submission) :
  Stats.count (List.filter p rows) <= Stats.count rows.
Proof.
  unfold Stats.count. apply Nat2Z.inj_le.
  induction rows as [|r rows IH]; [done|]. cbn [List.filter].
  destruct (p r); cbn [length]; lia.
Qed.

Lemma my_submission_stats_run env user w :
  Stats.my_submission_stats env user w
  = if negb (mem (role_of user) [py "student"])
    then (Raise student_role_required, w)
    else
      (Return
         (Stats.mkStatsResponse
            (Stats.count (submissions_of (db w) user))
            (if negb (Stats.count (submissions_of (db w) user) =? 0)
             then Stats.fill
                    (fun s => Stats.count
                                (Stats.with_status s
                                   (submissions_of (db w) user)))
                    Students.VALID_STATUSES
                    (Stats.zero_counts Students.VALID_STATUSES)
             else Stats.zero_counts Students.VALID_STATUSES)
            (now env)), w).
Proof.
  unfold Stats.my_submission_stats, Students._require_student, role_of.
  unfold bind at 1.
  destruct (negb (mem _ [py "student"])); reflexivity.
Qed.

Lemma submissions_stats_run env mine_only user w :
  Stats.submissions_stats env mine_only user w
  = if negb (mem (role_of user) [py "admin"; py "doctor"])
    then (Raise (mkHTTPException 403 (py "Admin or doctor role required")),
          w)
    else
      (Return
         (Stats.mkStatsResponse
            (Stats.count (Submission_table (db w)))
            (Stats.fill
               (fun s => Stats.count
                           (Stats.with_status s (Submission_table (db w))))
               Submissions.VALID_STATUSES
               (Stats.zero_counts Submissions.VALID_STATUSES))
            (now env)), w).
Proof.
  unfold Stats.submissions_stats, Submissions._require_admin_or_doctor,
    role_of.
  unfold bind at 1.
  destruct (negb (mem _ [py "admin"; py "doctor"])); [reflexivity|].
  unfold ret at 1. unfold bind, get_db, ret.
  replace (Submissions._has_attr Submission_attrs (py "doctor_id"))
    with false by (vm_compute; reflexivity).
  replace (Submissions._has_attr Submission_attrs (py "assigned_doctor_id"))
    with false by (vm_compute; reflexivity).
  replace (Submissions._has_attr Submission_attrs (py "reviewer_id"))
    with false by (vm_compute; reflexivity).
  destruct (Submissions._is_doctor user); reflexivity.
Qed.

Lemma Return_pair_inv {A} (a b : A) (w w' : World) :
  (Return a, w) = (Return b, w') -> a = b /\ w = w'.
Proof. intros H. now inversion H. Qed.

(** X18.  The statistics add up.  The student's own statistics count the
    student's submissions, and the summary for admins and doctors counts
    every submission, for a doctor too, whatever [mine_only] is.  The
    counts by status never exceed the total, and when every stored status
    is one of the four statuses they add up to it.  Both routes leave the
    world as it is. *)
Theorem statistics_add_up env w :
  (forall user r w',
     Stats.my_submission_stats env user w = (Return r, w') ->
     w' = w
     /\ Stats.total r = Stats.count (submissions_of (db w) user)
     /\ counted r <= Stats.total r
     /\ (statuses_valid (db w) -> counted r = Stats.total r))
  /\ (forall mine_only user r w',
        Stats.submissions_stats env mine_only user w = (Return r, w') ->
        w' = w
        /\ Stats.total r = Stats.count (Submission_table (db w))
        /\ counted r <= Stats.total r
        /\ (statuses_valid (db w) -> counted r = Stats.total r)).
Proof.
  split.
  - intros user r w'. rewrite my_submission_stats_run.
    destruct (negb (mem _ _)); [discriminate|].
    intros H. apply Return_pair_inv in H as [<- <-].
    split; [reflexivity|]. split; [reflexivity|].
    change Students.VALID_STATUSES with Submissions.VALID_STATUSES.
    destruct (Stats.count (submissions_of (db w) user) =? 0) eqn:E.
    + apply Z.eqb_eq in E.
      change (negb true) with false. cbv iota.
      rewrite counted_zero.
      change (Stats.total (Stats.mkStatsResponse ?a ?b ?c)) with a.
      rewrite E. split; [lia|reflexivity].
    + change (negb false) with true. cbv iota.
      rewrite counted_filled.
      split; [apply count_filter_le|].
      intros Hv. unfold Stats.total. rewrite filter_all; [reflexivity|].
      now apply statuses_valid_filter.
  - intros mine_only user r w'. rewrite submissions_stats_run.
    destruct (negb (mem _ _)); [discriminate|].
    intros H. apply Return_pair_inv in H as [<- <-].
    split; [reflexivity|]. split; [reflexivity|].
    rewrite counted_filled.
    split; [apply count_filter_le|].
    intros Hv. unfold Stats.total. now rewrite filter_all.
Qed.

Lemma statistics_add_up_witness :
  counted
    (Stats.mkStatsResponse 1
       (Stats.fill
          (fun s => Stats.count
                      (Stats.with_status s
                         (Submission_table (db (w_reviewed "Accepted")))))
          Submissions.VALID_STATUSES
          (Stats.zero_counts Submissions.VALID_STATUSES)) 500)
  = 1.
Proof.
  destruct (statistics_add_up env0 (w_reviewed "Accepted")) as [_ H].
  destruct (H true doctor3
              (Stats.mkStatsResponse 1
                 (Stats.fill
                    (fun s => Stats.count
                                (Stats.with_status s
                                   (Submission_table
                                      (db (w_reviewed "Accepted")))))
                    Submissions.VALID_STATUSES
                    (Stats.zero_counts Submissions.VALID_STATUSES)) 500)
              (w_reviewed "Accepted")) as (_ & _ & _ & Hsum).
  - rewrite submissions_stats_run. reflexivity.
  - apply Hsum.
    apply List.Forall_cons; [vm_compute; reflexivity|apply List.Forall_nil].
Defined.

(** ** Guards *)

Ltac run_cases :=
  repeat match goal with
         | |- context [if ?c then _ else _] => destruct c
         | |- context [match get_submission ?d ?s with _ => _ end] =>
             destruct (get_submission d s)
         | |- context [match get_feedback ?d ?s with _ => _ end] =>
             destruct (get_feedback d s)
         | |- context [match get_assignment ?d ?s with _ => _ end] =>
             destruct (get_assignment d s)
         | |- context [match Feedback.get_feedback_by_id ?d ?s with _ => _ end]
           => destruct (Feedback.get_feedback_by_id d s)
         | |- context [match feedback_guard ?f ?u with _ => _ end] =>
             destruct (feedback_guard f u)
         | |- context [match db_fault ?e with _ => _ end] =>
             destruct (db_fault e) as [[|]|]
         | |- context [match flush ?n ?d ?p with _ => _ end] =>
             destruct (flush n d p) as [[|]|]
         end.

Lemma feedback_guard_cases fb user e :
  feedback_guard fb user = Some e ->
  e = doctor_role_required \/ e = not_the_author.
Proof.
  unfold feedback_guard.
  destruct (negb _); [intros H; inversion H; auto|].
  destruct fb as [fb0|]; [|discriminate].
  destruct (_ && _); [intros H; inversion H; auto|discriminate].
Qed.

Lemma not_assigned_code e : not_assigned e -> status_code e = 403.
Proof. intros [->|[->|[->| ->]]]; reflexivity. Qed.

Lemma bind_ret_Raise {A B} (m : M A) (f : A -> B) w e w' :
  (x <- m ;; ret (f x)) w = (Raise e, w') -> m w = (Raise e, w').
Proof.
  unfold bind, ret. destruct (m w) as [[a|e'] w1]; intros H; now inversion H.
Qed.

Lemma save_stream_raises cfg file dest w e w1 :
  Students._save_stream_to_disk cfg file dest w = (Raise e, w1) ->
  e = too_large cfg.
Proof.
  intros H. destruct (save_stream_total cfg file dest w)
    as [(n & w2 & Hs)|(w2 & Hs)]; rewrite Hs in H; now inversion H.
Qed.

(** A leaf of a decision tree: a normal return, or an exception that is
    none of the refusals for an unassigned doctor. *)
Ltac other_refusal :=
  let H := fresh "H" in
  let E := fresh "E" in
  intros H E;
  first
    [ discriminate H
    | inversion H; subst; clear H;
      destruct E as [E|[E|[E|E]]];
      first
        [ discriminate E
        | apply (f_equal status_code) in E; vm_compute in E; discriminate E
        | vm_compute in E; discriminate E ] ].

(** X19.  With the tables as [app/models.py] declares them no submission
    is tied to a doctor, so the restriction of a doctor to "their"
    submissions never applies: every doctor counts as assigned to every
    submission in the three routers, the list filter for doctors is empty,
    a doctor's summary counts every submission, and no review, status
    update or feedback request is ever refused because the submission
    belongs to another doctor. *)
Theorem no_doctor_restriction :
  Stats._doctor_filter_sql = ([], [])
  /\ (forall d sub doc,
        Submissions._submission_is_assigned_to_doctor d sub doc = true
        /\ Doctor._submission_is_assigned_to_doctor d sub doc = true
        /\ Feedback._submission_is_assigned_to_doctor d sub doc = true)
  /\ (forall cfg env req user w e w',
        Site.serve cfg env req user w = (Raise e, w') ->
        ~ not_assigned e).
Proof.
  split; [vm_compute; reflexivity|]. split.
  { intros d sub doc.
    split; [apply submissions_assigned_always|].
    split; [apply doctor_assigned_always|apply feedback_assigned_always]. }
  intros cfg env req user w e w' H.
  destruct req as [[]| | | | | |]; cbn [Site.serve handle] in H;
    apply bind_ret_Raise in H; try apply bind_ret_Raise in H; revert H.
  - rewrite create_submission_run. unfold create_guard.
    destruct (Students._save_stream_to_disk cfg file _ w)
      as [[n|e1] w1] eqn:Sv;
      [|apply save_stream_raises in Sv; subst e1];
      run_cases; other_refusal.
  - rewrite update_submission_notes_run. unfold student_edit_guard.
    run_cases; other_refusal.
  - rewrite replace_submission_file_run. unfold student_edit_guard.
    destruct (Students._save_stream_to_disk cfg file _ w)
      as [[n|e1] w1] eqn:Sv;
      [|apply save_stream_raises in Sv; subst e1];
      run_cases; other_refusal.
  - rewrite student_delete_submission_run. unfold student_edit_guard.
    run_cases; other_refusal.
  - rewrite update_submission_status_run. run_cases; other_refusal.
  - rewrite admin_delete_submission_run. run_cases; cbv zeta; other_refusal.
  - rewrite review_submission_run. run_cases; other_refusal.
  - rewrite upsert_feedback_run. unfold feedback_guard.
    run_cases; other_refusal.
  - rewrite update_feedback_run. unfold feedback_guard.
    run_cases; other_refusal.
  - rewrite delete_feedback_run. unfold feedback_guard.
    run_cases; other_refusal.
  - rewrite get_feedback_for_submission_run. run_cases; other_refusal.
  - rewrite my_submission_stats_run. run_cases; other_refusal.
  - rewrite submissions_stats_run. run_cases; other_refusal.
Qed.

Lemma no_doctor_restriction_witness :
  Doctor._submission_is_assigned_to_doctor (db (w_sub "Pending"))
    (sub_row "Pending" "/uploads/aaaa_old.pdf") 4 = true
  /\ ~ not_assigned submission_not_found.
Proof.
  destruct no_doctor_restriction as (_ & Ha & Hn).
  split; [apply Ha|].
  apply (Hn cfg0 env0
           (Site.Core
              (POST_doctor_review 9
                 (Doctor.mkReviewPayload (py "Rejected") None None)))
           doctor3 (w_sub "Pending") _ (w_sub "Pending")).
  vm_compute. reflexivity.
Defined.

Ltac refused_unchanged :=
  let H := fresh "H" in
  intros H; inversion H; subst; clear H;
  split; [reflexivity|]; eexists; split; [reflexivity|];
  vm_compute; auto.

(** X20.  A request that names a submission which is not stored changes
    nothing: the edits and deletes by a student, the admin's delete, the
    status update, the doctor's review, the feedback upsert and the
    feedback read all answer with an error (404, or the 403 or 400 of an
    earlier guard) and leave tables, files and trace exactly as they
    were. *)
Theorem missing_submission_changes_nothing
    cfg env req user w sid res w' :
  target_submission req = Some sid ->
  get_submission (db w) sid = None ->
  Site.serve cfg env req user w = (res, w') ->
  w' = w
  /\ exists e, res = Raise e
               /\ (status_code e = 404 \/ status_code e = 403
                   \/ status_code e = 400).
Proof.
  intros Ht Hnone H.
  destruct req as [[]| | | | | |]; try discriminate;
    cbn [target_submission] in Ht; inversion Ht; subst; clear Ht;
    cbn [Site.serve handle] in H;
    apply bind_ret_inv in H as (r & H & ->);
    try (apply bind_ret_inv in H as (r' & H & ->)); revert H.
  - rewrite update_submission_notes_run. unfold student_edit_guard.
    rewrite Hnone. run_cases; refused_unchanged.
  - rewrite replace_submission_file_run. unfold student_edit_guard.
    rewrite Hnone. run_cases; refused_unchanged.
  - rewrite student_delete_submission_run. unfold student_edit_guard.
    rewrite Hnone. run_cases; refused_unchanged.
  - rewrite update_submission_status_run, Hnone.
    run_cases; refused_unchanged.
  - rewrite admin_delete_submission_run, Hnone.
    run_cases; refused_unchanged.
  - rewrite review_submission_run, Hnone. run_cases; refused_unchanged.
  - rewrite upsert_feedback_run, Hnone. refused_unchanged.
  - rewrite get_feedback_for_submission_run, Hnone.
    run_cases; refused_unchanged.
Qed.

Lemma missing_submission_changes_nothing_witness :
  snd (Site.serve cfg0 env0 (Site.Core (DELETE_submission 9 true)) admin1
         (w_sub "Pending"))
  = w_sub "Pending".
Proof.
  apply (missing_submission_changes_nothing cfg0 env0
           (Site.Core (DELETE_submission 9 true)) admin1 (w_sub "Pending") 9
           (fst (Site.serve cfg0 env0 (Site.Core (DELETE_submission 9 true))
                   admin1 (w_sub "Pending")))); reflexivity.
Defined.

Lemma student_edit_guard_foreign w sid allow user sub :
  get_submission (db w) sid = Some sub ->
  student_id sub <> id user ->
  exists e, student_edit_guard w sid allow user = inl e
            /\ status_code e = 403.
Proof.
  intros Hs Hne. unfold student_edit_guard. rewrite Hs.
  apply Z.eqb_neq in Hne. rewrite Hne. cbn [negb].
  destruct (negb (mem _ _)); eexists; split; reflexivity.
Qed.

(** X21.  Nobody edits a submission of somebody else through the student
    routes: whatever the caller's role, a request to change the notes,
    replace the file or delete a submission whose [student_id] is not the
    caller's id is answered with 403 and leaves tables, files and trace
    exactly as they were, whatever the status of the submission. *)
Theorem foreign_submission_untouched cfg env req user w sid sub res w' :
  student_edit req = Some sid ->
  get_submission (db w) sid = Some sub ->
  student_id sub <> id user ->
  handle cfg env req user w = (res, w') ->
  w' = w /\ exists e, res = Raise e /\ status_code e = 403.
Proof.
  intros Ht Hs Hne H.
  destruct req; try discriminate;
    cbn [student_edit] in Ht; inversion Ht; subst; clear Ht;
    cbn [handle] in H; apply bind_ret_inv in H as (r & H & ->); revert H.
  - rewrite update_submission_notes_run.
    destruct (student_edit_guard_foreign w sid true user sub Hs Hne)
      as (e & -> & He).
    intros H; inversion H; subst. eauto.
  - rewrite replace_submission_file_run.
    destruct (student_edit_guard_foreign w sid true user sub Hs Hne)
      as (e & -> & He).
    intros H; inversion H; subst. eauto.
  - rewrite student_delete_submission_run.
    destruct (student_edit_guard_foreign w sid allow_when_needs_revision
                user sub Hs Hne) as (e & -> & He).
    intros H; inversion H; subst. eauto.
Qed.

Lemma foreign_submission_untouched_witness :
  snd (handle cfg0 env0 (DELETE_student_submission 1 true)
         (mkUser 8 (Some (py "student"))) (w_sub "Pending"))
  = w_sub "Pending".
Proof.
  assert (student_id (sub_row "Pending" "/uploads/aaaa_old.pdf")
          <> id (mkUser 8 (Some (py "student")))) as Hne by (simpl; lia).
  apply (foreign_submission_untouched cfg0 env0
           (DELETE_student_submission 1 true)
           (mkUser 8 (Some (py "student"))) (w_sub "Pending") 1
           (sub_row "Pending" "/uploads/aaaa_old.pdf")
           (fst (handle cfg0 env0 (DELETE_student_submission 1 true)
                   (mkUser 8 (Some (py "student"))) (w_sub "Pending")))
           _ eq_refl eq_refl Hne).
  apply surjective_pairing.
Defined.

(** ** Roles *)

Lemma mem_single_eqb (a b : str) : mem a [b] = eqb a b.
Proof.
  unfold mem, eqb. apply bool_decide_ext. rewrite list_elem_of_singleton.
  reflexivity.
Qed.

Ltac refused_403 :=
  let H := fresh "H" in
  intros H; inversion H; subst; clear H;
  split; [reflexivity|]; eexists; split; [reflexivity|];
  left; reflexivity.

(** X22.  Every route refuses a caller whose role is not one it is written
    for, and changes nothing: the student routes admit the role student,
    the status update and the summary admit admin and doctor, the admin
    delete admits admin, the review and the feedback routes admit doctor,
    roles compared without regard to case and a missing role admitted
    nowhere.  The answer is 403, except that the feedback upsert answers
    404 when the submission it names is not stored. *)
Theorem routes_refuse_other_roles cfg env req user w res w' :
  mem (role_of user) (allowed_roles req) = false ->
  Site.serve cfg env req user w = (res, w') ->
  w' = w
  /\ exists e, res = Raise e
               /\ (status_code e = 403
                   \/ (status_code e = 404 /\ upsert_of_missing req w)).
Proof.
  intros Hr H.
  destruct req as [[]| | | | | |]; cbn [allowed_roles] in Hr;
    try rewrite mem_single_eqb in Hr;
    cbn [Site.serve handle] in H;
    apply bind_ret_inv in H as (r & H & ->);
    try (apply bind_ret_inv in H as (r' & H & ->)); revert H.
  - rewrite create_submission_run. unfold create_guard.
    rewrite <- mem_single_eqb in Hr. rewrite Hr. refused_403.
  - rewrite update_submission_notes_run. unfold student_edit_guard.
    rewrite <- mem_single_eqb in Hr. rewrite Hr. refused_403.
  - rewrite replace_submission_file_run. unfold student_edit_guard.
    rewrite <- mem_single_eqb in Hr. rewrite Hr. refused_403.
  - rewrite student_delete_submission_run. unfold student_edit_guard.
    rewrite <- mem_single_eqb in Hr. rewrite Hr. refused_403.
  - rewrite update_submission_status_run, Hr. refused_403.
  - rewrite admin_delete_submission_run, Hr. refused_403.
  - rewrite review_submission_run, Hr. refused_403.
  - rewrite upsert_feedback_run.
    destruct (get_submission (db w) _) eqn:S.
    + rewrite feedback_guard_not_doctor by done. refused_403.
    + intros H; inversion H; subst; clear H.
      split; [reflexivity|]. eexists. split; [reflexivity|].
      right. split; [reflexivity|]. eexists. eauto.
  - rewrite update_feedback_run, Hr. refused_403.
  - rewrite delete_feedback_run, Hr. refused_403.
  - rewrite get_feedback_for_submission_run, Hr. refused_403.
  - rewrite my_submission_stats_run.
    rewrite <- mem_single_eqb in Hr. rewrite Hr. refused_403.
  - rewrite submissions_stats_run, Hr. refused_403.
Qed.

Lemma routes_refuse_other_roles_witness :
  snd (Site.serve cfg0 env0
         (Site.Core
            (PATCH_submission_status 1
               (Submissions.mkStatusUpdatePayload (py "Accepted")
                  (Some Scenario.nine) None)))
         student7 (w_sub "Pending"))
  = w_sub "Pending"
  /\ snd (Site.serve cfg0 env0 (Site.Core (DELETE_submission 1 true))
            (mkUser 5 None) (w_sub "Pending"))
     = w_sub "Pending".
Proof.
  split.
  - apply (routes_refuse_other_roles cfg0 env0
             (Site.Core
                (PATCH_submission_status 1
                   (Submissions.mkStatusUpdatePayload (py "Accepted")
                      (Some Scenario.nine) None)))
             student7 (w_sub "Pending")
             (fst (Site.serve cfg0 env0
                     (Site.Core
                        (PATCH_submission_status 1
                           (Submissions.mkStatusUpdatePayload (py "Accepted")
                              (Some Scenario.nine) None)))
                     student7 (w_sub "Pending")))); reflexivity.
  - apply (routes_refuse_other_roles cfg0 env0
             (Site.Core (DELETE_submission 1 true)) (mkUser 5 None)
             (w_sub "Pending")
             (fst (Site.serve cfg0 env0 (Site.Core (DELETE_submission 1 true))
                     (mkUser 5 None) (w_sub "Pending")))); reflexivity.
Defined.

(** ** The two review routes *)

Lemma is_doctor_role user :
  Submissions._is_doctor user = eqb (role_of user) (py "doctor").
Proof. reflexivity. Qed.

(** For a doctor and a body with a text or a grade, the status update
    writes what the doctor's review writes. *)
Lemma flush_status_update_doctor env d sid body user sub :
  Submissions._is_doctor user = true ->
  (Submissions.p_grade body <> None
   \/ Submissions.p_feedback_text body <> None) ->
  flush (now env) d (status_update_changes d sid body user sub)
  = inr (reviewed env d sid
           (Doctor.mkReviewPayload (Submissions.p_status body)
              (Submissions.p_grade body) (Submissions.p_feedback_text body))
           user sub).
Proof.
  intros Hdoc Hany.
  unfold status_update_changes, Submissions.upsert_feedback.
  assert (bool_decide (Submissions.p_feedback_text body <> None)
          || bool_decide (Submissions.p_grade body <> None) = true) as ->.
  { apply orb_true_iff.
    destruct Hany as [H|H]; [right|left]; now apply bool_decide_eq_true. }
  unfold Submissions._has_attr. rewrite feedback_has_doctor_id, Hdoc.
  unfold reviewed, reviewed_feedback_table, reviewed_feedback, review_row.
  cbn [Doctor.r_status Doctor.r_grade Doctor.r_feedback_text andb].
  destruct (get_feedback d sid) as [fb0|] eqn:F.
  - cbn [flush flush1 SubmissionFeedback_table Submission_table
           Assignment_table].
    rewrite andb_true_r. reflexivity.
  - cbn [flush flush1 kw_doctor_id kw_submission_id kw_feedback_text
           kw_grade SubmissionFeedback_table Submission_table
           Assignment_table].
    unfold get_feedback in F. apply find_none_existsb in F.
    rewrite F. reflexivity.
Qed.

Lemma payload_valid_review body :
  mem (Submissions.p_status body) Doctor.REVIEWABLE_STATUSES = true ->
  payload_valid body
  = review_valid
      (Doctor.mkReviewPayload (Submissions.p_status body)
         (Submissions.p_grade body) (Submissions.p_feedback_text body)).
Proof.
  intros H. unfold payload_valid, review_valid.
  cbn [Doctor.r_status Doctor.r_grade Doctor.r_feedback_text].
  now rewrite H, (reviewable_valid _ H).
Qed.

(** X23.  The two ways a doctor reviews a submission that already has a
    feedback row store the same.  For a doctor, a status among Accepted,
    Rejected and NeedsRevision, and a body that carries a text or a grade,
    the status update of [routers/submissions.py] and the review of
    [routers/doctor.py] leave the same tables, whether they write or
    refuse.  Their answers differ: where the review returns the submission
    and the feedback row, the status update has committed the same changes
    and answers with the error 500 of its response read-back. *)
Theorem review_routes_agree env sid body user w fb0 :
  Submissions._is_doctor user = true ->
  mem (Submissions.p_status body) Doctor.REVIEWABLE_STATUSES = true ->
  (Submissions.p_grade body <> None
   \/ Submissions.p_feedback_text body <> None) ->
  get_feedback (db w) sid = Some fb0 ->
  let payload :=
    Doctor.mkReviewPayload (Submissions.p_status body)
      (Submissions.p_grade body) (Submissions.p_feedback_text body) in
  db (snd (Submissions.update_submission_status env sid body user w))
  = db (snd (Doctor.review_submission env sid payload user w))
  /\ (forall row fb w1,
        Doctor.review_submission env sid payload user w
        = (Return (row, fb), w1) ->
        Submissions.update_submission_status env sid body user w
        = (Raise update_failed, rolled_back w1)).
Proof.
  intros Hdoc Hst Hany Hfb payload.
  pose proof (payload_valid_review body Hst) as Hv.
  rewrite update_submission_status_run, review_submission_run.
  rewrite (role_doctor_reviewer user Hdoc).
  rewrite is_doctor_role in Hdoc. rewrite Hdoc.
  subst payload. cbn [Doctor.r_status Doctor.r_grade Doctor.r_feedback_text].
  rewrite Hst, (reviewable_valid _ Hst). cbn [negb].
  destruct (eqb _ (py "Accepted") && _);
    [split; [reflexivity|discriminate]|].
  destruct (eqb _ (py "NeedsRevision") && _);
    [split; [reflexivity|discriminate]|].
  destruct (get_submission (db w) sid) as [sub|] eqn:S;
    [|split; [reflexivity|discriminate]].
  destruct (db_fault env) as [[|]|];
    [split; [reflexivity|discriminate]..|].
  rewrite (flush_status_update_doctor env) by (rewrite ?is_doctor_role; auto).
  split; [reflexivity|].
  intros row fb w1 H. apply Return_pair_inv in H as [_ <-]. reflexivity.
Qed.

(** A doctor rejects, with a text, a submission another review accepted. *)
Lemma review_routes_agree_witness :
  db (snd (Submissions.update_submission_status env0 1
             (Submissions.mkStatusUpdatePayload (py "Rejected") None
                (Some (py "redo")))
             doctor3 (w_reviewed "Accepted")))
  = db (snd (Doctor.review_submission env0 1
               (Doctor.mkReviewPayload (py "Rejected") None
                  (Some (py "redo")))
               doctor3 (w_reviewed "Accepted")))
  /\ (forall row fb w1,
        Doctor.review_submission env0 1
          (Doctor.mkReviewPayload (py "Rejected") None (Some (py "redo")))
          doctor3 (w_reviewed "Accepted")
        = (Return (row, fb), w1) ->
        Submissions.update_submission_status env0 1
          (Submissions.mkStatusUpdatePayload (py "Rejected") None
             (Some (py "redo")))
          doctor3 (w_reviewed "Accepted")
        = (Raise update_failed, rolled_back w1)).
Proof.
  apply (review_routes_agree env0 1
           (Submissions.mkStatusUpdatePayload (py "Rejected") None
              (Some (py "redo")))
           doctor3 (w_reviewed "Accepted") fb_row).
  - reflexivity.
  - reflexivity.
  - right. discriminate.
  - reflexivity.
Defined.

(** ** Edits and the assignment *)

Local Opaque Students.CHUNK_SIZE.

Lemma bind_write {A} cfg p chunk (k : unit -> M A) w :
  bind (write cfg p chunk) k w
  = k tt (mkWorld (db w)
            (<[fs_key cfg p := default [] (files w !! fs_key cfg p) ++ chunk]>
               (files w))
            (trace w ++ [EvWrite (fs_key cfg p) (length chunk)])).
Proof. reflexivity. Qed.

Lemma bind_open_wb {A} cfg p (k : unit -> M A) w :
  bind (open_wb cfg p) k w
  = k tt (mkWorld (db w) (<[fs_key cfg p := []]> (files w))
            (trace w ++ [EvOpen (fs_key cfg p)])).
Proof. reflexivity. Qed.

Lemma save_loop_assignments cfg dest asg fuel :
  forall stream total w,
    Students.save_loop fuel cfg dest stream total (with_assignments asg w)
    = (fst (Students.save_loop fuel cfg dest stream total w),
       with_assignments asg
         (snd (Students.save_loop fuel cfg dest stream total w))).
Proof.
  induction fuel as [|fuel IH]; intros stream total w; [reflexivity|].
  cbn [Students.save_loop].
  destruct (take (Z.to_nat Students.CHUNK_SIZE) stream) as [|c chunk];
    [reflexivity|].
  destruct (total + Z.of_nat (length (c :: chunk))
            >? MAX_UPLOAD_MB cfg * 1024 * 1024).
  - unfold bind, unlink, HTTP, raise. cbn [files with_assignments].
    destruct (files w !! fs_key cfg dest); reflexivity.
  - rewrite !bind_write.
    exact (IH _ _
             (mkWorld (db w)
                (<[fs_key cfg dest
                   := default [] (files w !! fs_key cfg dest)
                      ++ c :: chunk]> (files w))
                (trace w ++ [EvWrite (fs_key cfg dest)
                               (length (c :: chunk))]))).
Qed.

Lemma save_stream_assignments cfg file dest asg w :
  Students._save_stream_to_disk cfg file dest (with_assignments asg w)
  = (fst (Students._save_stream_to_disk cfg file dest w),
     with_assignments asg
       (snd (Students._save_stream_to_disk cfg file dest w))).
Proof.
  unfold Students._save_stream_to_disk.
  rewrite !bind_open_wb.
  change (mkWorld (db (with_assignments asg w))
            (<[fs_key cfg dest := []]> (files (with_assignments asg w)))
            (trace (with_assignments asg w) ++ [EvOpen (fs_key cfg dest)]))
    with (with_assignments asg
            (mkWorld (db w) (<[fs_key cfg dest := []]> (files w))
               (trace w ++ [EvOpen (fs_key cfg dest)]))).
  set (w0 := mkWorld (db w) (<[fs_key cfg dest := []]> (files w))
               (trace w ++ [EvOpen (fs_key cfg dest)])).
  unfold bind.
  rewrite (save_loop_assignments cfg dest asg (S (length (body file)))
             (body file) 0 w0).
  destruct (Students.save_loop (S (length (body file))) cfg dest
              (body file) 0 w0) as [[[t|]|e] w1];
    reflexivity.
Qed.

Lemma after_remove_assignments cfg p asg w :
  after_remove cfg p (with_assignments asg w)
  = with_assignments asg (after_remove cfg p w).
Proof.
  unfold after_remove.
  change (removable cfg (with_assignments asg w) (candidate cfg p))
    with (removable cfg w (candidate cfg p)).
  destruct (removable cfg w (candidate cfg p)); reflexivity.
Qed.

(** X24.  The edits of a submission by its student never look at the
    assignment: changing the notes, replacing the file and deleting give
    the same answer and make the same changes whatever the [Assignment]
    table holds, so the deadline that closes new uploads does not close
    them. *)
Theorem edits_ignore_assignments cfg env req user w asg sid :
  student_edit req = Some sid ->
  handle cfg env req user (with_assignments asg w)
  = (fst (handle cfg env req user w),
     with_assignments asg (snd (handle cfg env req user w))).
Proof.
  intros Ht.
  destruct req; try discriminate; cbn [handle]; unfold bind, ret.
  - rewrite !update_submission_notes_run.
    change (student_edit_guard (with_assignments asg w) sid0 true user)
      with (student_edit_guard w sid0 true user).
    destruct (student_edit_guard w sid0 true user); [reflexivity|].
    destruct (db_fault env); reflexivity.
  - rewrite !replace_submission_file_run.
    change (student_edit_guard (with_assignments asg w) sid0 true user)
      with (student_edit_guard w sid0 true user).
    destruct (student_edit_guard w sid0 true user) as [e|sub]; [reflexivity|].
    destruct (ext_refused file); [reflexivity|].
    rewrite save_stream_assignments.
    destruct (Students._save_stream_to_disk cfg file _ w) as [[n|e] w1];
      cbn [fst snd]; [|reflexivity].
    destruct (db_fault env); cbn zeta.
    + rewrite after_remove_assignments. reflexivity.
    + destruct (truthy (file_path sub) && _); [|reflexivity].
      change (committed
                (with_submission (db (with_assignments asg w1))
                   (replaced_row env file sub))
                (with_assignments asg w1))
        with (with_assignments asg
                (committed
                   (with_submission (db w1) (replaced_row env file sub))
                   w1)).
      rewrite after_remove_assignments. reflexivity.
  - rewrite !student_delete_submission_run.
    change (student_edit_guard (with_assignments asg w) sid0
              allow_when_needs_revision user)
      with (student_edit_guard w sid0 allow_when_needs_revision user).
    destruct (student_edit_guard w sid0 allow_when_needs_revision user)
      as [e|sub]; [reflexivity|].
    change (has_feedback (db (with_assignments asg w)) sub)
      with (has_feedback (db w) sub).
    destruct (bool_decide _ || _); [reflexivity|].
    change (committed (without_submission (db (with_assignments asg w)) sub)
              (with_assignments asg w))
      with (with_assignments asg
              (committed (without_submission (db w) sub) w)).
    rewrite after_remove_assignments. reflexivity.
Qed.

Lemma edits_ignore_assignments_witness :
  fst (handle cfg0 env0 (PATCH_student_submission_file 1 report_pdf)
         student7
         (with_assignments [mkAssignment 10 3 (Some 0)] (w_sub "Pending")))
  = fst (handle cfg0 env0 (PATCH_student_submission_file 1 report_pdf)
           student7 (w_sub "Pending")).
Proof.
  rewrite (edits_ignore_assignments cfg0 env0
             (PATCH_student_submission_file 1 report_pdf) student7
             (w_sub "Pending") [mkAssignment 10 3 (Some 0)] 1 eq_refl).
  reflexivity.
Defined.

(** ** Stored paths *)

(** For a generated name, the upload's destination is a direct child of
    the storage root, and both delete routes find it from the public
    path. *)
Lemma plain_name_paths (cfg : Settings) (u : str) :
  generated_name u ->
  let dest := joinpath (Students.UPLOAD_DIR cfg) (parse u) in
  candidate cfg (Students._public_path_for u) = dest
  /\ Submissions._disk_path_from_public cfg (Students._public_path_for u)
     = dest
  /\ inside_root cfg (fs_key cfg dest) = true.
Proof.
  intros [Hs H95] dest.
  assert (Hn : u <> []) by (intros E; rewrite E in H95; destruct H95).
  assert (Hd : u <> [dot]).
  { intros E. rewrite E in H95. vm_compute in H95. intuition discriminate. }
  assert (Hdd : u <> [dot; dot]).
  { intros E. rewrite E in H95. vm_compute in H95. intuition discriminate. }
  assert (Hp : parse u = mkPath Rel [u]) by now apply parse_single.
  split; [|split].
  - unfold candidate. rewrite name_parse_public by assumption. reflexivity.
  - unfold Submissions._disk_path_from_public, Students._public_path_for.
    change (truthy (py "/uploads/" ++ u)) with true. cbn [negb].
    rewrite startswith_app, remove_uploads_prefix by done. reflexivity.
  - unfold inside_root. subst dest. rewrite Hp.
    generalize (Students.UPLOAD_DIR cfg). intros [a parts].
    unfold fs_key, joinpath, resolve.
    destruct a; cbn [p_anchor p_parts];
      rewrite ?app_assoc, collapse_snoc by assumption; apply is_prefix_app.
Qed.

Lemma upload_public_generated env file :
  ~ In slash (uuid_hex env) ->
  exists u,
    generated_name u /\ upload_public env file = Students._public_path_for u.
Proof.
  intros Hu. exists (upload_unique_name env file). split; [|reflexivity].
  apply (unique_name_props env
           (or_default (Some (or_default (filename file) (py "upload")))
              (py "upload")) Hu).
Qed.

Lemma step_paths_generated env d d' :
  ~ In slash (uuid_hex env) ->
  db_step env d d' -> paths_generated d -> paths_generated d'.
Proof.
  unfold paths_generated. intros Hu Hstep Hv.
  destruct Hstep
    as [|row file Hrow Hp|sub Hfb|sub row fbs Hsub Hst Hp Hfbs|fbs Hfbs];
    cbn [Submission_table without_submission]; auto.
  - apply Forall_app. split; [done|]. constructor; [|constructor].
    cbn [set_submission_id file_path]. rewrite Hp.
    now apply upload_public_generated.
  - apply List.Forall_forall. intros s Hs.
    apply List.filter_In in Hs as [Hs _].
    rewrite List.Forall_forall in Hv. auto.
  - unfold replace_submission. apply List.Forall_forall. intros s Hs.
    apply List.in_map_iff in Hs as (s0 & <- & Hs0).
    rewrite List.Forall_forall in Hv.
    destruct (submission_id s0 =? submission_id row); [|auto].
    destruct Hp as [->|(file & ->)].
    + apply find_Some_id in Hsub as [_ Hin]. auto.
    + now apply upload_public_generated.
Qed.

(** X25.  Every [file_path] the routes store is the public path of a
    generated storage name, over any sequence of requests, whatever file
    names the uploads carry.  So for every stored row the owner's delete
    route and the admin's compute the same file, and it lies directly
    under the storage root: the guard against paths outside the root is
    never needed for a row the routes wrote. *)
Theorem stored_paths_stay_generated cfg calls w :
  uuids_plain calls ->
  paths_generated (db w) ->
  paths_generated (db (Site.serve_all cfg calls w))
  /\ forall s,
       In s (Submission_table (db (Site.serve_all cfg calls w))) ->
       Submissions._disk_path_from_public cfg (file_path s)
       = candidate cfg (file_path s)
       /\ inside_root cfg (fs_key cfg (candidate cfg (file_path s))) = true.
Proof.
  intros Hu Hw.
  assert (paths_generated (db (Site.serve_all cfg calls w))) as Hg.
  { apply (serve_all_keeps paths_generated); auto.
    intros env d d'. apply step_paths_generated. }
  split; [exact Hg|]. intros s Hs.
  unfold paths_generated in Hg. rewrite List.Forall_forall in Hg.
  destruct (Hg s Hs) as (u & Hgen & ->).
  destruct (plain_name_paths cfg u Hgen) as (-> & -> & Hin). auto.
Qed.

Lemma stored_paths_stay_generated_witness :
  paths_generated
    (db (Site.serve_all cfg0 Scenario.session (w_sub "Pending"))).
Proof.
  apply stored_paths_stay_generated.
  - unfold uuids_plain. repeat apply List.Forall_cons;
      try apply List.Forall_nil; vm_compute; intuition discriminate.
  - apply List.Forall_cons; [|apply List.Forall_nil].
    exists (py "aaaa_old.pdf"). split; [|reflexivity].
    split; vm_compute; intuition discriminate.
Defined.
